(** * HydrationReminder: the reminder overlay of [drink_reminder.py]

    A shallow embedding of the scheduling, lifecycle, placement,
    formatting and configuration code of the hydration reminder, and the
    properties of its specification proved (or refuted) against it.

    Conventions.
    - Python [int] is [Z]; [//] and [%] with a positive divisor are
      [Z.div] and [Z.modulo] (both floor).
    - Times are milliseconds: a [QDateTime] is the number of
      milliseconds since the epoch.
    - Python [float] is an IEEE binary64 value, [spec_float] of the
      standard library; floats are converted, multiplied once (the pop
      effect) and stored, never interpolated.
    - A Python exception is a [Raise] in the [result] monad.
    - Qt objects are records of the properties the code reads and writes. *)

From Stdlib Require Import ZArith Lia Bool List String Ascii DecimalString SpecFloat.
From stdpp Require Import base option gmap strings list.

Set Warnings "-register-all".
Open Scope Z_scope.

(** ** Python values, exceptions and builtins *)

Inductive exn := TypeError | ValueError | OverflowError.

Inductive result (A : Type) :=
| Ok (a : A)
| Raise (e : exn).
Arguments Ok {A} a.
Arguments Raise {A} e.

#[global] Instance result_ret : MRet result := fun A a => Ok a.
#[global] Instance result_bind : MBind result := fun A B f m =>
  match m with
  | Ok a => f a
  | Raise e => Raise e
  end.

(** [try: m except (TypeError, ValueError): handler] *)
Definition try_except_TypeError_ValueError {A} (m handler : result A) : result A :=
  match m with
  | Raise TypeError | Raise ValueError => handler
  | _ => m
  end.

(** The values [json.loads] produces; a [dict] has [str] keys. *)
Inductive pyval :=
| PNone
| PBool (b : bool)
| PInt (n : Z)
| PFloat (f : spec_float)
| PStr (s : string)
| PList (l : list pyval)
| PDict (d : gmap string pyval).

(** What Python's text conversions do is a parameter of the model: the
    grammar of numeric literals read by [int(str)] and [float(str)]
    ([None] is [ValueError]), the [repr] of floats and containers, and
    the storage directory found when the module is imported. *)
Class PyRuntime := {
  int_of_str : string -> option Z;
  float_of_str : string -> option spec_float;
  repr : pyval -> string;
  STORAGE_ASSETS_DIR : string;
}.

Module Py.

(** [str(n)] / [f"{n}"] for an [int]. *)
Definition str_int (n : Z) : string := NilZero.string_of_int (Z.to_int n).

(** [sep.join(parts)]. *)
Definition join (sep : string) (parts : list string) : string :=
  String.concat sep parts.

(** [needle in hay] for two [str]. *)
Fixpoint contains (needle hay : string) : bool :=
  String.prefix needle hay
  || match hay with
     | EmptyString => false
     | String _ rest => contains needle rest
     end.

(** binary64 *)
Definition prec : Z := 53.
Definition emax : Z := 1024.

(** [float(n)] for an [int]: correctly rounded, [OverflowError] when the
    result is not finite. *)
Definition float_of_int (n : Z) : result spec_float :=
  match binary_normalize prec emax n 0 false with
  | S754_infinity _ => Raise OverflowError
  | f => Ok f
  end.

(** The float literal [n/d] for small exact [n] and [d] (0.9 is [9/10]):
    the correctly rounded quotient is the double nearest to the decimal. *)
Definition float_lit (n d : Z) : spec_float :=
  SFdiv prec emax (binary_normalize prec emax n 0 false)
                  (binary_normalize prec emax d 0 false).

(** [int(f)] for a [float]: truncation toward zero. *)
Definition int_of_float (f : spec_float) : result Z :=
  match f with
  | S754_nan => Raise ValueError
  | S754_infinity _ => Raise OverflowError
  | S754_zero _ => Ok 0
  | S754_finite s m e =>
      let magnitude := if 0 <=? e then Z.pos m * 2 ^ e else Z.pos m / 2 ^ (- e) in
      Ok (if s then - magnitude else magnitude)
  end.

(** [int(v)] *)
Definition int `{PyRuntime} (v : pyval) : result Z :=
  match v with
  | PNone => Raise TypeError
  | PBool b => Ok (if b then 1 else 0)
  | PInt n => Ok n
  | PFloat f => int_of_float f
  | PStr s => match int_of_str s with Some n => Ok n | None => Raise ValueError end
  | PList _ | PDict _ => Raise TypeError
  end.

(** [float(v)] *)
Definition float `{PyRuntime} (v : pyval) : result spec_float :=
  match v with
  | PNone => Raise TypeError
  | PBool b => float_of_int (if b then 1 else 0)
  | PInt n => float_of_int n
  | PFloat f => Ok f
  | PStr s => match float_of_str s with Some f => Ok f | None => Raise ValueError end
  | PList _ | PDict _ => Raise TypeError
  end.

(** [bool(v)]: truth value. *)
Definition bool (v : pyval) : Datatypes.bool :=
  match v with
  | PNone => false
  | PBool b => b
  | PInt n => negb (n =? 0)
  | PFloat (S754_zero _) => false
  | PFloat _ => true
  | PStr s => negb (String.eqb s "")
  | PList l => negb (Nat.eqb (length l) 0)
  | PDict d => negb (Nat.eqb (size d) 0)
  end.

(** [str(v)] *)
Definition str `{PyRuntime} (v : pyval) : string :=
  match v with
  | PStr s => s
  | PInt n => str_int n
  | PBool true => "True"
  | PBool false => "False"
  | PNone => "None"
  | _ => repr v
  end.

(** [d.get(key, default)] *)
Definition get (d : gmap string pyval) (key : string) (dflt : pyval) : pyval :=
  default dflt (d !! key).

(** [random.randint(a, b)]: [entropy] is what the generator draws. *)
Definition randint (a b entropy : Z) : Z := a + entropy mod (b - a + 1).

End Py.

(** ** Utility helpers *)

(** [format_interval(milliseconds)] *)
Definition format_interval (milliseconds : Z) : string :=
  let minutes_total := Z.max 0 (milliseconds / 60000) in
  let hours := minutes_total / 60 in
  let minutes := minutes_total mod 60 in
  let parts : list string := [] in
  let parts :=
    if negb (hours =? 0)
    then parts ++ [Py.str_int hours +:+ " hour" +:+ (if negb (hours =? 1) then "s" else "")]
    else parts in
  let parts :=
    if negb (minutes =? 0)
    then parts ++ [Py.str_int minutes +:+ " minute" +:+ (if negb (minutes =? 1) then "s" else "")]
    else parts in
  match parts with
  | [] => "less than a minute"
  | _ => Py.join " " parts
  end.

(** [format_short_duration(milliseconds)] *)
Definition format_short_duration (milliseconds : Z) : string :=
  if milliseconds <=? 0 then "now"
  else
    let seconds_total := milliseconds / 1000 in
    let hours := seconds_total / 3600 in
    let remainder := seconds_total mod 3600 in
    let minutes := remainder / 60 in
    let seconds := remainder mod 60 in
    let parts : list string := [] in
    let parts := if negb (hours =? 0) then parts ++ [Py.str_int hours +:+ "h"] else parts in
    let parts :=
      if negb (minutes =? 0) || negb (hours =? 0)
      then parts ++ [Py.str_int minutes +:+ "m"] else parts in
    let parts := if hours =? 0 then parts ++ [Py.str_int seconds +:+ "s"] else parts in
    Py.join " " parts.

(** ** Colors *)

(** A [QColor] in the RGB model. *)
Record QColor := {
  red : Z;
  green : Z;
  blue : Z;
  alpha : Z;
  isValid : bool;
}.

Definition c_int (n : Z) : bool := (- 2 ^ 31 <=? n) && (n <? 2 ^ 31).

(** [QtGui.QColor(r, g, b, a)]: the binding takes C [int]s and raises
    [OverflowError] beyond them; a component outside 0..255 leaves the
    colour invalid. *)
Definition QColor_rgba (r g b a : Z) : result QColor :=
  if c_int r && c_int g && c_int b && c_int a then
    let in_range c := (0 <=? c) && (c <=? 255) in
    if in_range r && in_range g && in_range b && in_range a
    then Ok {| red := r; green := g; blue := b; alpha := a; isValid := true |}
    else Ok {| red := 0; green := 0; blue := 0; alpha := 255; isValid := false |}
  else Raise OverflowError.

Definition rgba (r g b a : Z) : QColor :=
  {| red := r; green := g; blue := b; alpha := a; isValid := true |}.

(** [color_to_dict(color)] *)
Definition color_to_dict (color : QColor) : gmap string pyval :=
  list_to_map [ ("r", PInt (red color)); ("g", PInt (green color));
                ("b", PInt (blue color)); ("a", PInt (alpha color)) ].

(** [color_from_dict(data, fallback)] *)
Definition color_from_dict `{PyRuntime} (data : pyval) (fallback : QColor) : result QColor :=
  match data with
  | PDict data =>
      try_except_TypeError_ValueError
        (r ← Py.int (Py.get data "r" (PInt (red fallback)));
         g ← Py.int (Py.get data "g" (PInt (green fallback)));
         b ← Py.int (Py.get data "b" (PInt (blue fallback)));
         a ← Py.int (Py.get data "a" (PInt (alpha fallback)));
         color ← QColor_rgba r g b a;
         if negb (isValid color) then Ok fallback else Ok color)
        (Ok fallback)
  | _ => Ok fallback
  end.

(** ** Configuration *)

(** [AppConfig]; a [Path] is held as its text. *)
Record AppConfig := {
  reminder_interval_ms : Z;
  auto_hide_ms : Z;
  animation_interval_ms : Z;
  show_preview_on_launch : bool;
  preview_delay_ms : Z;
  asset_directory : string;
  position : string;
  margin_x : Z;
  margin_y : Z;
  random_offset_ms : Z;
  overlay_width : Z;
  overlay_height : Z;
  overlay_opacity : spec_float;
  background_radius : Z;
  gradient_top : QColor;
  gradient_bottom : QColor;
  border_color : QColor;
  shadow_color : QColor;
  title_text : string;
  title_font_size : Z;
  title_color : QColor;
  message_template : string;
  message_font_size : Z;
  text_opacity : spec_float;
  text_color : QColor;
  countdown_enabled : bool;
  countdown_template : string;
  countdown_font_size : Z;
  countdown_color : QColor;
  animation_enabled : bool;
  entry_animation : string;
  monitor_id : string;
  autostart_enabled : bool;
}.

(** [AppConfig()]: the dataclass defaults. *)
Definition AppConfig_default `{PyRuntime} : AppConfig := {|
  reminder_interval_ms := 45 * 60 * 1000;
  auto_hide_ms := 15 * 1000;
  animation_interval_ms := 200;
  show_preview_on_launch := true;
  preview_delay_ms := 2000;
  asset_directory := STORAGE_ASSETS_DIR;
  position := "bottom_right";
  margin_x := 16;
  margin_y := 16;
  random_offset_ms := 0;
  overlay_width := 360;
  overlay_height := 180;
  overlay_opacity := Py.float_lit 1 1;
  background_radius := 24;
  gradient_top := rgba 28 116 235 235;
  gradient_bottom := rgba 80 170 255 235;
  border_color := rgba 255 255 255 200;
  shadow_color := rgba 0 0 0 90;
  title_text := "Hydration break";
  title_font_size := 22;
  title_color := rgba 255 255 255 255;
  message_template := "It's time to take a sip of water." +:+ String "010" "Every {interval}";
  message_font_size := 14;
  text_opacity := Py.float_lit 95 100;
  text_color := rgba 235 238 245 255;
  countdown_enabled := true;
  countdown_template := "Next reminder in {remaining}.";
  countdown_font_size := 12;
  countdown_color := rgba 255 255 255 255;
  animation_enabled := true;
  entry_animation := "fade";
  monitor_id := "auto";
  autostart_enabled := false;
|}.

(** [AppConfig.to_dict] *)
Definition to_dict (self : AppConfig) : gmap string pyval :=
  list_to_map [
    ("reminder_interval_ms", PInt (reminder_interval_ms self));
    ("auto_hide_ms", PInt (auto_hide_ms self));
    ("animation_interval_ms", PInt (animation_interval_ms self));
    ("show_preview_on_launch", PBool (show_preview_on_launch self));
    ("preview_delay_ms", PInt (preview_delay_ms self));
    ("asset_directory", PStr (asset_directory self));
    ("position", PStr (position self));
    ("margin_x", PInt (margin_x self));
    ("margin_y", PInt (margin_y self));
    ("random_offset_ms", PInt (random_offset_ms self));
    ("overlay_width", PInt (overlay_width self));
    ("overlay_height", PInt (overlay_height self));
    ("overlay_opacity", PFloat (overlay_opacity self));
    ("background_radius", PInt (background_radius self));
    ("gradient_top", PDict (color_to_dict (gradient_top self)));
    ("gradient_bottom", PDict (color_to_dict (gradient_bottom self)));
    ("border_color", PDict (color_to_dict (border_color self)));
    ("shadow_color", PDict (color_to_dict (shadow_color self)));
    ("title_text", PStr (title_text self));
    ("title_font_size", PInt (title_font_size self));
    ("title_color", PDict (color_to_dict (title_color self)));
    ("message_template", PStr (message_template self));
    ("message_font_size", PInt (message_font_size self));
    ("text_opacity", PFloat (text_opacity self));
    ("text_color", PDict (color_to_dict (text_color self)));
    ("countdown_enabled", PBool (countdown_enabled self));
    ("countdown_template", PStr (countdown_template self));
    ("countdown_font_size", PInt (countdown_font_size self));
    ("countdown_color", PDict (color_to_dict (countdown_color self)));
    ("animation_enabled", PBool (animation_enabled self));
    ("entry_animation", PStr (entry_animation self));
    ("monitor_id", PStr (monitor_id self));
    ("autostart_enabled", PBool (autostart_enabled self))
  ].

(** The local helpers of [from_dict]. *)
Definition get_int `{PyRuntime} (data : gmap string pyval) (key : string) (dflt : Z) : result Z :=
  try_except_TypeError_ValueError (Py.int (Py.get data key (PInt dflt))) (Ok dflt).

Definition get_float `{PyRuntime} (data : gmap string pyval) (key : string) (dflt : spec_float)
  : result spec_float :=
  try_except_TypeError_ValueError (Py.float (Py.get data key (PFloat dflt))) (Ok dflt).

(** [AppConfig.from_dict(data)] *)
Definition from_dict `{PyRuntime} (data : pyval) : result AppConfig :=
  let config := AppConfig_default in
  match data with
  | PDict data =>
      reminder_interval_ms' ← get_int data "reminder_interval_ms" (reminder_interval_ms config);
      auto_hide_ms' ← get_int data "auto_hide_ms" (auto_hide_ms config);
      animation_interval_ms' ← get_int data "animation_interval_ms" (animation_interval_ms config);
      let show_preview_on_launch' :=
        Py.bool (Py.get data "show_preview_on_launch" (PBool (show_preview_on_launch config))) in
      preview_delay_ms' ← get_int data "preview_delay_ms" (preview_delay_ms config);
      let position' := Py.str (Py.get data "position" (PStr (position config))) in
      margin_x' ← get_int data "margin_x" (margin_x config);
      margin_y' ← get_int data "margin_y" (margin_y config);
      random_offset_ms' ← get_int data "random_offset_ms" (random_offset_ms config);
      overlay_width' ← get_int data "overlay_width" (overlay_width config);
      overlay_height' ← get_int data "overlay_height" (overlay_height config);
      overlay_opacity' ← get_float data "overlay_opacity" (overlay_opacity config);
      background_radius' ← get_int data "background_radius" (background_radius config);
      gradient_top' ← color_from_dict (Py.get data "gradient_top" PNone) (gradient_top config);
      gradient_bottom' ← color_from_dict (Py.get data "gradient_bottom" PNone) (gradient_bottom config);
      border_color' ← color_from_dict (Py.get data "border_color" PNone) (border_color config);
      shadow_color' ← color_from_dict (Py.get data "shadow_color" PNone) (shadow_color config);
      let title_text' := Py.str (Py.get data "title_text" (PStr (title_text config))) in
      title_font_size' ← get_int data "title_font_size" (title_font_size config);
      title_color' ← color_from_dict (Py.get data "title_color" PNone) (title_color config);
      let message_template' :=
        Py.str (Py.get data "message_template" (PStr (message_template config))) in
      message_font_size' ← get_int data "message_font_size" (message_font_size config);
      text_opacity' ← get_float data "text_opacity" (text_opacity config);
      text_color' ← color_from_dict (Py.get data "text_color" PNone) (text_color config);
      let countdown_enabled' :=
        Py.bool (Py.get data "countdown_enabled" (PBool (countdown_enabled config))) in
      let countdown_template' :=
        Py.str (Py.get data "countdown_template" (PStr (countdown_template config))) in
      countdown_font_size' ← get_int data "countdown_font_size" (countdown_font_size config);
      countdown_color' ← color_from_dict (Py.get data "countdown_color" PNone) (countdown_color config);
      let animation_enabled' :=
        Py.bool (Py.get data "animation_enabled" (PBool (animation_enabled config))) in
      let entry_animation' := Py.str (Py.get data "entry_animation" (PStr (entry_animation config))) in
      let monitor_id' := Py.str (Py.get data "monitor_id" (PStr (monitor_id config))) in
      let autostart_enabled' :=
        Py.bool (Py.get data "autostart_enabled" (PBool (autostart_enabled config))) in
      Ok {|
        reminder_interval_ms := reminder_interval_ms';
        auto_hide_ms := auto_hide_ms';
        animation_interval_ms := animation_interval_ms';
        show_preview_on_launch := show_preview_on_launch';
        preview_delay_ms := preview_delay_ms';
        asset_directory := STORAGE_ASSETS_DIR;
        position := position';
        margin_x := margin_x';
        margin_y := margin_y';
        random_offset_ms := random_offset_ms';
        overlay_width := overlay_width';
        overlay_height := overlay_height';
        overlay_opacity := overlay_opacity';
        background_radius := background_radius';
        gradient_top := gradient_top';
        gradient_bottom := gradient_bottom';
        border_color := border_color';
        shadow_color := shadow_color';
        title_text := title_text';
        title_font_size := title_font_size';
        title_color := title_color';
        message_template := message_template';
        message_font_size := message_font_size';
        text_opacity := text_opacity';
        text_color := text_color';
        countdown_enabled := countdown_enabled';
        countdown_template := countdown_template';
        countdown_font_size := countdown_font_size';
        countdown_color := countdown_color';
        animation_enabled := animation_enabled';
        entry_animation := entry_animation';
        monitor_id := monitor_id';
        autostart_enabled := autostart_enabled';
      |}
  | _ => Ok config
  end.

(** ** Qt values: rectangles, screens, timers, movies, animations *)

Module QRect.

(** A [QRect] by its [x()], [y()], [width()] and [height()]. *)
Record t := {
  x : Z;
  y : Z;
  width : Z;
  height : Z;
}.

Definition top (r : t) : Z := y r.

(** [r.moveTop(pos)]: the size is kept. *)
Definition moveTop (pos : Z) (r : t) : t :=
  {| x := x r; y := pos; width := width r; height := height r |}.

Definition setWidth (w : Z) (r : t) : t :=
  {| x := x r; y := y r; width := w; height := height r |}.

Definition setHeight (h : Z) (r : t) : t :=
  {| x := x r; y := y r; width := width r; height := h |}.

(** [r.center()]: the mean of the left and right (top and bottom)
    pixel, rounded toward zero. *)
Definition center (r : t) : Z * Z :=
  ((x r + (x r + width r - 1)) ÷ 2, (y r + (y r + height r - 1)) ÷ 2).

(** [r.moveCenter(p)]: the size is kept. *)
Definition moveCenter (p : Z * Z) (r : t) : t :=
  {| x := fst p - (width r - 1) ÷ 2;
     y := snd p - (height r - 1) ÷ 2;
     width := width r;
     height := height r |}.

End QRect.

Record QScreen := {
  name : string;
  availableGeometry : QRect.t;
}.

Record QTimer := {
  isActive : bool;
  interval : Z;
  isSingleShot : bool;
}.

Module QTimer_.

Definition new : QTimer := {| isActive := false; interval := 0; isSingleShot := false |}.

Definition setSingleShot (b : bool) (t : QTimer) : QTimer :=
  {| isActive := isActive t; interval := interval t; isSingleShot := b |}.

Definition setInterval (msec : Z) (t : QTimer) : QTimer :=
  {| isActive := isActive t; interval := msec; isSingleShot := isSingleShot t |}.

(** [t.start()] *)
Definition start (t : QTimer) : QTimer :=
  {| isActive := true; interval := interval t; isSingleShot := isSingleShot t |}.

(** [t.start(msec)] *)
Definition start_msec (msec : Z) (t : QTimer) : QTimer := start (setInterval msec t).

Definition stop (t : QTimer) : QTimer :=
  {| isActive := false; interval := interval t; isSingleShot := isSingleShot t |}.

(** The timer as its [timeout] slot finds it: a single-shot timer has
    been stopped. *)
Definition fired (t : QTimer) : QTimer := if isSingleShot t then stop t else t.

End QTimer_.

(** A [QMovie]: whether it is playing. *)
Record QMovie := { running : bool }.

Inductive QPixmap :=
| frame_png (index : nat)      (* frame<index>.png of the asset directory *)
| fallback_pixmap.             (* create_fallback_pixmap() *)

(** What [animation_label] displays. *)
Inductive LabelContent :=
| label_empty
| label_pixmap (pixmap : QPixmap)
| label_movie.

Inductive QVariant :=
| v_float (f : spec_float)
| v_rect (r : QRect.t).

Inductive PropertyName := windowOpacity_property | geometry_property.

Inductive EasingType := Linear | OutCubic | InQuad | InCubic | InBack.

(** [QAbstractAnimation.State], with the reason why a stopped animation
    stopped: by [stop()] (cancelled), or by reaching its end
    (completed); Qt reports [Stopped] for both, and also before
    [start()]. *)
Inductive AnimationState := NotStarted | Running | Cancelled | Completed.

(** The callbacks the code passes around as closures, by the function
    that defines them and the values they capture. *)
Inductive Callback :=
| hide_overlay_finalize.                        (* finalize of hide_overlay *)

Inductive Finalize :=
| entry_finalize (target_opacity : spec_float) (end_rect : QRect.t)
| exit_fade_finalize (on_finished : Callback)
| exit_geometry_finalize (start_rect : QRect.t) (on_finished : Callback).

(** A [QPropertyAnimation] on the overlay; [finished_cleanup] is the
    [cleanup] closure connected to [finished], by the [finalize] it
    captured ([None]: nothing connected yet). *)
Record QPropertyAnimation := {
  propertyName : PropertyName;
  startValue : QVariant;
  endValue : QVariant;
  duration : Z;
  easingCurve : EasingType;
  state : AnimationState;
  finished_cleanup : option (option Finalize);
  deleteLater : bool;
}.

Module QAnimation.

Definition new (p : PropertyName) : QPropertyAnimation :=
  {| propertyName := p; startValue := v_float (S754_zero false);
     endValue := v_float (S754_zero false); duration := 250; easingCurve := Linear;
     state := NotStarted; finished_cleanup := None; deleteLater := false |}.

Definition setStartValue (v : QVariant) (a : QPropertyAnimation) : QPropertyAnimation :=
  {| propertyName := propertyName a; startValue := v; endValue := endValue a;
     duration := duration a; easingCurve := easingCurve a; state := state a;
     finished_cleanup := finished_cleanup a; deleteLater := deleteLater a |}.

Definition setEndValue (v : QVariant) (a : QPropertyAnimation) : QPropertyAnimation :=
  {| propertyName := propertyName a; startValue := startValue a; endValue := v;
     duration := duration a; easingCurve := easingCurve a; state := state a;
     finished_cleanup := finished_cleanup a; deleteLater := deleteLater a |}.

Definition setDuration (msecs : Z) (a : QPropertyAnimation) : QPropertyAnimation :=
  {| propertyName := propertyName a; startValue := startValue a; endValue := endValue a;
     duration := msecs; easingCurve := easingCurve a; state := state a;
     finished_cleanup := finished_cleanup a; deleteLater := deleteLater a |}.

Definition setEasingCurve (e : EasingType) (a : QPropertyAnimation) : QPropertyAnimation :=
  {| propertyName := propertyName a; startValue := startValue a; endValue := endValue a;
     duration := duration a; easingCurve := e; state := state a;
     finished_cleanup := finished_cleanup a; deleteLater := deleteLater a |}.

Definition setState (st : AnimationState) (a : QPropertyAnimation) : QPropertyAnimation :=
  {| propertyName := propertyName a; startValue := startValue a; endValue := endValue a;
     duration := duration a; easingCurve := easingCurve a; state := st;
     finished_cleanup := finished_cleanup a; deleteLater := deleteLater a |}.

(** [a.finished.connect(cleanup)] *)
Definition connect_finished (finalize : option Finalize) (a : QPropertyAnimation)
  : QPropertyAnimation :=
  {| propertyName := propertyName a; startValue := startValue a; endValue := endValue a;
     duration := duration a; easingCurve := easingCurve a; state := state a;
     finished_cleanup := Some finalize; deleteLater := deleteLater a |}.

(** [a.deleteLater()] *)
Definition set_deleteLater (a : QPropertyAnimation) : QPropertyAnimation :=
  {| propertyName := propertyName a; startValue := startValue a; endValue := endValue a;
     duration := duration a; easingCurve := easingCurve a; state := state a;
     finished_cleanup := finished_cleanup a; deleteLater := true |}.

(** [a.stop()]: a running animation stops where it is and [finished]
    is not emitted; otherwise nothing happens. *)
Definition stop (a : QPropertyAnimation) : QPropertyAnimation :=
  match state a with
  | Running => setState Cancelled a
  | _ => a
  end.

End QAnimation.

(** ** The overlay widget *)

(** What the process reads from its surroundings during one callback. *)
Record World := {
  now : Z;                              (* QDateTime.currentDateTime() *)
  entropy : Z;                          (* the draw of the random generator *)
  screens : list QScreen;               (* QApplication.screens() *)
  screenAt_cursor : option QScreen;     (* QApplication.screenAt(QCursor.pos()) *)
  primaryScreen : QScreen;              (* QApplication.primaryScreen() *)
  parent_screen : option QScreen;       (* parentWidget().screen(), if any *)
  title_advance : Z;                    (* font metrics of the title *)
  message_advance : Z;                  (* font metrics of the widest message line *)
  animation_assets : list QPixmap * bool;  (* load_animation_assets: frames, movie found *)
}.

(** The window properties of the overlay widget. *)
Record Window := {
  isVisible : bool;
  windowOpacity : spec_float;
  geometry : QRect.t;
}.

(** [OverlayContent]: the label, the movie it plays, the size it fixed
    for itself, and the [remaining] text last handed to the countdown
    label. *)
Record OverlayContent := {
  animation_label : LabelContent;
  current_movie : bool;
  content_size : Z * Z;
  countdown_remaining : string;
}.

Record Assets := {
  frame_pixmaps : list QPixmap;
  fallback_movie : option QMovie;
  animation_index : nat;
  loaded_asset_dir : option string;
}.

Record Timers := {
  animation_timer : QTimer;
  auto_hide_timer : option QTimer;
  reminder_timer : option QTimer;
  countdown_timer : option QTimer;
}.

(** The animation objects created so far, by identity; [finalize_calls]
    records, oldest first, the animations whose [finalize] was called. *)
Record Animator := {
  active_animation : option nat;
  animations : gmap nat QPropertyAnimation;
  next_animation : nat;
  finalize_calls : list nat;
}.

(** [ReminderOverlay] *)
Record ReminderOverlay := {
  preview : bool;
  config : AppConfig;
  window : Window;
  content : OverlayContent;
  assets : Assets;
  timers : Timers;
  animator : Animator;
  next_reminder : Z;
}.

(** Attribute assignment. *)
Definition with_config (c : AppConfig) (self : ReminderOverlay) : ReminderOverlay :=
  {| preview := preview self; config := c; window := window self; content := content self;
     assets := assets self; timers := timers self; animator := animator self;
     next_reminder := next_reminder self |}.

Definition with_window (f : Window -> Window) (self : ReminderOverlay) : ReminderOverlay :=
  {| preview := preview self; config := config self; window := f (window self);
     content := content self; assets := assets self; timers := timers self;
     animator := animator self; next_reminder := next_reminder self |}.

Definition with_content (f : OverlayContent -> OverlayContent) (self : ReminderOverlay)
  : ReminderOverlay :=
  {| preview := preview self; config := config self; window := window self;
     content := f (content self); assets := assets self; timers := timers self;
     animator := animator self; next_reminder := next_reminder self |}.

Definition with_assets (f : Assets -> Assets) (self : ReminderOverlay) : ReminderOverlay :=
  {| preview := preview self; config := config self; window := window self;
     content := content self; assets := f (assets self); timers := timers self;
     animator := animator self; next_reminder := next_reminder self |}.

Definition with_timers (f : Timers -> Timers) (self : ReminderOverlay) : ReminderOverlay :=
  {| preview := preview self; config := config self; window := window self;
     content := content self; assets := assets self; timers := f (timers self);
     animator := animator self; next_reminder := next_reminder self |}.

Definition with_animator (f : Animator -> Animator) (self : ReminderOverlay) : ReminderOverlay :=
  {| preview := preview self; config := config self; window := window self;
     content := content self; assets := assets self; timers := timers self;
     animator := f (animator self); next_reminder := next_reminder self |}.

Definition with_next_reminder (t : Z) (self : ReminderOverlay) : ReminderOverlay :=
  {| preview := preview self; config := config self; window := window self;
     content := content self; assets := assets self; timers := timers self;
     animator := animator self; next_reminder := t |}.

(** Window properties. *)
Definition set_visible (b : bool) (w : Window) : Window :=
  {| isVisible := b; windowOpacity := windowOpacity w; geometry := geometry w |}.

Definition setWindowOpacity (f : spec_float) (w : Window) : Window :=
  {| isVisible := isVisible w; windowOpacity := f; geometry := geometry w |}.

Definition setGeometry (r : QRect.t) (w : Window) : Window :=
  {| isVisible := isVisible w; windowOpacity := windowOpacity w; geometry := r |}.

(** [self.resize(size)], [self.setFixedSize(w, h)] *)
Definition resize (size : Z * Z) (w : Window) : Window :=
  setGeometry (QRect.setHeight (snd size) (QRect.setWidth (fst size) (geometry w))) w.

(** [self.move(x, y)] *)
Definition move (x y : Z) (w : Window) : Window :=
  setGeometry {| QRect.x := x; QRect.y := y;
                 QRect.width := QRect.width (geometry w);
                 QRect.height := QRect.height (geometry w) |} w.

Definition show (self : ReminderOverlay) : ReminderOverlay := with_window (set_visible true) self.
Definition hide (self : ReminderOverlay) : ReminderOverlay := with_window (set_visible false) self.

(** Writing an animated property. *)
Definition set_property (p : PropertyName) (v : QVariant) (w : Window) : Window :=
  match p, v with
  | windowOpacity_property, v_float f => setWindowOpacity f w
  | geometry_property, v_rect r => setGeometry r w
  | _, _ => w
  end.

(** Content attributes. *)
Definition set_label (l : LabelContent) (movie : bool) (c : OverlayContent) : OverlayContent :=
  {| animation_label := l; current_movie := movie; content_size := content_size c;
     countdown_remaining := countdown_remaining c |}.

Definition set_content_size (size : Z * Z) (c : OverlayContent) : OverlayContent :=
  {| animation_label := animation_label c; current_movie := current_movie c;
     content_size := size; countdown_remaining := countdown_remaining c |}.

(** [content.set_countdown_text]: the countdown template is expanded
    by [str.format], which is not modelled; the [remaining] text is kept. *)
Definition set_countdown_text (remaining : string) (c : OverlayContent) : OverlayContent :=
  {| animation_label := animation_label c; current_movie := current_movie c;
     content_size := content_size c; countdown_remaining := remaining |}.

(** Asset attributes. *)
Definition set_frame_pixmaps (l : list QPixmap) (a : Assets) : Assets :=
  {| frame_pixmaps := l; fallback_movie := fallback_movie a;
     animation_index := animation_index a; loaded_asset_dir := loaded_asset_dir a |}.

Definition set_fallback_movie (m : option QMovie) (a : Assets) : Assets :=
  {| frame_pixmaps := frame_pixmaps a; fallback_movie := m;
     animation_index := animation_index a; loaded_asset_dir := loaded_asset_dir a |}.

Definition set_animation_index (i : nat) (a : Assets) : Assets :=
  {| frame_pixmaps := frame_pixmaps a; fallback_movie := fallback_movie a;
     animation_index := i; loaded_asset_dir := loaded_asset_dir a |}.

Definition set_loaded_asset_dir (d : option string) (a : Assets) : Assets :=
  {| frame_pixmaps := frame_pixmaps a; fallback_movie := fallback_movie a;
     animation_index := animation_index a; loaded_asset_dir := d |}.

(** Timer attributes. *)
Definition on_animation_timer (f : QTimer -> QTimer) (t : Timers) : Timers :=
  {| animation_timer := f (animation_timer t); auto_hide_timer := auto_hide_timer t;
     reminder_timer := reminder_timer t; countdown_timer := countdown_timer t |}.

Definition on_auto_hide_timer (f : QTimer -> QTimer) (t : Timers) : Timers :=
  {| animation_timer := animation_timer t; auto_hide_timer := f <$> auto_hide_timer t;
     reminder_timer := reminder_timer t; countdown_timer := countdown_timer t |}.

Definition on_reminder_timer (f : QTimer -> QTimer) (t : Timers) : Timers :=
  {| animation_timer := animation_timer t; auto_hide_timer := auto_hide_timer t;
     reminder_timer := f <$> reminder_timer t; countdown_timer := countdown_timer t |}.

Definition on_countdown_timer (f : QTimer -> QTimer) (t : Timers) : Timers :=
  {| animation_timer := animation_timer t; auto_hide_timer := auto_hide_timer t;
     reminder_timer := reminder_timer t; countdown_timer := f <$> countdown_timer t |}.

(** Animator attributes. *)
Definition set_active_animation (a : option nat) (m : Animator) : Animator :=
  {| active_animation := a; animations := animations m;
     next_animation := next_animation m; finalize_calls := finalize_calls m |}.

Definition on_animation (a : nat) (f : QPropertyAnimation -> QPropertyAnimation) (m : Animator)
  : Animator :=
  {| active_animation := active_animation m; animations := alter f a (animations m);
     next_animation := next_animation m; finalize_calls := finalize_calls m |}.

(** A new animation object; its identity is the next unused one. *)
Definition new_animation (obj : QPropertyAnimation) (m : Animator) : Animator :=
  {| active_animation := active_animation m;
     animations := <[next_animation m := obj]> (animations m);
     next_animation := S (next_animation m); finalize_calls := finalize_calls m |}.

Definition log_finalize (a : nat) (m : Animator) : Animator :=
  {| active_animation := active_animation m; animations := animations m;
     next_animation := next_animation m; finalize_calls := finalize_calls m ++ [a] |}.

(** *** Content and assets *)

(** [OverlayContent.apply_config]: the size the content fixes for
    itself; fonts, colours and texts are not modelled. *)
Definition content_apply_config (w : World) (config : AppConfig) (c : OverlayContent)
  : OverlayContent :=
  let padding := 24 * 2 in
  let spacing := 20 in
  let available_height := Z.max 80 (overlay_height config - padding) in
  let image_size := Z.max 64 (Z.min 220 available_height) in
  let text_block_width := Z.max (Z.max (title_advance w) (message_advance w)) 160 in
  let total_width := padding + image_size + spacing + text_block_width in
  let total_width := Z.max (overlay_width config) total_width in
  set_content_size (total_width, overlay_height config) c.

(** [self.content.set_static_pixmap(pixmap)] *)
Definition set_static_pixmap (pixmap : QPixmap) (self : ReminderOverlay) : ReminderOverlay :=
  with_content (set_label (label_pixmap pixmap) false) self.

(** [self.content.set_movie(self.fallback_movie)]: the movie is started. *)
Definition set_movie (self : ReminderOverlay) : ReminderOverlay :=
  match fallback_movie (assets self) with
  | Some _ =>
      with_assets (set_fallback_movie (Some {| running := true |}))
        (with_content (set_label label_movie true) self)
  | None => with_content (set_label label_empty false) self
  end.

(** [self.frame_pixmaps[i]]; the code only reads below [len]. *)
Definition frame_at (i : nat) (self : ReminderOverlay) : QPixmap :=
  default fallback_pixmap (frame_pixmaps (assets self) !! i).

(** [load_assets] *)
Definition load_assets (w : World) (self : ReminderOverlay) : ReminderOverlay :=
  let '(frames, movie) := animation_assets w in
  let self := with_assets (set_frame_pixmaps frames) self in
  let self :=
    with_assets (set_fallback_movie (if movie then Some {| running := false |} else None)) self in
  let self :=
    with_assets (set_loaded_asset_dir (Some (asset_directory (config self)))) self in
  match frame_pixmaps (assets self), fallback_movie (assets self) with
  | _ :: _, _ =>
      let self := with_assets (set_animation_index 0%nat) self in
      set_static_pixmap (frame_at 0 self) self
  | [], Some _ => set_movie self
  | [], None => set_static_pixmap fallback_pixmap self
  end.

(** *** Placement *)

(** [_target_screen] *)
Definition _target_screen (w : World) (self : ReminderOverlay) : QScreen :=
  match (if preview self then parent_screen w else None) with
  | Some host_screen => host_screen
  | None =>
      match (if negb (String.eqb (monitor_id (config self)) "auto")
             then List.find (fun screen => String.eqb (name screen) (monitor_id (config self)))
                    (screens w)
             else None) with
      | Some screen => screen
      | None =>
          match screenAt_cursor w with
          | Some screen => screen
          | None => primaryScreen w
          end
      end
  end.

(** The coordinates [position_overlay] computes for an overlay of the
    given extent on the available geometry [geo]. *)
Definition overlay_position (config : AppConfig) (geo : QRect.t) (width height : Z) : Z * Z :=
  let margin_x := Z.max 0 (margin_x config) in
  let margin_y := Z.max 0 (margin_y config) in
  let x :=
    if Py.contains "right" (position config)
    then QRect.x geo + QRect.width geo - width - margin_x
    else QRect.x geo + margin_x in
  let y :=
    if Py.contains "bottom" (position config)
    then QRect.y geo + QRect.height geo - height - margin_y
    else QRect.y geo + margin_y in
  let x := Z.max (QRect.x geo) (Z.min x (QRect.x geo + QRect.width geo - width)) in
  let y := Z.max (QRect.y geo) (Z.min y (QRect.y geo + QRect.height geo - height)) in
  (x, y).

(** [position_overlay] *)
Definition position_overlay (w : World) (self : ReminderOverlay) : ReminderOverlay :=
  if preview self then self
  else
    let screen := _target_screen w self in
    let geo := availableGeometry screen in
    let width := QRect.width (geometry (window self)) in
    let height := QRect.height (geometry (window self)) in
    let '(x, y) := overlay_position (config self) geo width height in
    with_window (move x y) self.

(** *** Countdown and configuration *)

(** [update_countdown] *)
Definition update_countdown (w : World) (self : ReminderOverlay) : ReminderOverlay :=
  let friendly :=
    if preview self then "preview"
    else
      let remaining_ms := Z.max 0 (next_reminder self - now w) in
      format_short_duration remaining_ms in
  with_content
    (set_countdown_text (if countdown_enabled (config self) then friendly else "")) self.

(** [apply_config] *)
Definition apply_config (w : World) (config_ : AppConfig) (self : ReminderOverlay)
  : ReminderOverlay :=
  let self := with_config config_ self in
  let self := with_window (setWindowOpacity (overlay_opacity config_)) self in
  let self := with_content (content_apply_config w config_) self in
  let self := with_window (resize (content_size (content self))) self in
  let self :=
    if negb (bool_decide (loaded_asset_dir (assets self) = Some (asset_directory (config self))))
    then load_assets w self else self in
  let self := if negb (preview self) then position_overlay w self else self in
  let self := update_countdown w self in
  let self :=
    with_timers
      (on_animation_timer (QTimer_.setInterval (Z.max 10 (animation_interval_ms config_)))) self in
  if animation_enabled config_
     && (negb (bool_decide (frame_pixmaps (assets self) = []))
         || bool_decide (is_Some (fallback_movie (assets self))))
  then
    if negb (isActive (animation_timer (timers self)))
    then with_timers (on_animation_timer QTimer_.start) self
    else self
  else with_timers (on_animation_timer QTimer_.stop) self.

(** *** The reminder schedule *)

(** [schedule_next_reminder] *)
Definition schedule_next_reminder (w : World) (self : ReminderOverlay) : ReminderOverlay :=
  if preview self || negb (bool_decide (is_Some (reminder_timer (timers self)))) then self
  else
    let interval_ms := reminder_interval_ms (config self) in
    let interval_ms :=
      if 0 <? random_offset_ms (config self)
      then interval_ms + Py.randint 0 (random_offset_ms (config self)) (entropy w)
      else interval_ms in
    let interval_ms := Z.max 1000 interval_ms in
    let self := with_next_reminder (now w + interval_ms) self in
    let self := with_timers (on_reminder_timer (QTimer_.start_msec interval_ms)) self in
    update_countdown w self.

(** [reset_reminder_timer] *)
Definition reset_reminder_timer (w : World) (self : ReminderOverlay) : ReminderOverlay :=
  if preview self || negb (bool_decide (is_Some (reminder_timer (timers self)))) then self
  else
    let self := with_timers (on_reminder_timer QTimer_.stop) self in
    schedule_next_reminder w self.

(** *** Transition animations *)

(** [animation.start()] for an animation of positive duration: it runs,
    and the animated property takes the start value. *)
Definition animation_start (a : nat) (self : ReminderOverlay) : ReminderOverlay :=
  match animations (animator self) !! a with
  | Some obj =>
      let self := with_animator (on_animation a (QAnimation.setState Running)) self in
      with_window (set_property (propertyName obj) (startValue obj)) self
  | None => self
  end.

(** The callbacks, run. *)
Definition run_callback (cb : Callback) (self : ReminderOverlay) : ReminderOverlay :=
  match cb with
  | hide_overlay_finalize => hide self
  end.

Definition run_finalize (f : Finalize) (self : ReminderOverlay) : ReminderOverlay :=
  match f with
  | entry_finalize target_opacity end_rect =>
      let self := with_window (setWindowOpacity target_opacity) self in
      with_window (setGeometry end_rect) self
  | exit_fade_finalize on_finished =>
      let self := with_window (setWindowOpacity (overlay_opacity (config self))) self in
      run_callback on_finished self
  | exit_geometry_finalize start_rect on_finished =>
      let self := with_window (setGeometry start_rect) self in
      run_callback on_finished self
  end.

(** [cleanup], the closure [_start_animation] connects to [finished];
    [animation] is the identity of the animation it captured. *)
Definition cleanup (finalize : option Finalize) (animation : nat) (self : ReminderOverlay)
  : ReminderOverlay :=
  let self :=
    match finalize with
    | Some f => run_finalize f (with_animator (log_finalize animation) self)
    | None => self
    end in
  let self := with_animator (on_animation animation QAnimation.set_deleteLater) self in
  if bool_decide (active_animation (animator self) = Some animation)
  then with_animator (set_active_animation None) self
  else self.

(** [_start_animation(animation, finalize)]; the object [animation]
    gets its identity here, where the overlay first holds it. *)
Definition _start_animation (animation : QPropertyAnimation) (finalize : option Finalize)
    (self : ReminderOverlay) : ReminderOverlay :=
  let self :=
    match active_animation (animator self) with
    | Some old =>
        let self := with_animator (on_animation old QAnimation.stop) self in
        with_animator (on_animation old QAnimation.set_deleteLater) self
    | None => self
    end in
  let a := next_animation (animator self) in
  let self := with_animator (new_animation animation) self in
  let self := with_animator (set_active_animation (Some a)) self in
  let self := with_animator (on_animation a (QAnimation.connect_finished finalize)) self in
  animation_start a self.

(** [int(n * 0.9)] for a widget extent [n]. *)
Definition times_0_9 (n : Z) : Z :=
  match Py.float_of_int n ≫= (fun f => Py.int_of_float (SFmul Py.prec Py.emax f (Py.float_lit 9 10))) with
  | Ok k => k
  | Raise _ => 0     (* not reached: a widget extent is a C int *)
  end.

(** [run_entry_animation] *)
Definition run_entry_animation (self : ReminderOverlay) : ReminderOverlay :=
  if preview self then self
  else
    let style := entry_animation (config self) in
    let end_rect := geometry (window self) in
    let target_opacity := overlay_opacity (config self) in
    let finalize := entry_finalize target_opacity end_rect in
    if String.eqb style "fade" then
      let self := with_window (setWindowOpacity (S754_zero false)) self in
      let animation := QAnimation.new windowOpacity_property in
      let animation := QAnimation.setStartValue (v_float (S754_zero false)) animation in
      let animation := QAnimation.setEndValue (v_float target_opacity) animation in
      let animation := QAnimation.setDuration 280 animation in
      let animation := QAnimation.setEasingCurve OutCubic animation in
      _start_animation animation (Some finalize) self
    else if String.eqb style "slide" then
      let start_rect := end_rect in
      let start_rect := QRect.moveTop (QRect.top start_rect + 60) start_rect in
      let self := with_window (setGeometry start_rect) self in
      let animation := QAnimation.new geometry_property in
      let animation := QAnimation.setStartValue (v_rect start_rect) animation in
      let animation := QAnimation.setEndValue (v_rect end_rect) animation in
      let animation := QAnimation.setDuration 320 animation in
      let animation := QAnimation.setEasingCurve OutCubic animation in
      _start_animation animation (Some finalize) self
    else if String.eqb style "pop" then
      let start_rect := end_rect in
      let shrink_w := Z.max 40 (times_0_9 (QRect.width end_rect)) in
      let shrink_h := Z.max 40 (times_0_9 (QRect.height end_rect)) in
      let start_rect := QRect.setWidth shrink_w start_rect in
      let start_rect := QRect.setHeight shrink_h start_rect in
      let start_rect := QRect.moveCenter (QRect.center end_rect) start_rect in
      let self := with_window (setGeometry start_rect) self in
      let animation := QAnimation.new geometry_property in
      let animation := QAnimation.setStartValue (v_rect start_rect) animation in
      let animation := QAnimation.setEndValue (v_rect end_rect) animation in
      let animation := QAnimation.setDuration 250 animation in
      let animation := QAnimation.setEasingCurve OutCubic animation in
      _start_animation animation (Some finalize) self
    else
      with_window (setWindowOpacity target_opacity) self.

(** [run_exit_animation(on_finished)]: the returned [bool] and the overlay. *)
Definition run_exit_animation (on_finished : Callback) (self : ReminderOverlay)
  : bool * ReminderOverlay :=
  if preview self then (false, self)
  else
    let style := entry_animation (config self) in
    let start_rect := geometry (window self) in
    if String.eqb style "fade" then
      let animation := QAnimation.new windowOpacity_property in
      let animation := QAnimation.setStartValue (v_float (windowOpacity (window self))) animation in
      let animation := QAnimation.setEndValue (v_float (S754_zero false)) animation in
      let animation := QAnimation.setDuration 200 animation in
      let animation := QAnimation.setEasingCurve InQuad animation in
      (true, _start_animation animation (Some (exit_fade_finalize on_finished)) self)
    else if String.eqb style "slide" then
      let end_rect := start_rect in
      let end_rect := QRect.moveTop (QRect.top end_rect + 80) end_rect in
      let animation := QAnimation.new geometry_property in
      let animation := QAnimation.setStartValue (v_rect start_rect) animation in
      let animation := QAnimation.setEndValue (v_rect end_rect) animation in
      let animation := QAnimation.setDuration 240 animation in
      let animation := QAnimation.setEasingCurve InCubic animation in
      (true, _start_animation animation (Some (exit_geometry_finalize start_rect on_finished)) self)
    else if String.eqb style "pop" then
      let end_rect := start_rect in
      let shrink_w := Z.max 20 (times_0_9 (QRect.width start_rect)) in
      let shrink_h := Z.max 20 (times_0_9 (QRect.height start_rect)) in
      let end_rect := QRect.setWidth shrink_w end_rect in
      let end_rect := QRect.setHeight shrink_h end_rect in
      let end_rect := QRect.moveCenter (QRect.center start_rect) end_rect in
      let animation := QAnimation.new geometry_property in
      let animation := QAnimation.setStartValue (v_rect start_rect) animation in
      let animation := QAnimation.setEndValue (v_rect end_rect) animation in
      let animation := QAnimation.setDuration 200 animation in
      let animation := QAnimation.setEasingCurve InBack animation in
      (true, _start_animation animation (Some (exit_geometry_finalize start_rect on_finished)) self)
    else (false, self).

(** *** Showing and hiding *)

(** [show_overlay]; [apply_topmost] and [raise_] change the stacking
    order only and are left out. *)
Definition show_overlay (w : World) (self : ReminderOverlay) : ReminderOverlay :=
  let self := apply_config w (config self) self in
  let self := if negb (preview self) then position_overlay w self else self in
  let self :=
    if animation_enabled (config self) && negb (bool_decide (frame_pixmaps (assets self) = []))
    then
      let self := with_assets (set_animation_index 0%nat) self in
      let self := set_static_pixmap (frame_at (animation_index (assets self)) self) self in
      if negb (isActive (animation_timer (timers self)))
      then with_timers (on_animation_timer
                          (QTimer_.start_msec (animation_interval_ms (config self)))) self
      else self
    else if bool_decide (is_Some (fallback_movie (assets self))) && animation_enabled (config self)
    then set_movie self
    else set_static_pixmap fallback_pixmap self in
  let self := update_countdown w self in
  let self :=
    if negb (preview self) && bool_decide (is_Some (auto_hide_timer (timers self)))
    then with_timers (on_auto_hide_timer (QTimer_.start_msec (auto_hide_ms (config self)))) self
    else self in
  let self :=
    if preview self
    then with_window (resize (overlay_width (config self), overlay_height (config self))) self
    else self in
  let self := show self in
  if negb (preview self) then run_entry_animation self else self.

(** [hide_overlay] *)
Definition hide_overlay (self : ReminderOverlay) : ReminderOverlay :=
  if preview self then hide self
  else
    let self := with_timers (on_auto_hide_timer QTimer_.stop) self in
    let self := with_timers (on_animation_timer QTimer_.stop) self in
    let self :=
      match fallback_movie (assets self) with
      | Some _ => with_assets (set_fallback_movie (Some {| running := false |})) self
      | None => self
      end in
    let self :=
      match active_animation (animator self) with
      | Some a =>
          let self := with_animator (on_animation a QAnimation.stop) self in
          let self := with_animator (on_animation a QAnimation.set_deleteLater) self in
          with_animator (set_active_animation None) self
      | None => self
      end in
    let finalize := hide_overlay_finalize in
    let '(started, self) := run_exit_animation finalize self in
    if started then self else hide self.

(** [advance_animation] *)
Definition advance_animation (self : ReminderOverlay) : ReminderOverlay :=
  if negb (animation_enabled (config self)) then self
  else
    match frame_pixmaps (assets self), fallback_movie (assets self) with
    | _ :: _, _ =>
        let index := ((animation_index (assets self) + 1) mod length (frame_pixmaps (assets self)))%nat in
        let self := with_assets (set_animation_index index) self in
        set_static_pixmap (frame_at (animation_index (assets self)) self) self
    | [], Some _ =>
        if negb (current_movie (content self)) then set_movie self else self
    | [], None => set_static_pixmap fallback_pixmap self
    end.

(** [trigger_reminder] *)
Definition trigger_reminder (w : World) (self : ReminderOverlay) : ReminderOverlay :=
  if preview self then self
  else
    let self := schedule_next_reminder w self in
    show_overlay w self.

(** [mousePressEvent] *)
Definition mousePressEvent (w : World) (self : ReminderOverlay) : ReminderOverlay :=
  if preview self then self
  else
    let self := hide_overlay self in
    reset_reminder_timer w self.

(** [ReminderOverlay.__init__(config, preview=...)] *)
Definition ReminderOverlay_init (w : World) (config_ : AppConfig) (preview_ : bool)
  : ReminderOverlay :=
  let self := {|
    preview := preview_;
    config := config_;
    window := {| isVisible := false; windowOpacity := Py.float_lit 1 1;
                 geometry := {| QRect.x := 0; QRect.y := 0;
                                QRect.width := 640; QRect.height := 480 |} |};
    content := content_apply_config w config_
                 {| animation_label := label_empty; current_movie := false;
                    content_size := (0, 0); countdown_remaining := "" |};
    assets := {| frame_pixmaps := []; fallback_movie := None;
                 animation_index := 0%nat; loaded_asset_dir := None |};
    timers := {| animation_timer := QTimer_.new; auto_hide_timer := None;
                 reminder_timer := None; countdown_timer := None |};
    animator := {| active_animation := None; animations := ∅;
                   next_animation := 0%nat; finalize_calls := [] |};
    next_reminder := now w + reminder_interval_ms config_;
  |} in
  let self :=
    if negb preview_ then
      with_timers (fun t =>
        {| animation_timer := animation_timer t;
           auto_hide_timer := Some (QTimer_.setSingleShot true QTimer_.new);
           reminder_timer := Some (QTimer_.setSingleShot true QTimer_.new);
           countdown_timer := Some (QTimer_.start (QTimer_.setInterval 1000 QTimer_.new)) |}) self
    else self in
  let self := load_assets w self in
  let self := apply_config w config_ self in
  if preview_ then
    let self :=
      with_timers (on_animation_timer
                     (QTimer_.start_msec (animation_interval_ms (config self)))) self in
    let self :=
      with_content (set_countdown_text
                      (if countdown_enabled (config self) then "Preview" else "")) self in
    show self
  else hide self.

(** [ReminderApplication.__init__]: the overlay, with its first
    reminder scheduled. *)
Definition ReminderApplication_init (w : World) (config_ : AppConfig) : ReminderOverlay :=
  let overlay := ReminderOverlay_init w config_ false in
  schedule_next_reminder w overlay.

(** *** The event loop *)

(** What the event loop delivers to the overlay: the timeouts of its
    four timers, the end of an animation, a mouse press, and the
    commands of the tray menu and the settings window. *)
Inductive Event :=
| reminder_timeout                    (* reminder_timer -> trigger_reminder *)
| auto_hide_timeout                   (* auto_hide_timer -> hide_overlay *)
| animation_timeout                   (* animation_timer -> advance_animation *)
| countdown_timeout                   (* countdown_timer -> update_countdown *)
| animation_finished (a : nat)        (* animation a reached its end *)
| mouse_press                         (* a click on the visible overlay *)
| tray_show_overlay                   (* show_overlay *)
| settings_show_overlay               (* show_overlay, reset_reminder_timer *)
| settings_apply (c : AppConfig).     (* apply_config, reset_reminder_timer *)

(** A timer emits [timeout] only while active; a single-shot timer is
    inactive when its slot runs. *)
Definition timer_due (t : option QTimer) : bool :=
  match t with
  | Some t => isActive t
  | None => false
  end.

(** An animation emits [finished] when it reaches its end while
    running: the property holds the end value and the animation has
    stopped when the connected [cleanup] runs. *)
Definition finish_animation (a : nat) (self : ReminderOverlay) : ReminderOverlay :=
  match animations (animator self) !! a with
  | Some obj =>
      match state obj with
      | Running =>
          let self := with_window (set_property (propertyName obj) (endValue obj)) self in
          let self := with_animator (on_animation a (QAnimation.setState Completed)) self in
          match finished_cleanup obj with
          | Some finalize => cleanup finalize a self
          | None => self
          end
      | _ => self
      end
  | None => self
  end.

Definition handle (w : World) (e : Event) (self : ReminderOverlay) : ReminderOverlay :=
  match e with
  | reminder_timeout =>
      if timer_due (reminder_timer (timers self))
      then trigger_reminder w (with_timers (on_reminder_timer QTimer_.fired) self)
      else self
  | auto_hide_timeout =>
      if timer_due (auto_hide_timer (timers self))
      then hide_overlay (with_timers (on_auto_hide_timer QTimer_.fired) self)
      else self
  | animation_timeout =>
      if isActive (animation_timer (timers self))
      then advance_animation (with_timers (on_animation_timer QTimer_.fired) self)
      else self
  | countdown_timeout =>
      if timer_due (countdown_timer (timers self))
      then update_countdown w (with_timers (on_countdown_timer QTimer_.fired) self)
      else self
  | animation_finished a => finish_animation a self
  | mouse_press => if isVisible (window self) then mousePressEvent w self else self
  | tray_show_overlay => show_overlay w self
  | settings_show_overlay => reset_reminder_timer w (show_overlay w self)
  | settings_apply c => reset_reminder_timer w (apply_config w c self)
  end.

(** A run of the event loop. *)
Fixpoint run (events : list (World * Event)) (self : ReminderOverlay) : ReminderOverlay :=
  match events with
  | [] => self
  | (w, e) :: rest => run rest (handle w e self)
  end.

(** *** The lifecycle, read off the overlay *)

Inductive LifecycleState := Idle | Entering | Visible | Hiding.

Definition lifecycle (self : ReminderOverlay) : LifecycleState :=
  if negb (isVisible (window self)) then Idle
  else
    match active_animation (animator self) ≫= (fun a => animations (animator self) !! a) with
    | Some obj =>
        match state obj, finished_cleanup obj with
        | Running, Some (Some (entry_finalize _ _)) => Entering
        | Running, Some (Some (exit_fade_finalize _))
        | Running, Some (Some (exit_geometry_finalize _ _)) => Hiding
        | _, _ => Visible
        end
    | None => Visible
    end.

(** ** Vocabulary of the specification and sample inputs *)

(** "[n] hour(s)": a count with its unit, plural unless the count is 1. *)
Definition quantity (n : Z) (unit_name : string) : string :=
  Py.str_int n +:+ " " +:+ unit_name +:+ (if n =? 1 then "" else "s").

(** The usable area of the screen the overlay is placed on. *)
Definition target_geometry (w : World) (self : ReminderOverlay) : QRect.t :=
  availableGeometry (_target_screen w self).

(** The delay [schedule_next_reminder] computes: the interval, plus the
    draw when the jitter ceiling is positive, and at least a second. *)
Definition reminder_delay (w : World) (c : AppConfig) : Z :=
  Z.max 1000
    (reminder_interval_ms c
     + (if 0 <? random_offset_ms c then Py.randint 0 (random_offset_ms c) (entropy w) else 0)).

(** The four anchor corners and the [position] text of each. *)
Inductive Corner := bottom_right | bottom_left | top_right | top_left.

Definition corner_name (c : Corner) : string :=
  match c with
  | bottom_right => "bottom_right"
  | bottom_left => "bottom_left"
  | top_right => "top_right"
  | top_left => "top_left"
  end.

Definition right_anchored (c : Corner) : bool :=
  match c with bottom_right | top_right => true | _ => false end.

Definition bottom_anchored (c : Corner) : bool :=
  match c with bottom_right | bottom_left => true | _ => false end.

(** A runtime that reads plain decimal integers, to run the model on
    sample inputs. *)
Fixpoint decimal_digits (s : string) (acc : Z) : option Z :=
  match s with
  | EmptyString => Some acc
  | String c rest =>
      let d := Z.of_nat (nat_of_ascii c) - 48 in
      if (0 <=? d) && (d <=? 9) then decimal_digits rest (10 * acc + d) else None
  end.

Definition decimal_int (s : string) : option Z :=
  match s with
  | EmptyString => None
  | String "-" (String c rest) => Z.opp <$> decimal_digits (String c rest) 0
  | String "-" EmptyString => None
  | _ => decimal_digits s 0
  end.

Definition decimal_float (s : string) : option spec_float :=
  match decimal_int s with
  | Some n => match Py.float_of_int n with Ok f => Some f | Raise _ => None end
  | None => None
  end.

Definition sample_runtime : PyRuntime := {|
  int_of_str := decimal_int;
  float_of_str := decimal_float;
  repr := fun _ => "<object>";
  STORAGE_ASSETS_DIR := "C:\TEX-Programme\HydrationReminder\assets";
|}.

Definition screen_of (x y w h : Z) : QScreen :=
  {| name := "DISPLAY1";
     availableGeometry := {| QRect.x := x; QRect.y := y; QRect.width := w; QRect.height := h |} |}.

(** A desktop with one screen, two sprite frames in the asset
    directory, and texts no wider than the 160 pixel floor. *)
Definition desktop (screen : QScreen) (time : Z) : World := {|
  now := time;
  entropy := 0;
  screens := [screen];
  screenAt_cursor := Some screen;
  primaryScreen := screen;
  parent_screen := None;
  title_advance := 150;
  message_advance := 160;
  animation_assets := ([frame_png 1; frame_png 2], false);
|}.

Definition full_hd : QScreen := screen_of 0 0 1920 1080.

Definition default_config : AppConfig := @AppConfig_default sample_runtime.

(** The default configuration with other margins. *)
Definition with_margins (mx my : Z) (c : AppConfig) : AppConfig := {|
  reminder_interval_ms := reminder_interval_ms c;
  auto_hide_ms := auto_hide_ms c;
  animation_interval_ms := animation_interval_ms c;
  show_preview_on_launch := show_preview_on_launch c;
  preview_delay_ms := preview_delay_ms c;
  asset_directory := asset_directory c;
  position := position c;
  margin_x := mx;
  margin_y := my;
  random_offset_ms := random_offset_ms c;
  overlay_width := overlay_width c;
  overlay_height := overlay_height c;
  overlay_opacity := overlay_opacity c;
  background_radius := background_radius c;
  gradient_top := gradient_top c;
  gradient_bottom := gradient_bottom c;
  border_color := border_color c;
  shadow_color := shadow_color c;
  title_text := title_text c;
  title_font_size := title_font_size c;
  title_color := title_color c;
  message_template := message_template c;
  message_font_size := message_font_size c;
  text_opacity := text_opacity c;
  text_color := text_color c;
  countdown_enabled := countdown_enabled c;
  countdown_template := countdown_template c;
  countdown_font_size := countdown_font_size c;
  countdown_color := countdown_color c;
  animation_enabled := animation_enabled c;
  entry_animation := entry_animation c;
  monitor_id := monitor_id c;
  autostart_enabled := autostart_enabled c;
|}.

(** The default configuration with another interval and jitter ceiling. *)
Definition with_interval (interval_ms jitter_ms : Z) (c : AppConfig) : AppConfig := {|
  reminder_interval_ms := interval_ms;
  auto_hide_ms := auto_hide_ms c;
  animation_interval_ms := animation_interval_ms c;
  show_preview_on_launch := show_preview_on_launch c;
  preview_delay_ms := preview_delay_ms c;
  asset_directory := asset_directory c;
  position := position c;
  margin_x := margin_x c;
  margin_y := margin_y c;
  random_offset_ms := jitter_ms;
  overlay_width := overlay_width c;
  overlay_height := overlay_height c;
  overlay_opacity := overlay_opacity c;
  background_radius := background_radius c;
  gradient_top := gradient_top c;
  gradient_bottom := gradient_bottom c;
  border_color := border_color c;
  shadow_color := shadow_color c;
  title_text := title_text c;
  title_font_size := title_font_size c;
  title_color := title_color c;
  message_template := message_template c;
  message_font_size := message_font_size c;
  text_opacity := text_opacity c;
  text_color := text_color c;
  countdown_enabled := countdown_enabled c;
  countdown_template := countdown_template c;
  countdown_font_size := countdown_font_size c;
  countdown_color := countdown_color c;
  animation_enabled := animation_enabled c;
  entry_animation := entry_animation c;
  monitor_id := monitor_id c;
  autostart_enabled := autostart_enabled c;
|}.

(** The application as it starts with the default configuration. *)
Definition started (screen : QScreen) (c : AppConfig) : ReminderOverlay :=
  ReminderApplication_init (desktop screen 0) c.

(** *** The animator, apart from the overlay

    What [hide_overlay], [_start_animation] and the end of an animation
    do to the animator, as functions of the animator alone. *)

(** [hide_overlay]: the active animation is stopped and forgotten. *)
Definition animator_cancel (m : Animator) : Animator :=
  match active_animation m with
  | Some old =>
      set_active_animation None
        (on_animation old QAnimation.set_deleteLater (on_animation old QAnimation.stop m))
  | None => m
  end.

(** [_start_animation(animation, finalize)] *)
Definition animator_start (animation : QPropertyAnimation) (finalize : option Finalize)
    (m : Animator) : Animator :=
  let m :=
    match active_animation m with
    | Some old => on_animation old QAnimation.set_deleteLater (on_animation old QAnimation.stop m)
    | None => m
    end in
  let a := next_animation m in
  on_animation a (QAnimation.setState Running)
    (on_animation a (QAnimation.connect_finished finalize)
       (set_active_animation (Some a) (new_animation animation m))).

(** Animation [a] reaches its end: [finish_animation]. *)
Definition animator_finish (a : nat) (m : Animator) : Animator :=
  match animations m !! a with
  | Some obj =>
      match state obj with
      | Running =>
          let m := on_animation a (QAnimation.setState Completed) m in
          match finished_cleanup obj with
          | Some finalize =>
              let m := match finalize with Some _ => log_finalize a m | None => m end in
              let m := on_animation a QAnimation.set_deleteLater m in
              if bool_decide (active_animation m = Some a)
              then set_active_animation None m else m
          | None => m
          end
      | _ => m
      end
  | None => m
  end.

(** One such move, and any number of them. *)
Inductive animator_step (m : Animator) : Animator -> Prop :=
| step_start animation finalize : animator_step m (animator_start animation finalize m)
| step_cancel : animator_step m (animator_cancel m)
| step_finish a : animator_step m (animator_finish a m).

Definition animator_steps : Animator -> Animator -> Prop := rtc animator_step.

(** The state of animation [a], if it exists. *)
Definition state_of (m : Animator) (a : nat) : option AnimationState :=
  state <$> animations m !! a.

(** The recorded calls are distinct and name completed animations, and
    identities are handed out in order. *)
Definition animator_ok (m : Animator) : Prop :=
  NoDup (finalize_calls m)
  /\ (forall a, a ∈ finalize_calls m -> state_of m a = Some Completed)
  /\ (forall a, is_Some (state_of m a) -> (a < next_animation m)%nat).

(** Stopping and discarding the active animation, as [_start_animation]
    and [hide_overlay] do. *)
Definition animator_drop (m : Animator) : Animator :=
  match active_animation m with
  | Some old => on_animation old QAnimation.set_deleteLater (on_animation old QAnimation.stop m)
  | None => m
  end.

(** The pending schedule: when the next reminder is due, and the timer
    armed for it. *)
Definition schedule (s : ReminderOverlay) : Z * option QTimer :=
  (next_reminder s, reminder_timer (timers s)).

(** The effects that have an exit animation. *)
Definition has_exit_effect (style : string) : bool :=
  String.eqb style "fade" || String.eqb style "slide" || String.eqb style "pop".

(** Whether the fallback movie is playing. *)
Definition movie_running (self : ReminderOverlay) : bool :=
  match fallback_movie (assets self) with
  | Some m => running m
  | None => false
  end.

(** The overlay just before [hide_overlay] asks for the exit animation. *)
Definition settled (self : ReminderOverlay) : ReminderOverlay :=
  let self := with_timers (on_auto_hide_timer QTimer_.stop) self in
  let self := with_timers (on_animation_timer QTimer_.stop) self in
  let self :=
    match fallback_movie (assets self) with
    | Some _ => with_assets (set_fallback_movie (Some {| running := false |})) self
    | None => self
    end in
  with_animator animator_cancel self.

(** The sample desktop at time [t]. *)
Definition at_time (t : Z) : World := desktop full_hd t.

(** *** The fields [from_dict] reads

    Each field by its key and its attribute, in the order of
    [from_dict]; [asset_directory] is not read from the data. *)
Inductive Field :=
| int_field (key : string) (get : AppConfig -> Z)
| float_field (key : string) (get : AppConfig -> spec_float)
| bool_field (key : string) (get : AppConfig -> bool)
| str_field (key : string) (get : AppConfig -> string)
| color_field (key : string) (get : AppConfig -> QColor).

Definition config_fields : list Field := [
  int_field "reminder_interval_ms" reminder_interval_ms;
  int_field "auto_hide_ms" auto_hide_ms;
  int_field "animation_interval_ms" animation_interval_ms;
  bool_field "show_preview_on_launch" show_preview_on_launch;
  int_field "preview_delay_ms" preview_delay_ms;
  str_field "position" position;
  int_field "margin_x" margin_x;
  int_field "margin_y" margin_y;
  int_field "random_offset_ms" random_offset_ms;
  int_field "overlay_width" overlay_width;
  int_field "overlay_height" overlay_height;
  float_field "overlay_opacity" overlay_opacity;
  int_field "background_radius" background_radius;
  color_field "gradient_top" gradient_top;
  color_field "gradient_bottom" gradient_bottom;
  color_field "border_color" border_color;
  color_field "shadow_color" shadow_color;
  str_field "title_text" title_text;
  int_field "title_font_size" title_font_size;
  color_field "title_color" title_color;
  str_field "message_template" message_template;
  int_field "message_font_size" message_font_size;
  float_field "text_opacity" text_opacity;
  color_field "text_color" text_color;
  bool_field "countdown_enabled" countdown_enabled;
  str_field "countdown_template" countdown_template;
  int_field "countdown_font_size" countdown_font_size;
  color_field "countdown_color" countdown_color;
  bool_field "animation_enabled" animation_enabled;
  str_field "entry_animation" entry_animation;
  str_field "monitor_id" monitor_id;
  bool_field "autostart_enabled" autostart_enabled
].

Definition field_key (f : Field) : string :=
  match f with
  | int_field key _ | float_field key _ | bool_field key _
  | str_field key _ | color_field key _ => key
  end.

(** The field of a configuration, as [to_dict] writes it. *)
Definition field_view (f : Field) (c : AppConfig) : pyval :=
  match f with
  | int_field _ get => PInt (get c)
  | float_field _ get => PFloat (get c)
  | bool_field _ get => PBool (get c)
  | str_field _ get => PStr (get c)
  | color_field _ get => PDict (color_to_dict (get c))
  end.

(** A supplied number, or the default when none is supplied or the
    supplied value does not convert. *)
Definition int_from `{PyRuntime} (supplied : option pyval) (dflt : Z) : Z :=
  match supplied with
  | Some v => match Py.int v with Ok n => n | Raise _ => dflt end
  | None => dflt
  end.

Definition float_from `{PyRuntime} (supplied : option pyval) (dflt : spec_float) : spec_float :=
  match supplied with
  | Some v => match Py.float v with Ok f => f | Raise _ => dflt end
  | None => dflt
  end.

(** A supplied colour: what [color_from_dict] makes of the supplied
    value, the default when nothing is supplied. *)
Definition color_from `{PyRuntime} (supplied : option pyval) (dflt : QColor) : QColor :=
  match supplied with
  | Some v => match color_from_dict v dflt with Ok c => c | Raise _ => dflt end
  | None => dflt
  end.

(** The value of field [f] after reading [data] over the defaults
    [base]: every field is read from its own key alone. *)
Definition field_from `{PyRuntime} (f : Field) (data : gmap string pyval) (base : AppConfig)
  : pyval :=
  match f with
  | int_field key get => PInt (int_from (data !! key) (get base))
  | float_field key get => PFloat (float_from (data !! key) (get base))
  | bool_field key get =>
      PBool (match data !! key with Some v => Py.bool v | None => get base end)
  | str_field key get =>
      PStr (match data !! key with Some v => Py.str v | None => get base end)
  | color_field key get => PDict (color_to_dict (color_from (data !! key) (get base)))
  end.

(** Data free of overflow: no infinite float where an [int] is read, no
    [int] beyond the floats where a [float] is read, and colour
    components that convert to C [int]s or not at all.  First, one
    colour component. *)
Definition component_ok `{PyRuntime} (c : gmap string pyval) (key : string) : bool :=
  match c !! key with
  | Some v =>
      match Py.int v with
      | Ok n => c_int n
      | Raise OverflowError => false
      | Raise _ => true
      end
  | None => true
  end.

(** A supplied colour whose components are all such. *)
Definition color_ok `{PyRuntime} (v : pyval) : bool :=
  match v with
  | PDict c => component_ok c "r" && component_ok c "g" && component_ok c "b" && component_ok c "a"
  | _ => true
  end.

(** The value supplied for field [f], if any, converts without overflow. *)
Definition field_ok `{PyRuntime} (data : gmap string pyval) (f : Field) : bool :=
  match f, data !! field_key f with
  | int_field _ _, Some v =>
      match Py.int v with Raise OverflowError => false | _ => true end
  | float_field _ _, Some v =>
      match Py.float v with Raise OverflowError => false | _ => true end
  | color_field _ _, Some v => color_ok v
  | _, _ => true
  end.

(** So does every supplied value. *)
Definition overflow_free `{PyRuntime} (data : gmap string pyval) : bool :=
  forallb (field_ok data) config_fields.

(** A fallback colour the binding accepts. *)
Definition fallback_ok (fb : QColor) : bool :=
  c_int (red fb) && c_int (green fb) && c_int (blue fb) && c_int (alpha fb).

(** Sample data: a text where a number is expected, a colour component
    out of range, and two well-formed values. *)
Definition sample_data : gmap string pyval :=
  list_to_map [
    ("auto_hide_ms", PStr "soon");
    ("margin_x", PInt 42);
    ("gradient_top", PDict (list_to_map [("r", PInt 300)]));
    ("title_text", PStr "Drink")
  ].

(** Sample data: numbers outside the ranges of the settings window, and
    values of the wrong type where a text and a flag are expected. *)
Definition odd_data : gmap string pyval :=
  list_to_map [
    ("auto_hide_ms", PInt (-5));
    ("overlay_width", PInt 1000000);
    ("position", PInt 7);
    ("animation_enabled", PStr "no")
  ].

(** A valid colour: every component within 0..255. *)
Definition color_valid (c : QColor) : Prop :=
  isValid c = true
  /\ 0 <= red c <= 255 /\ 0 <= green c <= 255
  /\ 0 <= blue c <= 255 /\ 0 <= alpha c <= 255.

(** The seven colours of a configuration. *)
Definition config_colors (c : AppConfig) : list QColor :=
  [gradient_top c; gradient_bottom c; border_color c; shadow_color c;
   title_color c; text_color c; countdown_color c].

(** ** Asset loading *)

(** What [load_animation_assets] finds on disk: whether the asset
    directory exists, which [frame<index>.png] exist and load as a
    non-null pixmap, which movie files exist and are valid, and the
    same for the bundled [bottle.gif]. *)
Record AssetFiles := {
  asset_dir_exists : bool;
  frame_exists : nat -> bool;
  frame_loads : nat -> bool;
  movie_exists : string -> bool;
  movie_valid : string -> bool;
  bottle_exists : bool;
  bottle_valid : bool;
}.

(** The loop over [range(1, 25)]: a missing frame ends the loop, except
    a missing first frame, which is skipped. *)
Fixpoint load_frames (fs : AssetFiles) (indices : list nat) (frames : list QPixmap)
  : list QPixmap :=
  match indices with
  | [] => frames
  | index :: rest =>
      if negb (frame_exists fs index) then
        if Nat.eqb index 1 then load_frames fs rest frames    (* continue *)
        else frames                                            (* break *)
      else
        let frames :=
          if frame_loads fs index then frames ++ [frame_png index] else frames in
        load_frames fs rest frames
  end.

(** The loop over the movie candidates: the first that exists and is
    valid. *)
Fixpoint first_movie (fs : AssetFiles) (candidates : list string) : option string :=
  match candidates with
  | [] => None
  | candidate :: rest =>
      if movie_exists fs candidate then
        if movie_valid fs candidate then Some candidate    (* break *)
        else first_movie fs rest
      else first_movie fs rest
  end.

Definition movie_candidates : list string :=
  ["animation.gif"; "animation.webp"; "animation.apng"].

(** [load_animation_assets(config)]: the frames, and the file of the
    fallback movie. *)
Definition load_animation_assets (fs : AssetFiles) : list QPixmap * option string :=
  let frames : list QPixmap := [] in
  let fallback_movie : option string := None in
  let '(frames, fallback_movie) :=
    if asset_dir_exists fs then
      let frames := load_frames fs (seq 1 24) frames in
      let fallback_movie :=
        match frames with
        | [] => first_movie fs movie_candidates
        | _ => fallback_movie
        end in
      (frames, fallback_movie)
    else (frames, fallback_movie) in
  let fallback_movie :=
    match frames, fallback_movie with
    | [], None =>
        if bottle_exists fs then
          if bottle_valid fs then Some "bottle.gif" else None
        else None
    | _, _ => fallback_movie
    end in
  (frames, fallback_movie).

(** A desktop whose assets are those files. *)
Definition with_files (fs : AssetFiles) (w : World) : World := {|
  now := now w;
  entropy := entropy w;
  screens := screens w;
  screenAt_cursor := screenAt_cursor w;
  primaryScreen := primaryScreen w;
  parent_screen := parent_screen w;
  title_advance := title_advance w;
  message_advance := message_advance w;
  animation_assets :=
    (fst (load_animation_assets fs),
     bool_decide (is_Some (snd (load_animation_assets fs))));
|}.

(** Sample files: frames 2 to 4 and frame 6, no frame 1 or 5, a valid
    [animation.gif] and the bundled bottle. *)
Definition sample_files : AssetFiles := {|
  asset_dir_exists := true;
  frame_exists := fun i => bool_decide (i ∈ [2; 3; 4; 6]%nat);
  frame_loads := fun _ => true;
  movie_exists := fun name => String.eqb name "animation.gif";
  movie_valid := fun _ => true;
  bottle_exists := true;
  bottle_valid := true;
|}.

(** The sprites an overlay holds: some frame, or a movie. *)
Definition has_sprites (self : ReminderOverlay) : bool :=
  negb (bool_decide (frame_pixmaps (assets self) = []))
  || bool_decide (is_Some (fallback_movie (assets self))).

(** A sample desktop with a second screen, the pointer on the first. *)
Definition two_screens : World := {|
  now := 0;
  entropy := 0;
  screens := [full_hd; {| name := "DISPLAY2";
                          availableGeometry := {| QRect.x := 1920; QRect.y := 0;
                                                  QRect.width := 1280; QRect.height := 1024 |} |}];
  screenAt_cursor := Some full_hd;
  primaryScreen := full_hd;
  parent_screen := None;
  title_advance := 150;
  message_advance := 160;
  animation_assets := ([frame_png 1; frame_png 2], false);
|}.

(** The default configuration on another monitor. *)
Definition on_monitor (id : string) (c : AppConfig) : AppConfig := {|
  reminder_interval_ms := reminder_interval_ms c;
  auto_hide_ms := auto_hide_ms c;
  animation_interval_ms := animation_interval_ms c;
  show_preview_on_launch := show_preview_on_launch c;
  preview_delay_ms := preview_delay_ms c;
  asset_directory := asset_directory c;
  position := position c;
  margin_x := margin_x c;
  margin_y := margin_y c;
  random_offset_ms := random_offset_ms c;
  overlay_width := overlay_width c;
  overlay_height := overlay_height c;
  overlay_opacity := overlay_opacity c;
  background_radius := background_radius c;
  gradient_top := gradient_top c;
  gradient_bottom := gradient_bottom c;
  border_color := border_color c;
  shadow_color := shadow_color c;
  title_text := title_text c;
  title_font_size := title_font_size c;
  title_color := title_color c;
  message_template := message_template c;
  message_font_size := message_font_size c;
  text_opacity := text_opacity c;
  text_color := text_color c;
  countdown_enabled := countdown_enabled c;
  countdown_template := countdown_template c;
  countdown_font_size := countdown_font_size c;
  countdown_color := countdown_color c;
  animation_enabled := animation_enabled c;
  entry_animation := entry_animation c;
  monitor_id := id;
  autostart_enabled := autostart_enabled c;
|}.

(** Where a shown overlay rests: the extent its content fixes, at the
    position [position_overlay] computes for that extent. *)
Definition shown_geometry (w : World) (self : ReminderOverlay) : QRect.t :=
  let size := content_size (content_apply_config w (config self) (content self)) in
  let p := overlay_position (config self) (target_geometry w self) (fst size) (snd size) in
  {| QRect.x := fst p; QRect.y := snd p; QRect.width := fst size; QRect.height := snd size |}.

(** Every running animation is the one the overlay holds as active. *)
Definition one_running (m : Animator) : Prop :=
  forall a, state_of m a = Some Running -> active_animation m = Some a.

(** A reminder is pending: the reminder timer runs, with a delay of a
    second or more. *)
Definition reminder_pending (self : ReminderOverlay) : Prop :=
  exists t, reminder_timer (timers self) = Some t /\ isActive t = true /\ 1000 <= interval t.

(** The sprite timer is in step with the configuration: its interval
    is the configured one, at least 10 ms, and it runs only when
    animation is enabled and there is something to animate. *)
Definition sprite_timer_ok (self : ReminderOverlay) : Prop :=
  interval (animation_timer (timers self)) = Z.max 10 (animation_interval_ms (config self))
  /\ (isActive (animation_timer (timers self)) = true ->
      animation_enabled (config self) = true /\ has_sprites self = true).

(** An overlay without timers of its own and without transition
    animations, as a preview is. *)
Definition inert (self : ReminderOverlay) : Prop :=
  preview self = true
  /\ auto_hide_timer (timers self) = None
  /\ reminder_timer (timers self) = None
  /\ countdown_timer (timers self) = None
  /\ active_animation (animator self) = None
  /\ animations (animator self) = ∅.



(** ** The settings file *)

(** What [load_config_from_disk] finds at [SETTINGS_FILE]. *)
Inductive SettingsFile :=
| settings_missing                  (* SETTINGS_FILE.exists() is false *)
| settings_unreadable               (* read_text raises OSError *)
| settings_undecodable              (* read_text raises UnicodeDecodeError *)
| settings_malformed                (* json.loads raises JSONDecodeError *)
| settings_json (data : pyval).     (* json.loads(raw) *)

(** [config.asset_directory = ...], [config.autostart_enabled = ...] *)
Definition set_asset_directory (dir : string) (c : AppConfig) : AppConfig := {|
  reminder_interval_ms := reminder_interval_ms c;
  auto_hide_ms := auto_hide_ms c;
  animation_interval_ms := animation_interval_ms c;
  show_preview_on_launch := show_preview_on_launch c;
  preview_delay_ms := preview_delay_ms c;
  asset_directory := dir;
  position := position c;
  margin_x := margin_x c;
  margin_y := margin_y c;
  random_offset_ms := random_offset_ms c;
  overlay_width := overlay_width c;
  overlay_height := overlay_height c;
  overlay_opacity := overlay_opacity c;
  background_radius := background_radius c;
  gradient_top := gradient_top c;
  gradient_bottom := gradient_bottom c;
  border_color := border_color c;
  shadow_color := shadow_color c;
  title_text := title_text c;
  title_font_size := title_font_size c;
  title_color := title_color c;
  message_template := message_template c;
  message_font_size := message_font_size c;
  text_opacity := text_opacity c;
  text_color := text_color c;
  countdown_enabled := countdown_enabled c;
  countdown_template := countdown_template c;
  countdown_font_size := countdown_font_size c;
  countdown_color := countdown_color c;
  animation_enabled := animation_enabled c;
  entry_animation := entry_animation c;
  monitor_id := monitor_id c;
  autostart_enabled := autostart_enabled c;
|}.

Definition set_autostart_enabled (enabled : bool) (c : AppConfig) : AppConfig := {|
  reminder_interval_ms := reminder_interval_ms c;
  auto_hide_ms := auto_hide_ms c;
  animation_interval_ms := animation_interval_ms c;
  show_preview_on_launch := show_preview_on_launch c;
  preview_delay_ms := preview_delay_ms c;
  asset_directory := asset_directory c;
  position := position c;
  margin_x := margin_x c;
  margin_y := margin_y c;
  random_offset_ms := random_offset_ms c;
  overlay_width := overlay_width c;
  overlay_height := overlay_height c;
  overlay_opacity := overlay_opacity c;
  background_radius := background_radius c;
  gradient_top := gradient_top c;
  gradient_bottom := gradient_bottom c;
  border_color := border_color c;
  shadow_color := shadow_color c;
  title_text := title_text c;
  title_font_size := title_font_size c;
  title_color := title_color c;
  message_template := message_template c;
  message_font_size := message_font_size c;
  text_opacity := text_opacity c;
  text_color := text_color c;
  countdown_enabled := countdown_enabled c;
  countdown_template := countdown_template c;
  countdown_font_size := countdown_font_size c;
  countdown_color := countdown_color c;
  animation_enabled := animation_enabled c;
  entry_animation := entry_animation c;
  monitor_id := monitor_id c;
  autostart_enabled := enabled;
|}.

(** [load_config_from_disk]; [autostart] is what [is_autostart_enabled()]
    reads from the registry. [UnicodeDecodeError] is a [ValueError]
    that is neither an [OSError] nor a [JSONDecodeError]. *)
Definition load_config_from_disk `{PyRuntime} (file : SettingsFile) (autostart : bool)
  : result AppConfig :=
  data ← match file with
         | settings_missing => Ok (PDict ∅)
         | settings_unreadable => Ok (PDict ∅)
         | settings_undecodable => Raise ValueError
         | settings_malformed => Ok (PDict ∅)
         | settings_json data => Ok data
         end;
  config ← from_dict data;
  let config := set_asset_directory STORAGE_ASSETS_DIR config in
  let config := set_autostart_enabled autostart config in
  Ok config.

(** What [json.loads] reads from the text [save_config] has written,
    [json.dumps(config.to_dict(), indent=2)]: the dictionary itself,
    its keys being strings and its values ints, floats, bools, strings
    and dictionaries of ints. *)
Definition saved_settings (config : AppConfig) : SettingsFile :=
  settings_json (PDict (to_dict config)).

(** ** Command line overrides *)

(** [max(a, b)] and [min(a, b)] for two floats: the first argument
    unless the second is greater (less); a comparison with NaN is
    false. [a * b] for two floats. *)
Definition float_max (a b : spec_float) : spec_float :=
  if SFltb a b then b else a.

Definition float_min (a b : spec_float) : spec_float :=
  if SFltb b a then b else a.

Definition float_mul (a b : spec_float) : spec_float := SFmul Py.prec Py.emax a b.

(** The namespace [parser.parse_args(argv)] returns: [None] for an
    option that was not given. *)
Module Args.

Record t := {
  interval : option spec_float;
  autohide : option spec_float;
  animation_speed : option spec_float;
  no_preview : bool;
  position : option string;
  margin_x : option Z;
  margin_y : option Z;
  random : option Z;
  width : option Z;
  height : option Z;
  opacity : option spec_float;
  monitor : option string;
  entry_animation : option string;
}.

(** No option given. *)
Definition none : t := {|
  interval := None; autohide := None; animation_speed := None; no_preview := false;
  position := None; margin_x := None; margin_y := None; random := None;
  width := None; height := None; opacity := None; monitor := None;
  entry_animation := None;
|}.

End Args.

(** [if value:] for an optional float, int and string. *)
Definition given_float (v : option spec_float) : option spec_float :=
  match v with
  | Some f => if Py.bool (PFloat f) then Some f else None
  | None => None
  end.

Definition given_int (v : option Z) : option Z :=
  match v with
  | Some n => if Py.bool (PInt n) then Some n else None
  | None => None
  end.

Definition given_str (v : option string) : option string :=
  match v with
  | Some s => if Py.bool (PStr s) then Some s else None
  | None => None
  end.

(** [if value ...: config.attribute = ...]: the assignment is made
    when the option has a value. *)
Definition when {A} (value : option A) (assign : A -> AppConfig -> AppConfig)
    (config : AppConfig) : AppConfig :=
  match value with
  | Some v => assign v config
  | None => config
  end.

(** Attribute assignment on the configuration. *)
Definition set_reminder_interval_ms (v : Z) (c : AppConfig) : AppConfig := {|
  reminder_interval_ms := v;
  auto_hide_ms := auto_hide_ms c;
  animation_interval_ms := animation_interval_ms c;
  show_preview_on_launch := show_preview_on_launch c;
  preview_delay_ms := preview_delay_ms c;
  asset_directory := asset_directory c;
  position := position c;
  margin_x := margin_x c;
  margin_y := margin_y c;
  random_offset_ms := random_offset_ms c;
  overlay_width := overlay_width c;
  overlay_height := overlay_height c;
  overlay_opacity := overlay_opacity c;
  background_radius := background_radius c;
  gradient_top := gradient_top c;
  gradient_bottom := gradient_bottom c;
  border_color := border_color c;
  shadow_color := shadow_color c;
  title_text := title_text c;
  title_font_size := title_font_size c;
  title_color := title_color c;
  message_template := message_template c;
  message_font_size := message_font_size c;
  text_opacity := text_opacity c;
  text_color := text_color c;
  countdown_enabled := countdown_enabled c;
  countdown_template := countdown_template c;
  countdown_font_size := countdown_font_size c;
  countdown_color := countdown_color c;
  animation_enabled := animation_enabled c;
  entry_animation := entry_animation c;
  monitor_id := monitor_id c;
  autostart_enabled := autostart_enabled c;
|}.

Definition set_auto_hide_ms (v : Z) (c : AppConfig) : AppConfig := {|
  reminder_interval_ms := reminder_interval_ms c;
  auto_hide_ms := v;
  animation_interval_ms := animation_interval_ms c;
  show_preview_on_launch := show_preview_on_launch c;
  preview_delay_ms := preview_delay_ms c;
  asset_directory := asset_directory c;
  position := position c;
  margin_x := margin_x c;
  margin_y := margin_y c;
  random_offset_ms := random_offset_ms c;
  overlay_width := overlay_width c;
  overlay_height := overlay_height c;
  overlay_opacity := overlay_opacity c;
  background_radius := background_radius c;
  gradient_top := gradient_top c;
  gradient_bottom := gradient_bottom c;
  border_color := border_color c;
  shadow_color := shadow_color c;
  title_text := title_text c;
  title_font_size := title_font_size c;
  title_color := title_color c;
  message_template := message_template c;
  message_font_size := message_font_size c;
  text_opacity := text_opacity c;
  text_color := text_color c;
  countdown_enabled := countdown_enabled c;
  countdown_template := countdown_template c;
  countdown_font_size := countdown_font_size c;
  countdown_color := countdown_color c;
  animation_enabled := animation_enabled c;
  entry_animation := entry_animation c;
  monitor_id := monitor_id c;
  autostart_enabled := autostart_enabled c;
|}.

Definition set_animation_interval_ms (v : Z) (c : AppConfig) : AppConfig := {|
  reminder_interval_ms := reminder_interval_ms c;
  auto_hide_ms := auto_hide_ms c;
  animation_interval_ms := v;
  show_preview_on_launch := show_preview_on_launch c;
  preview_delay_ms := preview_delay_ms c;
  asset_directory := asset_directory c;
  position := position c;
  margin_x := margin_x c;
  margin_y := margin_y c;
  random_offset_ms := random_offset_ms c;
  overlay_width := overlay_width c;
  overlay_height := overlay_height c;
  overlay_opacity := overlay_opacity c;
  background_radius := background_radius c;
  gradient_top := gradient_top c;
  gradient_bottom := gradient_bottom c;
  border_color := border_color c;
  shadow_color := shadow_color c;
  title_text := title_text c;
  title_font_size := title_font_size c;
  title_color := title_color c;
  message_template := message_template c;
  message_font_size := message_font_size c;
  text_opacity := text_opacity c;
  text_color := text_color c;
  countdown_enabled := countdown_enabled c;
  countdown_template := countdown_template c;
  countdown_font_size := countdown_font_size c;
  countdown_color := countdown_color c;
  animation_enabled := animation_enabled c;
  entry_animation := entry_animation c;
  monitor_id := monitor_id c;
  autostart_enabled := autostart_enabled c;
|}.

Definition set_show_preview_on_launch (v : bool) (c : AppConfig) : AppConfig := {|
  reminder_interval_ms := reminder_interval_ms c;
  auto_hide_ms := auto_hide_ms c;
  animation_interval_ms := animation_interval_ms c;
  show_preview_on_launch := v;
  preview_delay_ms := preview_delay_ms c;
  asset_directory := asset_directory c;
  position := position c;
  margin_x := margin_x c;
  margin_y := margin_y c;
  random_offset_ms := random_offset_ms c;
  overlay_width := overlay_width c;
  overlay_height := overlay_height c;
  overlay_opacity := overlay_opacity c;
  background_radius := background_radius c;
  gradient_top := gradient_top c;
  gradient_bottom := gradient_bottom c;
  border_color := border_color c;
  shadow_color := shadow_color c;
  title_text := title_text c;
  title_font_size := title_font_size c;
  title_color := title_color c;
  message_template := message_template c;
  message_font_size := message_font_size c;
  text_opacity := text_opacity c;
  text_color := text_color c;
  countdown_enabled := countdown_enabled c;
  countdown_template := countdown_template c;
  countdown_font_size := countdown_font_size c;
  countdown_color := countdown_color c;
  animation_enabled := animation_enabled c;
  entry_animation := entry_animation c;
  monitor_id := monitor_id c;
  autostart_enabled := autostart_enabled c;
|}.

Definition set_position (v : string) (c : AppConfig) : AppConfig := {|
  reminder_interval_ms := reminder_interval_ms c;
  auto_hide_ms := auto_hide_ms c;
  animation_interval_ms := animation_interval_ms c;
  show_preview_on_launch := show_preview_on_launch c;
  preview_delay_ms := preview_delay_ms c;
  asset_directory := asset_directory c;
  position := v;
  margin_x := margin_x c;
  margin_y := margin_y c;
  random_offset_ms := random_offset_ms c;
  overlay_width := overlay_width c;
  overlay_height := overlay_height c;
  overlay_opacity := overlay_opacity c;
  background_radius := background_radius c;
  gradient_top := gradient_top c;
  gradient_bottom := gradient_bottom c;
  border_color := border_color c;
  shadow_color := shadow_color c;
  title_text := title_text c;
  title_font_size := title_font_size c;
  title_color := title_color c;
  message_template := message_template c;
  message_font_size := message_font_size c;
  text_opacity := text_opacity c;
  text_color := text_color c;
  countdown_enabled := countdown_enabled c;
  countdown_template := countdown_template c;
  countdown_font_size := countdown_font_size c;
  countdown_color := countdown_color c;
  animation_enabled := animation_enabled c;
  entry_animation := entry_animation c;
  monitor_id := monitor_id c;
  autostart_enabled := autostart_enabled c;
|}.

Definition set_margin_x (v : Z) (c : AppConfig) : AppConfig := {|
  reminder_interval_ms := reminder_interval_ms c;
  auto_hide_ms := auto_hide_ms c;
  animation_interval_ms := animation_interval_ms c;
  show_preview_on_launch := show_preview_on_launch c;
  preview_delay_ms := preview_delay_ms c;
  asset_directory := asset_directory c;
  position := position c;
  margin_x := v;
  margin_y := margin_y c;
  random_offset_ms := random_offset_ms c;
  overlay_width := overlay_width c;
  overlay_height := overlay_height c;
  overlay_opacity := overlay_opacity c;
  background_radius := background_radius c;
  gradient_top := gradient_top c;
  gradient_bottom := gradient_bottom c;
  border_color := border_color c;
  shadow_color := shadow_color c;
  title_text := title_text c;
  title_font_size := title_font_size c;
  title_color := title_color c;
  message_template := message_template c;
  message_font_size := message_font_size c;
  text_opacity := text_opacity c;
  text_color := text_color c;
  countdown_enabled := countdown_enabled c;
  countdown_template := countdown_template c;
  countdown_font_size := countdown_font_size c;
  countdown_color := countdown_color c;
  animation_enabled := animation_enabled c;
  entry_animation := entry_animation c;
  monitor_id := monitor_id c;
  autostart_enabled := autostart_enabled c;
|}.

Definition set_margin_y (v : Z) (c : AppConfig) : AppConfig := {|
  reminder_interval_ms := reminder_interval_ms c;
  auto_hide_ms := auto_hide_ms c;
  animation_interval_ms := animation_interval_ms c;
  show_preview_on_launch := show_preview_on_launch c;
  preview_delay_ms := preview_delay_ms c;
  asset_directory := asset_directory c;
  position := position c;
  margin_x := margin_x c;
  margin_y := v;
  random_offset_ms := random_offset_ms c;
  overlay_width := overlay_width c;
  overlay_height := overlay_height c;
  overlay_opacity := overlay_opacity c;
  background_radius := background_radius c;
  gradient_top := gradient_top c;
  gradient_bottom := gradient_bottom c;
  border_color := border_color c;
  shadow_color := shadow_color c;
  title_text := title_text c;
  title_font_size := title_font_size c;
  title_color := title_color c;
  message_template := message_template c;
  message_font_size := message_font_size c;
  text_opacity := text_opacity c;
  text_color := text_color c;
  countdown_enabled := countdown_enabled c;
  countdown_template := countdown_template c;
  countdown_font_size := countdown_font_size c;
  countdown_color := countdown_color c;
  animation_enabled := animation_enabled c;
  entry_animation := entry_animation c;
  monitor_id := monitor_id c;
  autostart_enabled := autostart_enabled c;
|}.

Definition set_random_offset_ms (v : Z) (c : AppConfig) : AppConfig := {|
  reminder_interval_ms := reminder_interval_ms c;
  auto_hide_ms := auto_hide_ms c;
  animation_interval_ms := animation_interval_ms c;
  show_preview_on_launch := show_preview_on_launch c;
  preview_delay_ms := preview_delay_ms c;
  asset_directory := asset_directory c;
  position := position c;
  margin_x := margin_x c;
  margin_y := margin_y c;
  random_offset_ms := v;
  overlay_width := overlay_width c;
  overlay_height := overlay_height c;
  overlay_opacity := overlay_opacity c;
  background_radius := background_radius c;
  gradient_top := gradient_top c;
  gradient_bottom := gradient_bottom c;
  border_color := border_color c;
  shadow_color := shadow_color c;
  title_text := title_text c;
  title_font_size := title_font_size c;
  title_color := title_color c;
  message_template := message_template c;
  message_font_size := message_font_size c;
  text_opacity := text_opacity c;
  text_color := text_color c;
  countdown_enabled := countdown_enabled c;
  countdown_template := countdown_template c;
  countdown_font_size := countdown_font_size c;
  countdown_color := countdown_color c;
  animation_enabled := animation_enabled c;
  entry_animation := entry_animation c;
  monitor_id := monitor_id c;
  autostart_enabled := autostart_enabled c;
|}.

Definition set_overlay_width (v : Z) (c : AppConfig) : AppConfig := {|
  reminder_interval_ms := reminder_interval_ms c;
  auto_hide_ms := auto_hide_ms c;
  animation_interval_ms := animation_interval_ms c;
  show_preview_on_launch := show_preview_on_launch c;
  preview_delay_ms := preview_delay_ms c;
  asset_directory := asset_directory c;
  position := position c;
  margin_x := margin_x c;
  margin_y := margin_y c;
  random_offset_ms := random_offset_ms c;
  overlay_width := v;
  overlay_height := overlay_height c;
  overlay_opacity := overlay_opacity c;
  background_radius := background_radius c;
  gradient_top := gradient_top c;
  gradient_bottom := gradient_bottom c;
  border_color := border_color c;
  shadow_color := shadow_color c;
  title_text := title_text c;
  title_font_size := title_font_size c;
  title_color := title_color c;
  message_template := message_template c;
  message_font_size := message_font_size c;
  text_opacity := text_opacity c;
  text_color := text_color c;
  countdown_enabled := countdown_enabled c;
  countdown_template := countdown_template c;
  countdown_font_size := countdown_font_size c;
  countdown_color := countdown_color c;
  animation_enabled := animation_enabled c;
  entry_animation := entry_animation c;
  monitor_id := monitor_id c;
  autostart_enabled := autostart_enabled c;
|}.

Definition set_overlay_height (v : Z) (c : AppConfig) : AppConfig := {|
  reminder_interval_ms := reminder_interval_ms c;
  auto_hide_ms := auto_hide_ms c;
  animation_interval_ms := animation_interval_ms c;
  show_preview_on_launch := show_preview_on_launch c;
  preview_delay_ms := preview_delay_ms c;
  asset_directory := asset_directory c;
  position := position c;
  margin_x := margin_x c;
  margin_y := margin_y c;
  random_offset_ms := random_offset_ms c;
  overlay_width := overlay_width c;
  overlay_height := v;
  overlay_opacity := overlay_opacity c;
  background_radius := background_radius c;
  gradient_top := gradient_top c;
  gradient_bottom := gradient_bottom c;
  border_color := border_color c;
  shadow_color := shadow_color c;
  title_text := title_text c;
  title_font_size := title_font_size c;
  title_color := title_color c;
  message_template := message_template c;
  message_font_size := message_font_size c;
  text_opacity := text_opacity c;
  text_color := text_color c;
  countdown_enabled := countdown_enabled c;
  countdown_template := countdown_template c;
  countdown_font_size := countdown_font_size c;
  countdown_color := countdown_color c;
  animation_enabled := animation_enabled c;
  entry_animation := entry_animation c;
  monitor_id := monitor_id c;
  autostart_enabled := autostart_enabled c;
|}.

Definition set_overlay_opacity (v : spec_float) (c : AppConfig) : AppConfig := {|
  reminder_interval_ms := reminder_interval_ms c;
  auto_hide_ms := auto_hide_ms c;
  animation_interval_ms := animation_interval_ms c;
  show_preview_on_launch := show_preview_on_launch c;
  preview_delay_ms := preview_delay_ms c;
  asset_directory := asset_directory c;
  position := position c;
  margin_x := margin_x c;
  margin_y := margin_y c;
  random_offset_ms := random_offset_ms c;
  overlay_width := overlay_width c;
  overlay_height := overlay_height c;
  overlay_opacity := v;
  background_radius := background_radius c;
  gradient_top := gradient_top c;
  gradient_bottom := gradient_bottom c;
  border_color := border_color c;
  shadow_color := shadow_color c;
  title_text := title_text c;
  title_font_size := title_font_size c;
  title_color := title_color c;
  message_template := message_template c;
  message_font_size := message_font_size c;
  text_opacity := text_opacity c;
  text_color := text_color c;
  countdown_enabled := countdown_enabled c;
  countdown_template := countdown_template c;
  countdown_font_size := countdown_font_size c;
  countdown_color := countdown_color c;
  animation_enabled := animation_enabled c;
  entry_animation := entry_animation c;
  monitor_id := monitor_id c;
  autostart_enabled := autostart_enabled c;
|}.

Definition set_monitor_id (v : string) (c : AppConfig) : AppConfig := {|
  reminder_interval_ms := reminder_interval_ms c;
  auto_hide_ms := auto_hide_ms c;
  animation_interval_ms := animation_interval_ms c;
  show_preview_on_launch := show_preview_on_launch c;
  preview_delay_ms := preview_delay_ms c;
  asset_directory := asset_directory c;
  position := position c;
  margin_x := margin_x c;
  margin_y := margin_y c;
  random_offset_ms := random_offset_ms c;
  overlay_width := overlay_width c;
  overlay_height := overlay_height c;
  overlay_opacity := overlay_opacity c;
  background_radius := background_radius c;
  gradient_top := gradient_top c;
  gradient_bottom := gradient_bottom c;
  border_color := border_color c;
  shadow_color := shadow_color c;
  title_text := title_text c;
  title_font_size := title_font_size c;
  title_color := title_color c;
  message_template := message_template c;
  message_font_size := message_font_size c;
  text_opacity := text_opacity c;
  text_color := text_color c;
  countdown_enabled := countdown_enabled c;
  countdown_template := countdown_template c;
  countdown_font_size := countdown_font_size c;
  countdown_color := countdown_color c;
  animation_enabled := animation_enabled c;
  entry_animation := entry_animation c;
  monitor_id := v;
  autostart_enabled := autostart_enabled c;
|}.

Definition set_entry_animation (v : string) (c : AppConfig) : AppConfig := {|
  reminder_interval_ms := reminder_interval_ms c;
  auto_hide_ms := auto_hide_ms c;
  animation_interval_ms := animation_interval_ms c;
  show_preview_on_launch := show_preview_on_launch c;
  preview_delay_ms := preview_delay_ms c;
  asset_directory := asset_directory c;
  position := position c;
  margin_x := margin_x c;
  margin_y := margin_y c;
  random_offset_ms := random_offset_ms c;
  overlay_width := overlay_width c;
  overlay_height := overlay_height c;
  overlay_opacity := overlay_opacity c;
  background_radius := background_radius c;
  gradient_top := gradient_top c;
  gradient_bottom := gradient_bottom c;
  border_color := border_color c;
  shadow_color := shadow_color c;
  title_text := title_text c;
  title_font_size := title_font_size c;
  title_color := title_color c;
  message_template := message_template c;
  message_font_size := message_font_size c;
  text_opacity := text_opacity c;
  text_color := text_color c;
  countdown_enabled := countdown_enabled c;
  countdown_template := countdown_template c;
  countdown_font_size := countdown_font_size c;
  countdown_color := countdown_color c;
  animation_enabled := animation_enabled c;
  entry_animation := v;
  monitor_id := monitor_id c;
  autostart_enabled := autostart_enabled c;
|}.

(** [apply_cli_overrides], after [parse_args]. *)
Definition apply_cli_overrides (config : AppConfig) (args : Args.t) : result AppConfig :=
  config ← match given_float (Args.interval args) with
           | Some interval =>
               sixty_thousand ← Py.float_of_int 60000;
               ms ← Py.int_of_float
                      (float_mul (float_max (Py.float_lit 1 1) interval) sixty_thousand);
               Ok (set_reminder_interval_ms ms config)
           | None => Ok config
           end;
  config ← match given_float (Args.autohide args) with
           | Some autohide =>
               thousand ← Py.float_of_int 1000;
               ms ← Py.int_of_float
                      (float_mul (float_max (Py.float_lit 1 1) autohide) thousand);
               Ok (set_auto_hide_ms ms config)
           | None => Ok config
           end;
  config ← match given_float (Args.animation_speed args) with
           | Some animation_speed =>
               thousand ← Py.float_of_int 1000;
               ms ← Py.int_of_float
                      (float_mul (float_max (Py.float_lit 5 100) animation_speed) thousand);
               Ok (set_animation_interval_ms ms config)
           | None => Ok config
           end;
  let config := if Args.no_preview args then set_show_preview_on_launch false config
                else config in
  let config := when (given_str (Args.position args)) set_position config in
  let config := when (Args.margin_x args)
                  (fun margin_x => set_margin_x (Z.max 0 margin_x)) config in
  let config := when (Args.margin_y args)
                  (fun margin_y => set_margin_y (Z.max 0 margin_y)) config in
  let config := when (Args.random args)
                  (fun random => set_random_offset_ms (Z.max 0 random * 1000)) config in
  let config := when (given_int (Args.width args))
                  (fun width => set_overlay_width (Z.max 180 width)) config in
  let config := when (given_int (Args.height args))
                  (fun height => set_overlay_height (Z.max 120 height)) config in
  let config := when (given_float (Args.opacity args))
                  (fun opacity =>
                     set_overlay_opacity
                       (float_min (Py.float_lit 1 1) (float_max (Py.float_lit 1 10) opacity)))
                  config in
  let config := when (given_str (Args.monitor args)) set_monitor_id config in
  let config := when (given_str (Args.entry_animation args)) set_entry_animation config in
  Ok config.

(** Sample command lines: [--margin-x -5 --width 100 --height 0
    --random 30], and [--interval inf]. *)
Definition sample_args : Args.t := {|
  Args.interval := None; Args.autohide := None; Args.animation_speed := None;
  Args.no_preview := false; Args.position := None;
  Args.margin_x := Some (-5); Args.margin_y := None; Args.random := Some 30;
  Args.width := Some 100; Args.height := Some 0; Args.opacity := None;
  Args.monitor := None; Args.entry_animation := None;
|}.

(** * Properties *)

(** ** Arithmetic and text helpers *)

Lemma div_mod_mul (a b c : Z) :
  0 < b -> 0 < c -> (a mod (b * c)) / b = (a / b) mod c.
Proof.
  intros Hb Hc.
  rewrite Z.rem_mul_r by lia.
  rewrite (Z.mul_comm b), Z.div_add by lia.
  rewrite Z.div_small by (apply Z.mod_pos_bound; lia).
  reflexivity.
Qed.

Lemma mod_mod_mul (a b c : Z) :
  0 < b -> 0 < c -> (a mod (b * c)) mod b = a mod b.
Proof.
  intros Hb Hc.
  rewrite Z.rem_mul_r by lia.
  rewrite (Z.mul_comm b), Z.mod_add by lia.
  apply Z.mod_mod. lia.
Qed.

Lemma eqb_false_of_neq (a b : Z) : a <> b -> (a =? b) = false.
Proof. intros H. apply Z.eqb_neq, H. Qed.

(** ** [format_short_duration] *)

Lemma format_short_duration_now (ms : Z) :
  ms <= 0 -> format_short_duration ms = "now".
Proof.
  intros H. unfold format_short_duration.
  destruct (Z.leb_spec ms 0); [reflexivity | lia].
Qed.

(** The code's [divmod] chain computes the usual hours, minutes and
    seconds of a millisecond count. *)
Lemma short_duration_fields (ms : Z) :
  ms / 1000 / 3600 = ms / 3600000
  /\ (ms / 1000) mod 3600 / 60 = ms / 60000 mod 60
  /\ ((ms / 1000) mod 3600) mod 60 = ms / 1000 mod 60.
Proof.
  split; [| split].
  - rewrite Z.div_div by lia. reflexivity.
  - change 3600 with (60 * 60). rewrite div_mod_mul by lia.
    rewrite Z.div_div by lia. reflexivity.
  - change 3600 with (60 * 60). apply mod_mod_mul; lia.
Qed.

(** C6. For every remaining time [ms]: zero or less renders as "now";
    otherwise hours are shown only when nonzero and then followed by
    the minutes (even zero minutes) and no seconds, and when hours are
    zero the seconds are shown, preceded by the minutes when they are
    nonzero.  3_661_000 ms renders as "1h 1m" and 0 ms as "now". *)
Theorem format_short_duration_countdown (ms : Z) :
  let hours := ms / 3600000 in
  let minutes := ms / 60000 mod 60 in
  let seconds := ms / 1000 mod 60 in
  (ms <= 0 -> format_short_duration ms = "now")
  /\ (0 < ms -> hours <> 0 ->
      format_short_duration ms
      = (Py.str_int hours +:+ "h") +:+ " " +:+ (Py.str_int minutes +:+ "m"))
  /\ (0 < ms -> hours = 0 -> minutes <> 0 ->
      format_short_duration ms
      = (Py.str_int minutes +:+ "m") +:+ " " +:+ (Py.str_int seconds +:+ "s"))
  /\ (0 < ms -> hours = 0 -> minutes = 0 ->
      format_short_duration ms = Py.str_int seconds +:+ "s")
  /\ format_short_duration 3661000 = "1h 1m"
  /\ format_short_duration 0 = "now".
Proof.
  intros hours minutes seconds.
  destruct (short_duration_fields ms) as (Hh & Hm & Hs).
  fold hours in Hh. fold minutes in Hm. fold seconds in Hs.
  split; [apply format_short_duration_now |].
  assert (Hpos : 0 < ms -> format_short_duration ms =
    Py.join " "
      (((if negb (hours =? 0) then [Py.str_int hours +:+ "h"] else [])
        ++ (if negb (minutes =? 0) || negb (hours =? 0)
            then [Py.str_int minutes +:+ "m"] else []))
       ++ (if hours =? 0 then [Py.str_int seconds +:+ "s"] else []))).
  { intros Hms. unfold format_short_duration.
    destruct (Z.leb_spec ms 0); [lia |].
    cbv zeta. rewrite Hh, Hm, Hs.
    destruct (hours =? 0), (minutes =? 0); reflexivity. }
  repeat split.
  - intros Hms Hne. rewrite (Hpos Hms), (eqb_false_of_neq _ _ Hne).
    destruct (minutes =? 0); reflexivity.
  - intros Hms He Hne. rewrite (Hpos Hms), He, (eqb_false_of_neq _ _ Hne). reflexivity.
  - intros Hms He Hm0. rewrite (Hpos Hms), He, Hm0. reflexivity.
Qed.

(** ** [format_interval] *)

Lemma interval_fields (ms : Z) :
  60000 <= ms ->
  Z.max 0 (ms / 60000) / 60 = ms / 3600000
  /\ Z.max 0 (ms / 60000) mod 60 = ms / 60000 mod 60.
Proof.
  intros H.
  assert (0 <= ms / 60000) by (apply Z.div_pos; lia).
  rewrite Z.max_r by lia. rewrite Z.div_div by lia. split; reflexivity.
Qed.

Lemma format_interval_below_minute (ms : Z) :
  ms < 60000 -> format_interval ms = "less than a minute".
Proof.
  intros H. unfold format_interval.
  assert (Hq : Z.max 0 (ms / 60000) = 0).
  { assert (ms / 60000 <= 0); [| lia].
    destruct (Z.le_gt_cases 0 ms).
    - rewrite Z.div_small; lia.
    - assert (ms / 60000 < 0) by (apply Z.div_lt_upper_bound; lia). lia. }
  cbv zeta. rewrite Hq. reflexivity.
Qed.

Lemma quantity_hour (n : Z) :
  Py.str_int n +:+ " hour" +:+ (if negb (n =? 1) then "s" else "") = quantity n "hour".
Proof. unfold quantity. destruct (n =? 1); reflexivity. Qed.

Lemma quantity_minute (n : Z) :
  Py.str_int n +:+ " minute" +:+ (if negb (n =? 1) then "s" else "") = quantity n "minute".
Proof. unfold quantity. destruct (n =? 1); reflexivity. Qed.

(** C9. For every interval [ms]: the text gives the whole hours and the
    minutes, each only when nonzero, and is "less than a minute" when
    both are zero (also for a negative interval); 2_700_000 ms renders
    as "45 minutes". *)
Theorem format_interval_hours_minutes (ms : Z) :
  let hours := ms / 3600000 in
  let minutes := ms / 60000 mod 60 in
  (ms < 60000 -> format_interval ms = "less than a minute")
  /\ (60000 <= ms -> hours <> 0 -> minutes = 0 ->
      format_interval ms = quantity hours "hour")
  /\ (60000 <= ms -> hours = 0 -> minutes <> 0 ->
      format_interval ms = quantity minutes "minute")
  /\ (60000 <= ms -> hours <> 0 -> minutes <> 0 ->
      format_interval ms = quantity hours "hour" +:+ " " +:+ quantity minutes "minute")
  /\ (60000 <= ms -> ~ (hours = 0 /\ minutes = 0))
  /\ format_interval 2700000 = "45 minutes".
Proof.
  intros hours minutes.
  split; [apply format_interval_below_minute |].
  assert (Hbig : 60000 <= ms -> format_interval ms =
    match (if negb (hours =? 0) then [quantity hours "hour"] else [])
          ++ (if negb (minutes =? 0) then [quantity minutes "minute"] else []) with
    | [] => "less than a minute"
    | parts => Py.join " " parts
    end).
  { intros Hms. unfold format_interval.
    destruct (interval_fields ms Hms) as (Hh & Hm).
    cbv zeta. rewrite Hh, Hm. fold hours minutes.
    rewrite quantity_hour, quantity_minute.
    destruct (hours =? 0), (minutes =? 0); reflexivity. }
  repeat split.
  - intros Hms Hh Hm. rewrite (Hbig Hms), (eqb_false_of_neq _ _ Hh), Hm. reflexivity.
  - intros Hms Hh Hm. rewrite (Hbig Hms), Hh, (eqb_false_of_neq _ _ Hm). reflexivity.
  - intros Hms Hh Hm.
    rewrite (Hbig Hms), (eqb_false_of_neq _ _ Hh), (eqb_false_of_neq _ _ Hm). reflexivity.
  - intros Hms (Hh & Hm). unfold hours, minutes in *.
    assert (Hdiv : ms / 60000 / 60 = 0) by (rewrite Z.div_div by lia; exact Hh).
    assert (Hq : ms / 60000 = 0).
    { rewrite (Z.div_mod (ms / 60000) 60) by lia. rewrite Hdiv, Hm. reflexivity. }
    assert (1 <= ms / 60000); [| lia].
    apply Z.div_le_lower_bound; lia.
Qed.

(** ** Placement *)

Lemma position_overlay_geometry (w : World) (self : ReminderOverlay) :
  preview self = false ->
  let geo := target_geometry w self in
  let r := geometry (window self) in
  let p := overlay_position (config self) geo (QRect.width r) (QRect.height r) in
  geometry (window (position_overlay w self))
  = {| QRect.x := fst p; QRect.y := snd p;
       QRect.width := QRect.width r; QRect.height := QRect.height r |}.
Proof.
  intros Hp geo r p. unfold position_overlay. rewrite Hp.
  fold (target_geometry w self). fold geo. fold r.
  fold p. destruct p as [x y]. reflexivity.
Qed.

Example started_geometry :
  geometry (window (started full_hd default_config))
  = {| QRect.x := 1544; QRect.y := 884; QRect.width := 360; QRect.height := 180 |}.
Proof. vm_compute. reflexivity. Qed.

Lemma corner_contains (c : Corner) :
  Py.contains "right" (corner_name c) = right_anchored c
  /\ Py.contains "bottom" (corner_name c) = bottom_anchored c.
Proof. destruct c; split; reflexivity. Qed.

(** C10. The computed position never lies left of or above the screen's
    origin, whatever the extents; an overlay wider (taller) than the
    screen is put exactly at the screen's left (top) edge. *)
Theorem position_overlay_top_left_on_screen (w : World) (self : ReminderOverlay) :
  preview self = false ->
  let geo := target_geometry w self in
  let width := QRect.width (geometry (window self)) in
  let height := QRect.height (geometry (window self)) in
  let placed := geometry (window (position_overlay w self)) in
  QRect.x geo <= QRect.x placed
  /\ QRect.y geo <= QRect.y placed
  /\ (QRect.width geo < width -> QRect.x placed = QRect.x geo)
  /\ (QRect.height geo < height -> QRect.y placed = QRect.y geo)
  /\ QRect.width placed = width
  /\ QRect.height placed = height.
Proof.
  intros Hp geo width height placed.
  unfold placed. rewrite (position_overlay_geometry w self Hp).
  fold geo. fold width. fold height.
  unfold overlay_position. cbn [fst snd QRect.x QRect.y QRect.width QRect.height].
  repeat split; lia.
Qed.

Lemma position_overlay_top_left_on_screen_witness :
  let self := started full_hd default_config in
  let placed := geometry (window (position_overlay (desktop (screen_of 0 0 300 150) 0) self)) in
  QRect.x placed = 0 /\ QRect.y placed = 0.
Proof.
  pose proof (position_overlay_top_left_on_screen
                (desktop (screen_of 0 0 300 150) 0) (started full_hd default_config)
                eq_refl) as H.
  cbv zeta in H. destruct H as (_ & _ & Hx & Hy & _).
  split; [apply Hx | apply Hy]; vm_compute; reflexivity.
Defined.

(** C2, as amended. When the overlay is no wider and no taller than the
    screen, the computed position keeps it inside the screen, whatever
    the margins and the anchor. *)
Theorem position_overlay_within_screen (w : World) (self : ReminderOverlay) :
  preview self = false ->
  let geo := target_geometry w self in
  let width := QRect.width (geometry (window self)) in
  let height := QRect.height (geometry (window self)) in
  let placed := geometry (window (position_overlay w self)) in
  width <= QRect.width geo ->
  height <= QRect.height geo ->
  QRect.x geo <= QRect.x placed <= QRect.x geo + QRect.width geo - width
  /\ QRect.y geo <= QRect.y placed <= QRect.y geo + QRect.height geo - height.
Proof.
  intros Hp geo width height placed Hw Hh.
  unfold placed. rewrite (position_overlay_geometry w self Hp).
  fold geo. fold width. fold height.
  unfold overlay_position. cbn [fst snd QRect.x QRect.y QRect.width QRect.height].
  lia.
Qed.

Lemma position_overlay_within_screen_witness :
  let self := started full_hd (with_margins 5000 5000 default_config) in
  let placed := geometry (window (position_overlay (desktop full_hd 0) self)) in
  0 <= QRect.x placed <= 1920 - 360 /\ 0 <= QRect.y placed <= 1080 - 180.
Proof.
  apply (position_overlay_within_screen (desktop full_hd 0)
           (started full_hd (with_margins 5000 5000 default_config)) eq_refl);
    vm_compute; discriminate.
Defined.

(** C2, as stated, fails: an overlay of 360 x 180 on a screen of
    300 x 150 is put at the screen's origin, right of the claimed upper
    bound 300 - 360. *)
Lemma position_overlay_past_right_edge :
  let w := desktop (screen_of 0 0 300 150) 0 in
  let self := ReminderApplication_init w default_config in
  let geo := target_geometry w self in
  let placed := geometry (window (position_overlay w self)) in
  QRect.width placed = 360
  /\ QRect.x placed = 0
  /\ QRect.x geo + QRect.width geo - QRect.width placed = -60
  /\ (QRect.x placed <=? QRect.x geo + QRect.width geo - QRect.width placed) = false
  /\ (QRect.y placed <=? QRect.y geo + QRect.height geo - QRect.height placed) = false.
Proof. vm_compute. repeat split. Qed.




(** ** The reminder schedule *)

Lemma randint_range (a b entropy : Z) :
  a <= b -> a <= Py.randint a b entropy <= b.
Proof.
  intros H. unfold Py.randint.
  pose proof (Z.mod_pos_bound entropy (b - a + 1)). lia.
Qed.

(** Every value of the range is drawn by some entropy. *)
Lemma randint_onto (a b r : Z) :
  a <= r <= b -> Py.randint a b (r - a) = r.
Proof.
  intros H. unfold Py.randint. rewrite Z.mod_small; lia.
Qed.

Lemma schedule_next_reminder_armed (w : World) (self : ReminderOverlay) (t : QTimer) :
  preview self = false ->
  reminder_timer (timers self) = Some t ->
  let armed := schedule_next_reminder w self in
  next_reminder armed = now w + reminder_delay w (config self)
  /\ reminder_timer (timers armed)
     = Some (QTimer_.start_msec (reminder_delay w (config self)) t)
  /\ config armed = config self
  /\ window armed = window self
  /\ animator armed = animator self
  /\ assets armed = assets self.
Proof.
  intros Hp Ht armed. unfold armed, schedule_next_reminder, reminder_delay.
  rewrite Hp, Ht. cbn [orb negb]. rewrite bool_decide_eq_true_2 by eauto.
  cbn [negb]. cbv zeta.
  destruct (0 <? random_offset_ms (config self)); cbn; rewrite ?Ht, ?Z.add_0_r;
    repeat split.
Qed.



(** The clamp is applied after the draw is added: with an interval of
    500 ms, a ceiling of 1000 ms and a draw of 700 ms the reminder
    fires 1200 ms from now. *)
Example schedule_next_reminder_clamps_the_sum :
  let w := {| now := 0; entropy := 700; screens := [full_hd];
              screenAt_cursor := Some full_hd; primaryScreen := full_hd;
              parent_screen := None; title_advance := 150; message_advance := 160;
              animation_assets := ([], false) |} in
  let self := started full_hd (with_interval 500 1000 default_config) in
  next_reminder (schedule_next_reminder w self) = 1200.
Proof. vm_compute. reflexivity. Qed.

(** ** Transition animations *)

Ltac case_conditions :=
  repeat match goal with
    | |- context [if ?c then _ else _] => destruct c
    | |- context [match ?c with _ => _ end] => destruct c
    end.

(** Functions that leave the animator alone. *)
Lemma animator_load_assets w s : animator (load_assets w s) = animator s.
Proof. unfold load_assets, set_movie, set_static_pixmap. case_conditions; reflexivity. Qed.

Lemma animator_position_overlay w s : animator (position_overlay w s) = animator s.
Proof. unfold position_overlay. case_conditions; reflexivity. Qed.

Lemma animator_apply_config w c s : animator (apply_config w c s) = animator s.
Proof.
  unfold apply_config. cbv zeta.
  case_conditions; cbn; rewrite ?animator_position_overlay, ?animator_load_assets; reflexivity.
Qed.

Lemma animator_schedule_next_reminder w s : animator (schedule_next_reminder w s) = animator s.
Proof. unfold schedule_next_reminder. case_conditions; reflexivity. Qed.

Lemma animator_reset_reminder_timer w s : animator (reset_reminder_timer w s) = animator s.
Proof.
  unfold reset_reminder_timer. case_conditions; rewrite ?animator_schedule_next_reminder; reflexivity.
Qed.

Lemma animator_advance_animation s : animator (advance_animation s) = animator s.
Proof. unfold advance_animation, set_movie, set_static_pixmap. case_conditions; reflexivity. Qed.

Lemma animator_run_finalize f s : animator (run_finalize f s) = animator s.
Proof. destruct f as [? ?|[]|? []]; reflexivity. Qed.

Lemma animator__start_animation animation finalize s :
  animator (_start_animation animation finalize s)
  = animator_start animation finalize (animator s).
Proof.
  unfold _start_animation, animator_start, animation_start. cbv zeta.
  destruct (active_animation (animator s)) as [old|]; cbn.
  - rewrite lookup_alter_eq, lookup_insert_eq. reflexivity.
  - rewrite lookup_alter_eq, lookup_insert_eq. reflexivity.
Qed.

Lemma steps_start animation finalize s :
  animator_steps (animator s) (animator (_start_animation animation finalize s)).
Proof. rewrite animator__start_animation. apply rtc_once. constructor. Qed.

Lemma steps_same s s' : animator s' = animator s -> animator_steps (animator s) (animator s').
Proof. intros ->. apply rtc_refl. Qed.

Lemma animator_run_entry_animation s :
  animator_steps (animator s) (animator (run_entry_animation s)).
Proof.
  unfold run_entry_animation. cbv zeta.
  case_conditions; try (apply steps_same; reflexivity).
  all: match goal with
       | |- animator_steps _ (animator (_start_animation ?a ?f ?s')) =>
           change (animator s) with (animator s'); apply steps_start
       end.
Qed.

Lemma animator_run_exit_animation cb s :
  animator_steps (animator s) (animator (run_exit_animation cb s).2).
Proof.
  unfold run_exit_animation. cbv zeta.
  case_conditions; cbn [snd]; try (apply steps_same; reflexivity).
  all: apply steps_start.
Qed.

Lemma animator_show_overlay w s :
  animator_steps (animator s) (animator (show_overlay w s)).
Proof.
  unfold show_overlay. cbv zeta.
  match goal with
  | |- animator_steps _ (animator (if ?c then run_entry_animation ?s' else _)) =>
      set (shown := s'); assert (Hs : animator shown = animator s)
  end.
  { unfold shown, show, set_movie, set_static_pixmap.
    case_conditions; cbn;
      rewrite ?animator_position_overlay, ?animator_apply_config; reflexivity. }
  rewrite <- Hs. clearbody shown.
  destruct (negb (preview shown)).
  - apply animator_run_entry_animation.
  - apply rtc_refl.
Qed.

Lemma animator_hide_overlay s :
  animator_steps (animator s) (animator (hide_overlay s)).
Proof.
  unfold hide_overlay.
  destruct (preview s); [apply steps_same; reflexivity |].
  cbv zeta.
  match goal with
  | |- context [run_exit_animation ?cb ?s'] =>
      assert (Hs : animator s' = animator_cancel (animator s));
      [| pose proof (animator_run_exit_animation cb s') as Hexit;
         destruct (run_exit_animation cb s') as [started s'']; cbn [snd] in Hexit ]
  end.
  { unfold animator_cancel.
    destruct (fallback_movie (assets _)); cbn;
      destruct (active_animation (animator s)); reflexivity. }
  rewrite Hs in Hexit.
  eapply rtc_l; [apply step_cancel |].
  destruct started; [exact Hexit |].
  eapply rtc_trans; [exact Hexit |]. apply steps_same. reflexivity.
Qed.

Lemma animator_cleanup finalize a s :
  animator (cleanup finalize a s)
  = (let m := match finalize with
              | Some _ => log_finalize a (animator s)
              | None => animator s
              end in
     let m := on_animation a QAnimation.set_deleteLater m in
     if bool_decide (active_animation m = Some a) then set_active_animation None m else m).
Proof.
  unfold cleanup. cbv zeta.
  destruct finalize as [f|].
  - set (s1 := run_finalize f _).
    assert (H1 : animator s1 = log_finalize a (animator s))
      by (unfold s1; rewrite animator_run_finalize; reflexivity).
    clearbody s1. cbn. rewrite H1. cbn.
    destruct (bool_decide _); cbn; rewrite ?H1; reflexivity.
  - cbn. destruct (bool_decide _); reflexivity.
Qed.

Lemma animator_finish_animation a s :
  animator (finish_animation a s) = animator_finish a (animator s).
Proof.
  unfold finish_animation, animator_finish.
  destruct (animations (animator s) !! a) as [obj|]; [| reflexivity].
  destruct (state obj); try reflexivity.
  cbv zeta. destruct (finished_cleanup obj) as [finalize|]; [| reflexivity].
  rewrite animator_cleanup. reflexivity.
Qed.

Lemma animator_handle w e s :
  animator_steps (animator s) (animator (handle w e s)).
Proof.
  destruct e; cbn [handle].
  - destruct (timer_due _); [| apply rtc_refl].
    unfold trigger_reminder. cbn [preview with_timers].
    destruct (preview s); [apply rtc_refl |].
    eapply rtc_trans; [| apply animator_show_overlay].
    apply steps_same. rewrite animator_schedule_next_reminder. reflexivity.
  - destruct (timer_due _); [| apply rtc_refl].
    apply (animator_hide_overlay (with_timers _ s)).
  - destruct (isActive _); [| apply rtc_refl].
    apply steps_same. rewrite animator_advance_animation. reflexivity.
  - destruct (timer_due _); apply rtc_refl.
  - rewrite animator_finish_animation. apply rtc_once. constructor.
  - destruct (isVisible _); [| apply rtc_refl].
    unfold mousePressEvent. destruct (preview s); [apply rtc_refl |].
    rewrite animator_reset_reminder_timer. apply animator_hide_overlay.
  - apply animator_show_overlay.
  - rewrite animator_reset_reminder_timer. apply animator_show_overlay.
  - apply steps_same. rewrite animator_reset_reminder_timer, animator_apply_config. reflexivity.
Qed.

Lemma state_of_on_animation b f m a :
  state_of (on_animation b f m) a
  = if decide (b = a) then (fun obj => state (f obj)) <$> animations m !! a else state_of m a.
Proof.
  unfold state_of, on_animation. cbn.
  destruct (decide (b = a)) as [->|Hne].
  - rewrite lookup_alter_eq. destruct (animations m !! a); reflexivity.
  - rewrite lookup_alter_ne by done. reflexivity.
Qed.

Lemma state_of_keep b f m a :
  (forall obj, state (f obj) = state obj) ->
  state_of (on_animation b f m) a = state_of m a.
Proof.
  intros Hf. rewrite state_of_on_animation. destruct (decide (b = a)); [| reflexivity].
  unfold state_of. destruct (animations m !! a); cbn; [rewrite Hf |]; reflexivity.
Qed.

Lemma state_of_deleteLater b m a :
  state_of (on_animation b QAnimation.set_deleteLater m) a = state_of m a.
Proof. apply state_of_keep. reflexivity. Qed.

Lemma state_of_connect b fin m a :
  state_of (on_animation b (QAnimation.connect_finished fin) m) a = state_of m a.
Proof. apply state_of_keep. reflexivity. Qed.

Lemma state_of_stop b m a :
  state_of (on_animation b QAnimation.stop m) a
  = if decide (b = a)
    then match state_of m a with Some Running => Some Cancelled | st => st end
    else state_of m a.
Proof.
  rewrite state_of_on_animation. destruct (decide (b = a)); [| reflexivity].
  unfold state_of, QAnimation.stop.
  destruct (animations m !! a) as [obj|]; cbn; [| reflexivity].
  destruct (state obj) eqn:Hst; cbn; rewrite ?Hst; reflexivity.
Qed.

Lemma state_of_setState b st m a :
  state_of (on_animation b (QAnimation.setState st) m) a
  = if decide (b = a)
    then match state_of m a with Some _ => Some st | None => None end
    else state_of m a.
Proof.
  rewrite state_of_on_animation. destruct (decide (b = a)); [| reflexivity].
  unfold state_of. destruct (animations m !! a); reflexivity.
Qed.

Lemma state_of_new obj m a :
  state_of (new_animation obj m) a
  = if decide (next_animation m = a) then Some (state obj) else state_of m a.
Proof.
  unfold state_of, new_animation. cbn.
  destruct (decide (next_animation m = a)) as [->|Hne].
  - rewrite lookup_insert_eq. reflexivity.
  - rewrite lookup_insert_ne by done. reflexivity.
Qed.

Lemma state_of_drop m a :
  state_of (animator_drop m) a
  = if decide (active_animation m = Some a)
    then match state_of m a with Some Running => Some Cancelled | st => st end
    else state_of m a.
Proof.
  unfold animator_drop. destruct (active_animation m) as [old|].
  - rewrite state_of_deleteLater, state_of_stop.
    destruct (decide (old = a)) as [->|Hne].
    + rewrite decide_True by done. reflexivity.
    + rewrite decide_False by congruence. reflexivity.
  - rewrite decide_False by done. reflexivity.
Qed.

Lemma drop_fields m :
  finalize_calls (animator_drop m) = finalize_calls m
  /\ next_animation (animator_drop m) = next_animation m.
Proof. unfold animator_drop. destruct (active_animation m); split; reflexivity. Qed.

Lemma state_of_start animation finalize m a :
  state_of (animator_start animation finalize m) a
  = if decide (next_animation m = a) then Some Running else state_of (animator_drop m) a.
Proof.
  unfold animator_start. fold (animator_drop m). cbv zeta.
  destruct (drop_fields m) as (_ & Hnext). rewrite Hnext.
  rewrite state_of_setState, state_of_connect.
  change (state_of (set_active_animation ?x ?m') a) with (state_of m' a).
  rewrite state_of_new, Hnext.
  destruct (decide (next_animation m = a)); reflexivity.
Qed.

Lemma start_fields animation finalize m :
  finalize_calls (animator_start animation finalize m) = finalize_calls m
  /\ next_animation (animator_start animation finalize m) = S (next_animation m)
  /\ active_animation (animator_start animation finalize m) = Some (next_animation m).
Proof.
  unfold animator_start. destruct (active_animation m); repeat split; reflexivity.
Qed.

Lemma state_of_cancel m a :
  state_of (animator_cancel m) a = state_of (animator_drop m) a.
Proof. unfold animator_cancel, animator_drop. destruct (active_animation m); reflexivity. Qed.

Lemma cancel_fields m :
  finalize_calls (animator_cancel m) = finalize_calls m
  /\ next_animation (animator_cancel m) = next_animation m.
Proof. unfold animator_cancel. destruct (active_animation m); split; reflexivity. Qed.

(** [finished] is emitted for a running animation only; its effect on
    the states and on the record of calls. *)
Lemma finish_cases a m :
  (state_of m a <> Some Running /\ animator_finish a m = m)
  \/ (state_of m a = Some Running
      /\ (forall b, state_of (animator_finish a m) b
                    = if decide (a = b) then Some Completed else state_of m b)
      /\ (finalize_calls (animator_finish a m) = finalize_calls m
          \/ finalize_calls (animator_finish a m) = finalize_calls m ++ [a])
      /\ next_animation (animator_finish a m) = next_animation m).
Proof.
  unfold animator_finish.
  destruct (animations m !! a) as [obj|] eqn:Hobj.
  2: { left. split; [unfold state_of; rewrite Hobj; discriminate | reflexivity]. }
  assert (Hsa : state_of m a = Some (state obj))
    by (unfold state_of; rewrite Hobj; reflexivity).
  destruct (state obj) eqn:Hst;
    try (left; split; [rewrite Hsa; discriminate | reflexivity]).
  right. split; [exact Hsa |].
  assert (Hset : forall b,
    state_of (on_animation a (QAnimation.setState Completed) m) b
    = if decide (a = b) then Some Completed else state_of m b).
  { intros b. rewrite state_of_setState. destruct (decide (a = b)) as [<-|]; [| reflexivity].
    rewrite Hsa. reflexivity. }
  destruct (finished_cleanup obj) as [[f|]|]; cbv zeta.
  - split; [| split; [right | ]].
    + intros b. destruct (bool_decide _);
        change (state_of (set_active_animation ?x ?m') b) with (state_of m' b);
        rewrite state_of_deleteLater;
        change (state_of (log_finalize ?x ?m') b) with (state_of m' b); apply Hset.
    + destruct (bool_decide _); reflexivity.
    + destruct (bool_decide _); reflexivity.
  - split; [| split; [left | ]].
    + intros b. destruct (bool_decide _);
        change (state_of (set_active_animation ?x ?m') b) with (state_of m' b);
        rewrite state_of_deleteLater; apply Hset.
    + destruct (bool_decide _); reflexivity.
    + destruct (bool_decide _); reflexivity.
  - split; [exact Hset | split; [left |]]; reflexivity.
Qed.

Lemma drop_settled m a st :
  st <> Running -> state_of m a = Some st -> state_of (animator_drop m) a = Some st.
Proof.
  intros Hst Ha. rewrite state_of_drop, Ha.
  destruct (decide _); [destruct st; congruence | reflexivity].
Qed.

Lemma drop_is_Some m a :
  is_Some (state_of (animator_drop m) a) -> is_Some (state_of m a).
Proof.
  rewrite state_of_drop. destruct (decide _); [| done].
  destruct (state_of m a) as [[]|]; eauto.
Qed.

Lemma step_ok m m' : animator_ok m -> animator_step m m' -> animator_ok m'.
Proof.
  intros (Hnodup & Hdone & Hfresh) Hstep. destruct Hstep as [animation finalize| |a].
  - destruct (start_fields animation finalize m) as (Hc & Hn & _).
    unfold animator_ok. rewrite Hc, Hn. split; [exact Hnodup |]. split.
    + intros a Ha. rewrite state_of_start.
      pose proof (Hdone a Ha) as Hst.
      assert (a < next_animation m)%nat by (apply Hfresh; rewrite Hst; eauto).
      rewrite decide_False by lia. apply drop_settled; [discriminate | exact Hst].
    + intros a. rewrite state_of_start. destruct (decide _); [lia |].
      intros Ha. apply drop_is_Some, Hfresh in Ha. lia.
  - destruct (cancel_fields m) as (Hc & Hn).
    unfold animator_ok. rewrite Hc, Hn. split; [exact Hnodup |]. split.
    + intros a Ha. rewrite state_of_cancel.
      apply drop_settled; [discriminate | apply Hdone, Ha].
    + intros a. rewrite state_of_cancel. intros Ha. apply drop_is_Some, Hfresh in Ha. exact Ha.
  - destruct (finish_cases a m) as [(_ & ->)|(Hrun & Hst & Hcalls & Hn)];
      [repeat split; assumption |].
    assert (Hnew : a ∉ finalize_calls m).
    { intros Hin. rewrite (Hdone a Hin) in Hrun. discriminate. }
    unfold animator_ok. rewrite Hn. split; [| split].
    + destruct Hcalls as [-> | ->]; [exact Hnodup |].
      apply NoDup_app. split; [exact Hnodup |]. split.
      * intros b Hb ->%list_elem_of_singleton. exact (Hnew Hb).
      * apply NoDup_singleton.
    + intros b Hb. rewrite Hst. destruct (decide (a = b)); [reflexivity |].
      apply Hdone. destruct Hcalls as [Hc | Hc]; rewrite Hc in Hb; [exact Hb |].
      apply elem_of_app in Hb as [Hb | Hb%list_elem_of_singleton]; [exact Hb | congruence].
    + intros b. rewrite Hst. destruct (decide (a = b)) as [<-|]; [| apply Hfresh].
      intros _. apply Hfresh. rewrite Hrun. eauto.
Qed.

Lemma step_cancelled m m' a :
  animator_ok m -> animator_step m m' ->
  state_of m a = Some Cancelled -> state_of m' a = Some Cancelled.
Proof.
  intros (_ & _ & Hfresh) Hstep Ha. destruct Hstep as [animation finalize| |b].
  - rewrite state_of_start.
    assert (a < next_animation m)%nat by (apply Hfresh; rewrite Ha; eauto).
    rewrite decide_False by lia. apply drop_settled; [discriminate | exact Ha].
  - rewrite state_of_cancel. apply drop_settled; [discriminate | exact Ha].
  - destruct (finish_cases b m) as [(_ & ->)|(Hrun & Hst & _)]; [exact Ha |].
    rewrite Hst. destruct (decide (b = a)) as [->|]; [congruence | exact Ha].
Qed.

Lemma steps_ok m m' : animator_ok m -> animator_steps m m' -> animator_ok m'.
Proof. intros Hok Hsteps. induction Hsteps; eauto using step_ok. Qed.

Lemma steps_cancelled m m' a :
  animator_ok m -> animator_steps m m' ->
  state_of m a = Some Cancelled -> state_of m' a = Some Cancelled.
Proof.
  intros Hok Hsteps. induction Hsteps as [|m1 m2 m3 Hstep _ IH]; [done |].
  intros Ha. apply IH; [eapply step_ok | eapply step_cancelled]; eassumption.
Qed.

Lemma animator_run events s : animator_steps (animator s) (animator (run events s)).
Proof.
  revert s. induction events as [|[w e] rest IH]; intros s; [apply rtc_refl |].
  cbn [run]. eapply rtc_trans; [apply animator_handle | apply IH].
Qed.

Lemma init_animator_ok w c p : animator_ok (animator (ReminderOverlay_init w c p)).
Proof.
  assert (Hinit : animator (ReminderOverlay_init w c p)
                  = {| active_animation := None; animations := ∅;
                       next_animation := 0%nat; finalize_calls := [] |}).
  { unfold ReminderOverlay_init. cbv zeta.
    destruct p; cbn; rewrite animator_apply_config, animator_load_assets; reflexivity. }
  rewrite Hinit. split; [apply NoDup_nil_2 |]. split.
  - intros a Ha. cbn in Ha. apply elem_of_nil in Ha. done.
  - intros a [st Hst]. unfold state_of in Hst. cbn in Hst.
    rewrite lookup_empty in Hst. discriminate.
Qed.

Lemma cancelled_not_called m a :
  animator_ok m -> state_of m a = Some Cancelled -> a ∉ finalize_calls m.
Proof. intros (_ & Hdone & _) Ha Hin. rewrite (Hdone a Hin) in Ha. discriminate. Qed.

(** C4. Along every run of the event loop: the [finalize] of an
    animation is called at most once, and only for an animation that
    reached its end; an animation that was cancelled never has its
    [finalize] called afterwards; and [_start_animation], called while
    a run is active, cancels that run without calling its [finalize],
    which is then never called whatever happens next. *)
Theorem cancelled_run_never_finalized
    (self : ReminderOverlay) (events : list (World * Event)) :
  animator_ok (animator self) ->
  let later := run events self in
  NoDup (finalize_calls (animator later))
  /\ (forall a, a ∈ finalize_calls (animator later) ->
                state_of (animator later) a = Some Completed)
  /\ (forall a, state_of (animator self) a = Some Cancelled ->
                a ∉ finalize_calls (animator later))
  /\ (forall old animation finalize,
        active_animation (animator self) = Some old ->
        state_of (animator self) old = Some Running ->
        let restarted := _start_animation animation finalize self in
        state_of (animator restarted) old = Some Cancelled
        /\ (old ∉ finalize_calls (animator restarted))
        /\ (old ∉ finalize_calls (animator (run events restarted)))).
Proof.
  intros Hok later.
  pose proof (steps_ok _ _ Hok (animator_run events self)) as Hlater.
  fold later in Hlater.
  split; [apply Hlater |]. split; [apply Hlater |]. split.
  - intros a Ha. apply cancelled_not_called; [exact Hlater |].
    apply (steps_cancelled _ _ a Hok (animator_run events self) Ha).
  - intros old animation finalize Hactive Hrun restarted.
    assert (Hok' : animator_ok (animator restarted)).
    { unfold restarted. rewrite animator__start_animation.
      eapply step_ok; [exact Hok | constructor]. }
    assert (Hc : state_of (animator restarted) old = Some Cancelled).
    { unfold restarted. rewrite animator__start_animation, state_of_start.
      destruct Hok as (_ & _ & Hfresh).
      assert (old < next_animation (animator self))%nat by (apply Hfresh; rewrite Hrun; eauto).
      rewrite decide_False by lia.
      rewrite state_of_drop. rewrite decide_True by exact Hactive.
      rewrite Hrun. reflexivity. }
    split; [exact Hc |]. split.
    + apply cancelled_not_called; assumption.
    + apply cancelled_not_called.
      * apply (steps_ok _ _ Hok' (animator_run events restarted)).
      * apply (steps_cancelled _ _ old Hok' (animator_run events restarted) Hc).
Qed.

(** ** The lifecycle and the schedule *)

Lemma schedule_fields s : next_reminder s = (schedule s).1.
Proof. reflexivity. Qed.

Lemma schedule_timer s : reminder_timer (timers s) = (schedule s).2.
Proof. reflexivity. Qed.

Lemma schedule_with_config c s : schedule (with_config c s) = schedule s.
Proof. reflexivity. Qed.
Lemma schedule_with_window f s : schedule (with_window f s) = schedule s.
Proof. reflexivity. Qed.
Lemma schedule_with_content f s : schedule (with_content f s) = schedule s.
Proof. reflexivity. Qed.
Lemma schedule_with_assets f s : schedule (with_assets f s) = schedule s.
Proof. reflexivity. Qed.
Lemma schedule_with_animator f s : schedule (with_animator f s) = schedule s.
Proof. reflexivity. Qed.
Lemma schedule_on_animation_timer f s :
  schedule (with_timers (on_animation_timer f) s) = schedule s.
Proof. reflexivity. Qed.
Lemma schedule_on_auto_hide_timer f s :
  schedule (with_timers (on_auto_hide_timer f) s) = schedule s.
Proof. reflexivity. Qed.
Lemma schedule_on_countdown_timer f s :
  schedule (with_timers (on_countdown_timer f) s) = schedule s.
Proof. reflexivity. Qed.
Lemma schedule_show s : schedule (show s) = schedule s.
Proof. reflexivity. Qed.
Lemma schedule_hide s : schedule (hide s) = schedule s.
Proof. reflexivity. Qed.
Lemma schedule_set_static_pixmap p s : schedule (set_static_pixmap p s) = schedule s.
Proof. reflexivity. Qed.
Lemma schedule_set_movie s : schedule (set_movie s) = schedule s.
Proof. unfold set_movie. case_conditions; reflexivity. Qed.
Lemma schedule_update_countdown w s : schedule (update_countdown w s) = schedule s.
Proof. reflexivity. Qed.

Create Rewrite HintDb sched.
#[local] Hint Rewrite schedule_with_config schedule_with_window schedule_with_content
  schedule_with_assets schedule_with_animator schedule_on_animation_timer
  schedule_on_auto_hide_timer schedule_on_countdown_timer schedule_show schedule_hide
  schedule_set_static_pixmap schedule_set_movie schedule_update_countdown : sched.

Ltac frame_schedule := case_conditions; autorewrite with sched; try reflexivity.

Lemma schedule_animation_start a s : schedule (animation_start a s) = schedule s.
Proof. unfold animation_start. frame_schedule. Qed.

Lemma schedule__start_animation animation finalize s :
  schedule (_start_animation animation finalize s) = schedule s.
Proof.
  unfold _start_animation. cbv zeta. rewrite schedule_animation_start. frame_schedule.
Qed.
#[local] Hint Rewrite schedule__start_animation : sched.

Lemma schedule_run_exit_animation cb s :
  schedule (run_exit_animation cb s).2 = schedule s.
Proof. unfold run_exit_animation. cbv zeta. case_conditions; cbn [snd]; frame_schedule. Qed.

Lemma schedule_run_entry_animation s : schedule (run_entry_animation s) = schedule s.
Proof. unfold run_entry_animation. cbv zeta. frame_schedule. Qed.

Lemma schedule_load_assets w s : schedule (load_assets w s) = schedule s.
Proof. unfold load_assets. frame_schedule. Qed.

Lemma schedule_position_overlay w s : schedule (position_overlay w s) = schedule s.
Proof. unfold position_overlay. frame_schedule. Qed.
#[local] Hint Rewrite schedule_run_entry_animation schedule_load_assets
  schedule_position_overlay : sched.

Lemma schedule_apply_config w c s : schedule (apply_config w c s) = schedule s.
Proof. unfold apply_config. cbv zeta. frame_schedule. Qed.
#[local] Hint Rewrite schedule_apply_config : sched.

Lemma schedule_show_overlay w s : schedule (show_overlay w s) = schedule s.
Proof. unfold show_overlay. cbv zeta. frame_schedule. Qed.

Lemma schedule_hide_overlay s : schedule (hide_overlay s) = schedule s.
Proof.
  unfold hide_overlay. destruct (preview s); [reflexivity |]. cbv zeta.
  match goal with
  | |- context [run_exit_animation ?cb ?s'] =>
      pose proof (schedule_run_exit_animation cb s') as Hexit;
      assert (Hs : schedule s' = schedule s);
      [| destruct (run_exit_animation cb s') as [started s'']; cbn [snd] in Hexit ]
  end.
  { frame_schedule. }
  destruct started; autorewrite with sched; congruence.
Qed.

Lemma schedule_run_finalize f s : schedule (run_finalize f s) = schedule s.
Proof. destruct f as [? ?|[]|? []]; reflexivity. Qed.
#[local] Hint Rewrite schedule_run_finalize : sched.

Lemma schedule_cleanup finalize a s : schedule (cleanup finalize a s) = schedule s.
Proof. unfold cleanup. cbv zeta. frame_schedule. Qed.
#[local] Hint Rewrite schedule_cleanup : sched.

Lemma schedule_finish_animation a s : schedule (finish_animation a s) = schedule s.
Proof. unfold finish_animation. frame_schedule. Qed.

Lemma visible_animation_start a s :
  isVisible (window (animation_start a s)) = isVisible (window s).
Proof.
  unfold animation_start. destruct (animations _ !! a) as [obj|]; [| reflexivity].
  cbn. unfold set_property. case_conditions; reflexivity.
Qed.

Lemma visible__start_animation animation finalize s :
  isVisible (window (_start_animation animation finalize s)) = isVisible (window s).
Proof.
  unfold _start_animation. cbv zeta. rewrite visible_animation_start.
  case_conditions; reflexivity.
Qed.

Lemma visible_run_entry_animation s :
  isVisible (window (run_entry_animation s)) = isVisible (window s).
Proof.
  unfold run_entry_animation. cbv zeta.
  case_conditions; rewrite ?visible__start_animation; reflexivity.
Qed.

Lemma visible_show_overlay w s : isVisible (window (show_overlay w s)) = true.
Proof.
  unfold show_overlay. cbv zeta.
  match goal with
  | |- context [if ?c then run_entry_animation ?s' else _] => destruct c
  end; rewrite ?visible_run_entry_animation; reflexivity.
Qed.

Lemma _start_animation_frame animation finalize s :
  content (_start_animation animation finalize s) = content s
  /\ assets (_start_animation animation finalize s) = assets s
  /\ timers (_start_animation animation finalize s) = timers s
  /\ config (_start_animation animation finalize s) = config s
  /\ preview (_start_animation animation finalize s) = preview s.
Proof.
  unfold _start_animation, animation_start. cbv zeta.
  case_conditions; repeat split.
Qed.

Lemma _start_animation_window animation finalize s :
  window (_start_animation animation finalize s)
  = set_property (propertyName animation) (startValue animation) (window s).
Proof.
  unfold _start_animation, animation_start. cbv zeta.
  destruct (active_animation (animator s)); cbn;
    rewrite lookup_alter_eq, lookup_insert_eq; reflexivity.
Qed.

Lemma window_eta (w : Window) :
  setWindowOpacity (windowOpacity w) w = w /\ setGeometry (geometry w) w = w.
Proof. destruct w; split; reflexivity. Qed.

Lemma timer_stop_inactive (t : QTimer) : isActive t = false -> QTimer_.stop t = t.
Proof. destruct t; cbn; intros ->; reflexivity. Qed.

Lemma hide_overlay_settled self :
  preview self = false ->
  hide_overlay self
  = (let '(started, self) := run_exit_animation hide_overlay_finalize (settled self) in
     if started then self else hide self).
Proof.
  intros Hp. unfold hide_overlay. rewrite Hp. cbv zeta.
  match goal with
  | |- context [run_exit_animation _ ?s'] => assert (Hs : s' = settled self)
  end.
  { unfold settled. cbv zeta.
    destruct (fallback_movie _); unfold with_animator, animator_cancel; cbn;
      destruct (active_animation (animator self)); reflexivity. }
  rewrite Hs. reflexivity.
Qed.

Lemma run_exit_animation_cases cb s :
  preview s = false ->
  (has_exit_effect (entry_animation (config s)) = false
   /\ run_exit_animation cb s = (false, s))
  \/ (has_exit_effect (entry_animation (config s)) = true
      /\ exists animation finalize,
           run_exit_animation cb s = (true, _start_animation animation finalize s)
           /\ set_property (propertyName animation) (startValue animation) (window s)
              = window s).
Proof.
  intros Hp. unfold run_exit_animation, has_exit_effect. rewrite Hp. cbv zeta.
  destruct (window_eta (window s)) as (Ho & Hg).
  destruct (String.eqb _ "fade"); [right; split; [reflexivity |] |].
  { eexists _, _. split; [reflexivity |]. exact Ho. }
  destruct (String.eqb _ "slide"); [right; split; [reflexivity |] |].
  { eexists _, _. split; [reflexivity |]. exact Hg. }
  destruct (String.eqb _ "pop"); [right; split; [reflexivity |] |].
  { eexists _, _. split; [reflexivity |]. exact Hg. }
  left. split; reflexivity.
Qed.

(** What [hide_overlay] leaves alone, whatever the state. *)
Lemma hide_overlay_frame self :
  preview self = false ->
  config (hide_overlay self) = config self
  /\ preview (hide_overlay self) = false
  /\ content (hide_overlay self) = content self
  /\ timers (hide_overlay self) = timers (settled self)
  /\ assets (hide_overlay self) = assets (settled self).
Proof.
  intros Hp. rewrite (hide_overlay_settled self Hp).
  assert (Hps : preview (settled self) = false).
  { unfold settled. cbv zeta. destruct (fallback_movie _); exact Hp. }
  assert (Hcs : config (settled self) = config self
                /\ content (settled self) = content self).
  { unfold settled. cbv zeta. destruct (fallback_movie _); split; reflexivity. }
  destruct Hcs as (Hc & Hcont).
  destruct (run_exit_animation_cases hide_overlay_finalize (settled self) Hps)
    as [(_ & ->)|(_ & animation & finalize & -> & _)].
  - cbv beta iota. unfold hide.
    cbn [config preview content timers assets with_window].
    rewrite Hc, Hcont. repeat split; assumption.
  - cbv beta iota.
    destruct (_start_animation_frame animation finalize (settled self))
      as (H1 & H2 & H3 & H4 & H5).
    rewrite H1, H2, H3, H4, H5, Hc, Hcont. repeat split; assumption.
Qed.

Lemma reset_reminder_timer_armed (w : World) (self : ReminderOverlay) :
  preview self = false ->
  is_Some (reminder_timer (timers self)) ->
  next_reminder (reset_reminder_timer w self) = now w + reminder_delay w (config self).
Proof.
  intros Hp [t Ht]. unfold reset_reminder_timer.
  rewrite Hp, Ht. cbn [orb negb]. rewrite bool_decide_eq_true_2 by eauto. cbn [negb].
  cbv zeta.
  destruct (schedule_next_reminder_armed w
              (with_timers (on_reminder_timer QTimer_.stop) self) (QTimer_.stop t))
    as (Hn & _); [exact Hp | cbn; rewrite Ht; reflexivity |].
  exact Hn.
Qed.




(** ** Dismissal while idle *)

Lemma settled_fields self :
  window (settled self) = window self
  /\ content (settled self) = content self
  /\ frame_pixmaps (assets (settled self)) = frame_pixmaps (assets self)
  /\ animation_index (assets (settled self)) = animation_index (assets self)
  /\ isActive (animation_timer (timers (settled self))) = false
  /\ timer_due (auto_hide_timer (timers (settled self))) = false
  /\ movie_running (settled self) = false
  /\ animator (settled self) = animator_cancel (animator self)
  /\ config (settled self) = config self
  /\ preview (settled self) = preview self.
Proof.
  unfold settled, movie_running. cbv zeta.
  destruct (fallback_movie (assets _)) eqn:Hm; cbn in Hm |- *; rewrite ?Hm;
    destruct (auto_hide_timer (timers self)); repeat split.
Qed.

Lemma settled_noop self :
  isActive (animation_timer (timers self)) = false ->
  timer_due (auto_hide_timer (timers self)) = false ->
  movie_running self = false ->
  active_animation (animator self) = None ->
  settled self = self.
Proof.
  unfold settled, movie_running, timer_due, animator_cancel.
  destruct self as [p c win cont [fp fm ai lad] [at_ aht rt ct] [act anims nx calls] nr].
  cbn. intros Hat Haht Hm ->.
  destruct fm as [[r]|], aht as [t|]; cbn in Hm, Haht; subst;
    unfold with_animator, with_assets, with_timers, on_animation_timer,
      on_auto_hide_timer, set_fallback_movie; cbn;
    rewrite ?timer_stop_inactive by assumption; reflexivity.
Qed.

(** C5, as amended. [hide_overlay] on an idle overlay leaves it idle and
    leaves its window, the displayed frame and countdown text, the
    pending schedule and the frame index as they are; the sprite timer,
    the auto-hide timer and the movie are stopped afterwards; with
    the effect fade, slide or pop an exit run is started on the hidden
    overlay; and when the effect is none, those timers and the movie
    are already stopped and no animation is active, the overlay is
    unchanged. *)
Theorem hide_overlay_when_idle (self : ReminderOverlay) :
  preview self = false ->
  lifecycle self = Idle ->
  let after := hide_overlay self in
  lifecycle after = Idle
  /\ window after = window self
  /\ content after = content self
  /\ schedule after = schedule self
  /\ frame_pixmaps (assets after) = frame_pixmaps (assets self)
  /\ animation_index (assets after) = animation_index (assets self)
  /\ isActive (animation_timer (timers after)) = false
  /\ timer_due (auto_hide_timer (timers after)) = false
  /\ movie_running after = false
  /\ (has_exit_effect (entry_animation (config self)) = true ->
      active_animation (animator after) = Some (next_animation (animator self))
      /\ state_of (animator after) (next_animation (animator self)) = Some Running)
  /\ (has_exit_effect (entry_animation (config self)) = false ->
      isActive (animation_timer (timers self)) = false ->
      timer_due (auto_hide_timer (timers self)) = false ->
      movie_running self = false ->
      active_animation (animator self) = None ->
      after = self).
Proof.
  intros Hp Hidle after.
  assert (Hv : isVisible (window self) = false).
  { unfold lifecycle in Hidle. destruct (isVisible (window self)); [| reflexivity].
    cbn [negb] in Hidle.
    repeat match type of Hidle with
           | context [match ?c with _ => _ end] => destruct c
           end; discriminate. }
  assert (Hidle_of : forall s, window s = window self -> lifecycle s = Idle).
  { intros s Hs. unfold lifecycle. rewrite Hs, Hv. reflexivity. }
  destruct (settled_fields self)
    as (Hw & Hc & Hf & Hi & Hat & Haht & Hm & Hanim & Hcfg & Hps).
  rewrite Hp in Hps.
  pose proof (schedule_hide_overlay self) as Hsched. fold after in Hsched.
  destruct (hide_overlay_frame self Hp) as (_ & _ & Hcont & Htim & Hass).
  fold after in Hcont, Htim, Hass.
  assert (Hwin : window after = window self).
  { unfold after. rewrite (hide_overlay_settled self Hp).
    destruct (run_exit_animation_cases hide_overlay_finalize (settled self) Hps)
      as [(_ & ->)|(_ & animation & finalize & -> & Hprop)]; cbv beta iota.
    - unfold hide. cbn [window with_window]. rewrite Hw.
      destruct (window self) as [v o g]. cbn in Hv. subst v. reflexivity.
    - rewrite _start_animation_window, Hprop. exact Hw. }
  split; [apply Hidle_of, Hwin |]. split; [exact Hwin |].
  split; [exact Hcont |]. split; [exact Hsched |].
  rewrite Hass, Htim. unfold movie_running in *. rewrite Hass.
  split; [exact Hf |]. split; [exact Hi |]. split; [exact Hat |].
  split; [exact Haht |]. split; [exact Hm |]. split.
  - intros Heff. unfold after. rewrite (hide_overlay_settled self Hp).
    destruct (run_exit_animation_cases hide_overlay_finalize (settled self) Hps)
      as [(Hno & _)|(_ & animation & finalize & -> & _)]; [congruence |].
    cbv beta iota. rewrite animator__start_animation, Hanim.
    destruct (cancel_fields (animator self)) as (_ & Hnext).
    destruct (start_fields animation finalize (animator_cancel (animator self)))
      as (_ & _ & Hact).
    rewrite Hact, state_of_start, Hnext. rewrite decide_True by reflexivity.
    split; reflexivity.
  - intros Heff H1 H2 H3 H4. unfold after. rewrite (hide_overlay_settled self Hp).
    rewrite (settled_noop self H1 H2 H3 H4).
    destruct (run_exit_animation_cases hide_overlay_finalize self Hp)
      as [(_ & ->)|(Hyes & _)]; [| congruence].
    cbv beta iota. unfold hide.
    destruct self as [p c [v o g] cont ass tim anim nr]. cbn in Hv. subst v. reflexivity.
Qed.

Lemma hide_overlay_when_idle_witness :
  let self := started full_hd default_config in
  let after := hide_overlay self in
  lifecycle after = Idle
  /\ schedule after = schedule self
  /\ content after = content self.
Proof.
  pose proof (hide_overlay_when_idle (started full_hd default_config) eq_refl) as H.
  cbv zeta in H.
  destruct H as (H1 & _ & H3 & H4 & _); [vm_compute; reflexivity |].
  split; [exact H1 |]. split; [exact H4 | exact H3].
Defined.

(** C5, as stated, fails: right after start the overlay is Idle with
    its sprite timer running and no animation; [hide_overlay] stops
    that timer and starts a fade-out run on the hidden overlay. *)
Lemma hide_overlay_idle_not_noop :
  let self := started full_hd default_config in
  let after := hide_overlay self in
  lifecycle self = Idle
  /\ isActive (animation_timer (timers self)) = true
  /\ isActive (animation_timer (timers after)) = false
  /\ active_animation (animator self) = None
  /\ active_animation (animator after) = Some 0%nat
  /\ state_of (animator after) 0 = Some Running.
Proof. vm_compute. repeat split. Qed.

(** ** Transition animations: a run of the model *)

Lemma started_animator_ok (w : World) (c : AppConfig) (events : list (World * Event)) :
  animator_ok (animator (run events (ReminderApplication_init w c))).
Proof.
  eapply steps_ok; [| apply animator_run].
  unfold ReminderApplication_init. rewrite animator_schedule_next_reminder.
  apply init_animator_ok.
Qed.

Lemma cancelled_run_never_finalized_witness :
  let w := desktop full_hd 0 in
  let entering := run [(w, tray_show_overlay)] (started full_hd default_config) in
  let exit_run := QAnimation.setDuration 200 (QAnimation.new windowOpacity_property) in
  let restarted :=
    _start_animation exit_run (Some (exit_fade_finalize hide_overlay_finalize)) entering in
  let later := run [(w, animation_finished 0); (w, animation_finished 1)] restarted in
  active_animation (animator entering) = Some 0%nat
  /\ state_of (animator restarted) 0 = Some Cancelled
  /\ finalize_calls (animator later) = [1%nat]
  /\ (0%nat ∉ finalize_calls (animator later)).
Proof.
  pose proof (cancelled_run_never_finalized
                (run [(desktop full_hd 0, tray_show_overlay)] (started full_hd default_config))
                [(desktop full_hd 0, animation_finished 0);
                 (desktop full_hd 0, animation_finished 1)]
                (started_animator_ok _ _ _)) as H.
  cbv zeta in H. destruct H as (_ & _ & _ & H).
  specialize (H 0%nat
                (QAnimation.setDuration 200 (QAnimation.new windowOpacity_property))
                (Some (exit_fade_finalize hide_overlay_finalize))).
  destruct H as (Hc & _ & Hnever); [vm_compute; reflexivity ..|].
  split; [vm_compute; reflexivity |]. split; [exact Hc |].
  split; [vm_compute; reflexivity | exact Hnever].
Defined.

(** ** Configuration *)

Lemma get_int_quiet `{PyRuntime} data key get dflt :
  field_ok data (int_field key get) = true ->
  get_int data key dflt = Ok (int_from (data !! key) dflt).
Proof.
  unfold field_ok, get_int, int_from, Py.get. cbn [field_key].
  destruct (data !! key) as [v|]; cbn; [| reflexivity].
  destruct (Py.int v) as [n|[]] eqn:Hv; cbn; intros; done.
Qed.

Lemma get_float_quiet `{PyRuntime} data key get dflt :
  field_ok data (float_field key get) = true ->
  get_float data key dflt = Ok (float_from (data !! key) dflt).
Proof.
  unfold field_ok, get_float, float_from, Py.get. cbn [field_key].
  destruct (data !! key) as [v|]; cbn; [| reflexivity].
  destruct (Py.float v) as [n|[]] eqn:Hv; cbn; intros; done.
Qed.

Lemma component_cases `{PyRuntime} c key dflt :
  component_ok c key = true -> c_int dflt = true ->
  (exists n, Py.int (Py.get c key (PInt dflt)) = Ok n /\ c_int n = true)
  \/ Py.int (Py.get c key (PInt dflt)) = Raise TypeError
  \/ Py.int (Py.get c key (PInt dflt)) = Raise ValueError.
Proof.
  unfold component_ok, Py.get. intros Hc Hd.
  destruct (c !! key) as [v|]; cbn.
  - destruct (Py.int v) as [n|[]] eqn:Hv; eauto. discriminate.
  - left. exists dflt. split; [reflexivity | exact Hd].
Qed.

Lemma color_from_dict_quiet `{PyRuntime} v fb :
  color_ok v = true -> fallback_ok fb = true ->
  exists c, color_from_dict v fb = Ok c.
Proof.
  intros Hv Hfb. destruct v; try (eexists; reflexivity).
  unfold color_ok in Hv. unfold fallback_ok in Hfb.
  apply andb_prop in Hv as [Hv Hca]. apply andb_prop in Hv as [Hv Hcb].
  apply andb_prop in Hv as [Hcr Hcg].
  apply andb_prop in Hfb as [Hfb Hfa]. apply andb_prop in Hfb as [Hfb Hfbl].
  apply andb_prop in Hfb as [Hfr Hfg].
  unfold color_from_dict.
  destruct (component_cases d "r" (red fb) Hcr Hfr) as [(r & -> & Hr)|[-> | ->]];
    try (eexists; reflexivity).
  cbn [mbind result_bind].
  destruct (component_cases d "g" (green fb) Hcg Hfg) as [(g & -> & Hg)|[-> | ->]];
    try (eexists; reflexivity).
  cbn [mbind result_bind].
  destruct (component_cases d "b" (blue fb) Hcb Hfbl) as [(b & -> & Hb)|[-> | ->]];
    try (eexists; reflexivity).
  cbn [mbind result_bind].
  destruct (component_cases d "a" (alpha fb) Hca Hfa) as [(a & -> & Ha)|[-> | ->]];
    try (eexists; reflexivity).
  cbn [mbind result_bind]. unfold QColor_rgba. rewrite Hr, Hg, Hb, Ha. cbn [andb].
  destruct (_ && _); cbn; eexists; reflexivity.
Qed.

Lemma color_quiet `{PyRuntime} data key get fb :
  field_ok data (color_field key get) = true -> fallback_ok fb = true ->
  color_from_dict (Py.get data key PNone) fb = Ok (color_from (data !! key) fb).
Proof.
  unfold field_ok, color_from, Py.get. cbn [field_key]. intros Hk Hfb.
  destruct (data !! key) as [v|]; cbn; [| reflexivity].
  destruct (color_from_dict_quiet v fb Hk Hfb) as [c ->]. reflexivity.
Qed.

Lemma overflow_free_fields `{PyRuntime} data :
  overflow_free data = true -> Forall (fun f => field_ok data f = true) config_fields.
Proof.
  unfold overflow_free. intros Hq. apply Forall_forall. intros f Hf.
  rewrite forallb_forall in Hq. apply Hq. apply list_elem_of_In. exact Hf.
Qed.

(** On data free of overflow [from_dict] returns, and what it returns
    holds, field by field, what [field_from] reads from the field's
    own key. *)
Lemma from_dict_quiet `{PyRuntime} (data : gmap string pyval) :
  overflow_free data = true ->
  exists config,
    from_dict (PDict data) = Ok config
    /\ asset_directory config = STORAGE_ASSETS_DIR
    /\ Forall (fun f => field_view f config = field_from f data AppConfig_default) config_fields.
Proof.
  intros Hq. apply overflow_free_fields in Hq. unfold config_fields in Hq.
  repeat match type of Hq with
         | Forall _ (_ :: _) => apply Forall_cons in Hq; destruct Hq as [? Hq]
         end.
  clear Hq. unfold from_dict. cbv zeta.
  repeat (first
    [ erewrite get_int_quiet by eassumption
    | erewrite get_float_quiet by eassumption
    | erewrite color_quiet by (first [eassumption | reflexivity]) ];
    cbn [mbind result_bind]).
  eexists. split; [reflexivity |]. split; [reflexivity |].
  unfold config_fields. repeat constructor.
  all: cbn [field_view field_from show_preview_on_launch position title_text
              message_template countdown_enabled countdown_template animation_enabled
              entry_animation monitor_id autostart_enabled]; unfold Py.get;
    match goal with |- context [?d !! ?k] => destruct (d !! k) end; reflexivity.
Qed.

Lemma field_from_own_key `{PyRuntime} f data data' base :
  data' !! field_key f = data !! field_key f ->
  field_from f data' base = field_from f data base.
Proof. destruct f; cbn [field_from field_key]; intros ->; reflexivity. Qed.

(** What [int_from] does with each kind of supplied value: a missing or
    unconvertible value gives the default, a number is kept whatever
    its size or sign. *)
Lemma int_from_cases `{PyRuntime} (dflt : Z) :
  int_from None dflt = dflt
  /\ (forall n, int_from (Some (PInt n)) dflt = n)
  /\ (forall b, int_from (Some (PBool b)) dflt = if b then 1 else 0)
  /\ int_from (Some PNone) dflt = dflt
  /\ (forall l, int_from (Some (PList l)) dflt = dflt)
  /\ (forall d, int_from (Some (PDict d)) dflt = dflt)
  /\ (forall s, int_of_str s = None -> int_from (Some (PStr s)) dflt = dflt)
  /\ int_from (Some (PFloat S754_nan)) dflt = dflt.
Proof.
  repeat split; try reflexivity.
  intros s Hs. cbn. rewrite Hs. reflexivity.
Qed.

(** What [color_from_dict] returns is the fallback or a valid colour
    made of the supplied components. *)
Lemma color_from_dict_cases `{PyRuntime} v fb c :
  color_from_dict v fb = Ok c ->
  c = fb \/ (isValid c = true /\ exists d, v = PDict d
             /\ 0 <= red c <= 255 /\ 0 <= green c <= 255
             /\ 0 <= blue c <= 255 /\ 0 <= alpha c <= 255).
Proof.
  destruct v; cbn; try (intros [= <-]; left; reflexivity).
  destruct (Py.int (Py.get d "r" _)) as [r|[]]; cbn; try (intros [= <-]; left; reflexivity);
    try discriminate.
  destruct (Py.int (Py.get d "g" _)) as [g|[]]; cbn; try (intros [= <-]; left; reflexivity);
    try discriminate.
  destruct (Py.int (Py.get d "b" _)) as [b|[]]; cbn; try (intros [= <-]; left; reflexivity);
    try discriminate.
  destruct (Py.int (Py.get d "a" _)) as [a|[]]; cbn; try (intros [= <-]; left; reflexivity);
    try discriminate.
  unfold QColor_rgba.
  destruct (c_int r && c_int g && c_int b && c_int a); cbn; [| discriminate].
  destruct (_ && _) eqn:Hrange; cbn; intros [= <-]; [right | left; reflexivity].
  split; [reflexivity |]. exists d. split; [reflexivity |]. cbn. lia.
Qed.




(** A conversion that overflows is not caught: [float] of an [int]
    beyond the doubles, and [int] of an infinite float. *)
Example from_dict_overflow :
  @from_dict sample_runtime (PDict {["overlay_opacity" := PInt (10 ^ 400)]})
  = Raise OverflowError
  /\ @from_dict sample_runtime (PDict {["margin_x" := PFloat (S754_infinity false)]})
     = Raise OverflowError.
Proof. split; vm_compute; reflexivity. Qed.

(** ** Configuration: saving and loading *)

Lemma to_dict_fields (c : AppConfig) :
  Forall (fun f => to_dict c !! field_key f = Some (field_view f c)) config_fields.
Proof. unfold config_fields. repeat constructor. Qed.

Lemma color_to_dict_components (c : QColor) :
  color_to_dict c !! "r" = Some (PInt (red c))
  /\ color_to_dict c !! "g" = Some (PInt (green c))
  /\ color_to_dict c !! "b" = Some (PInt (blue c))
  /\ color_to_dict c !! "a" = Some (PInt (alpha c)).
Proof. repeat split. Qed.

Lemma c_int_of_byte (n : Z) : 0 <= n <= 255 -> c_int n = true.
Proof.
  intros Hn. unfold c_int. apply andb_true_intro. split.
  - apply Z.leb_le. lia.
  - apply Z.ltb_lt. lia.
Qed.

Lemma in_range_of_byte (n : Z) : 0 <= n <= 255 -> (0 <=? n) && (n <=? 255) = true.
Proof.
  intros Hn. apply andb_true_intro. split; apply Z.leb_le; lia.
Qed.

Lemma color_read_back `{PyRuntime} (c fallback : QColor) :
  color_valid c ->
  color_from_dict (PDict (color_to_dict c)) fallback = Ok c.
Proof.
  intros (Hv & Hr & Hg & Hb & Ha).
  destruct (color_to_dict_components c) as (Lr & Lg & Lb & La).
  unfold color_from_dict, Py.get. rewrite Lr, Lg, Lb, La.
  cbn [default from_option Py.int mbind result_bind id].
  unfold QColor_rgba.
  rewrite !c_int_of_byte, !in_range_of_byte by assumption.
  cbn [andb negb isValid try_except_TypeError_ValueError mbind result_bind].
  destruct c as [r g b a v]. cbn in Hv. subst v. reflexivity.
Qed.

(** X2. A valid colour written by [color_to_dict] is read back by
    [color_from_dict] as it was, whatever the fallback. *)
Theorem color_from_dict_to_dict `{PyRuntime} (c fallback : QColor) :
  color_valid c ->
  color_from_dict (PDict (color_to_dict c)) fallback = Ok c.
Proof. apply color_read_back. Qed.

Lemma color_from_dict_to_dict_witness :
  @color_from_dict sample_runtime (PDict (color_to_dict (rgba 28 116 235 235))) (rgba 0 0 0 90)
  = Ok (rgba 28 116 235 235).
Proof.
  apply (@color_from_dict_to_dict sample_runtime).
  unfold color_valid. cbn. lia.
Defined.

(** X3. Whatever the data, [color_from_dict] does not hand out an invalid
    colour when its fallback is valid: what it returns is the fallback
    or a colour with every component within 0..255. *)
Theorem color_from_dict_valid `{PyRuntime} (data : pyval) (fallback c : QColor) :
  color_valid fallback ->
  color_from_dict data fallback = Ok c ->
  color_valid c.
Proof.
  intros Hfb Hc.
  destruct (color_from_dict_cases data fallback c Hc) as [-> | (Hv & d & _ & Hrange)].
  - exact Hfb.
  - split; [exact Hv | exact Hrange].
Qed.

Lemma color_from_dict_valid_witness :
  exists c,
    @color_from_dict sample_runtime (PDict (list_to_map [("r", PInt 300)])) (rgba 0 0 0 90)
    = Ok c
    /\ color_valid c.
Proof.
  eexists. split; [vm_compute; reflexivity |].
  apply (@color_from_dict_valid sample_runtime
           (PDict (list_to_map [("r", PInt 300)])) (rgba 0 0 0 90)).
  - unfold color_valid. cbn. lia.
  - vm_compute. reflexivity.
Defined.

Lemma get_int_lookup `{PyRuntime} data key dflt n :
  data !! key = Some (PInt n) -> get_int data key dflt = Ok n.
Proof. intros Hk. unfold get_int, Py.get. rewrite Hk. reflexivity. Qed.

Lemma get_float_lookup `{PyRuntime} data key dflt f :
  data !! key = Some (PFloat f) -> get_float data key dflt = Ok f.
Proof. intros Hk. unfold get_float, Py.get. rewrite Hk. reflexivity. Qed.

Lemma color_lookup `{PyRuntime} data key fb c :
  data !! key = Some (PDict (color_to_dict c)) -> color_valid c ->
  color_from_dict (Py.get data key PNone) fb = Ok c.
Proof.
  intros Hk Hc. unfold Py.get. rewrite Hk. cbn [default from_option id].
  apply color_read_back, Hc.
Qed.

Lemma bool_lookup data key dflt b :
  data !! key = Some (PBool b) -> Py.bool (Py.get data key dflt) = b.
Proof. intros Hk. unfold Py.get. rewrite Hk. reflexivity. Qed.

Lemma str_lookup `{PyRuntime} data key dflt s :
  data !! key = Some (PStr s) -> Py.str (Py.get data key dflt) = s.
Proof. intros Hk. unfold Py.get. rewrite Hk. reflexivity. Qed.

(** X1. A configuration written by [to_dict] is read back by [from_dict]
    as it was, provided its colours are valid and its asset directory
    is the storage directory (which [from_dict] always sets). *)
Theorem from_dict_to_dict `{PyRuntime} (c : AppConfig) :
  asset_directory c = STORAGE_ASSETS_DIR ->
  Forall color_valid (config_colors c) ->
  from_dict (PDict (to_dict c)) = Ok c.
Proof.
  intros Hdir Hcolors.
  unfold config_colors in Hcolors.
  repeat match type of Hcolors with
         | Forall _ (_ :: _) => apply Forall_cons in Hcolors; destruct Hcolors as [? Hcolors]
         end.
  clear Hcolors.
  pose proof (to_dict_fields c) as Hf. unfold config_fields in Hf.
  repeat match type of Hf with
         | Forall _ (_ :: _) => apply Forall_cons in Hf; destruct Hf as [? Hf]
         end.
  clear Hf. cbn [field_key field_view] in *.
  unfold from_dict. cbv zeta.
  repeat (first
    [ erewrite get_int_lookup by eassumption
    | erewrite get_float_lookup by eassumption
    | erewrite color_lookup by eassumption ];
    cbn [mbind result_bind]).
  repeat (erewrite bool_lookup by eassumption).
  repeat (erewrite str_lookup by eassumption).
  rewrite <- Hdir. destruct c. reflexivity.
Qed.

Lemma from_dict_to_dict_witness :
  @from_dict sample_runtime (PDict (to_dict (with_margins 40 8 default_config)))
  = Ok (with_margins 40 8 default_config).
Proof.
  apply (@from_dict_to_dict sample_runtime).
  - reflexivity.
  - unfold config_colors, color_valid. repeat constructor; cbn; lia.
Defined.

(** ** Asset loading *)

Lemma load_frames_sublist (fs : AssetFiles) (indices : list nat) (frames : list QPixmap) :
  exists found,
    load_frames fs indices frames = frames ++ (frame_png <$> found)
    /\ found `sublist_of` indices
    /\ Forall (fun i => frame_exists fs i = true /\ frame_loads fs i = true) found.
Proof.
  revert frames. induction indices as [|index rest IH]; intros frames.
  - exists []. cbn. rewrite app_nil_r. repeat split; constructor.
  - cbn [load_frames]. destruct (frame_exists fs index) eqn:He; cbn [negb].
    + destruct (frame_loads fs index) eqn:Hl.
      * destruct (IH (frames ++ [frame_png index])) as (found & -> & Hsub & Hall).
        exists (index :: found). rewrite <- app_assoc. cbn.
        split; [reflexivity |]. split; [apply sublist_skip, Hsub |].
        constructor; [split; assumption | exact Hall].
      * destruct (IH frames) as (found & -> & Hsub & Hall).
        exists found. split; [reflexivity |]. split; [apply sublist_cons, Hsub | exact Hall].
    + destruct (Nat.eqb index 1).
      * destruct (IH frames) as (found & -> & Hsub & Hall).
        exists found. split; [reflexivity |]. split; [apply sublist_cons, Hsub | exact Hall].
      * exists []. cbn. rewrite app_nil_r.
        split; [reflexivity |]. split; [apply sublist_nil_l | constructor].
Qed.

Lemma load_frames_cons (fs : AssetFiles) (index : nat) (rest : list nat)
    (frames : list QPixmap) :
  load_frames fs (index :: rest) frames
  = if negb (frame_exists fs index)
    then if Nat.eqb index 1 then load_frames fs rest frames else frames
    else load_frames fs rest
           (if frame_loads fs index then frames ++ [frame_png index] else frames).
Proof. reflexivity. Qed.

Lemma load_frames_break (fs : AssetFiles) (before after : list nat) (k : nat)
    (frames : list QPixmap) :
  frame_exists fs k = false -> k <> 1%nat ->
  exists found,
    load_frames fs (before ++ k :: after) frames = frames ++ (frame_png <$> found)
    /\ found `sublist_of` before.
Proof.
  intros Hk Hk1. revert frames. induction before as [|index rest IH]; intros frames.
  - exists []. cbn. rewrite Hk. cbn. rewrite (proj2 (Nat.eqb_neq k 1) Hk1), app_nil_r.
    split; [reflexivity | constructor].
  - cbn [app load_frames]. destruct (frame_exists fs index) eqn:He; cbn [negb].
    + destruct (frame_loads fs index) eqn:Hl.
      * destruct (IH (frames ++ [frame_png index])) as (found & -> & Hsub).
        exists (index :: found). rewrite <- app_assoc. cbn.
        split; [reflexivity | apply sublist_skip, Hsub].
      * destruct (IH frames) as (found & -> & Hsub).
        exists found. split; [reflexivity | apply sublist_cons, Hsub].
    + destruct (Nat.eqb index 1).
      * destruct (IH frames) as (found & -> & Hsub).
        exists found. split; [reflexivity | apply sublist_cons, Hsub].
      * exists []. cbn. rewrite app_nil_r. split; [reflexivity | apply sublist_nil_l].
Qed.

Lemma load_frames_run (fs : AssetFiles) (n a : nat) (after : list nat)
    (frames : list QPixmap) :
  (forall i, (a <= i < a + n)%nat -> frame_exists fs i = true /\ frame_loads fs i = true) ->
  load_frames fs (seq a n ++ after) frames
  = load_frames fs after (frames ++ (frame_png <$> seq a n)).
Proof.
  revert a frames. induction n as [|n IH]; intros a frames Hall.
  - cbn. rewrite app_nil_r. reflexivity.
  - cbn [seq app load_frames].
    destruct (Hall a) as (-> & ->); [lia |]. cbn [negb].
    rewrite IH by (intros i Hi; apply Hall; lia).
    rewrite <- app_assoc. reflexivity.
Qed.

Lemma frame_png_inj_list (l1 l2 : list nat) :
  frame_png <$> l1 = frame_png <$> l2 -> l1 = l2.
Proof.
  revert l2. induction l1 as [|x l1 IH]; intros [|y l2]; cbn; try discriminate; [done |].
  intros [= -> Hrest]. f_equal. apply IH, Hrest.
Qed.

Lemma first_movie_found (fs : AssetFiles) (candidates : list string) (m : string) :
  first_movie fs candidates = Some m ->
  m ∈ candidates /\ movie_exists fs m = true /\ movie_valid fs m = true.
Proof.
  induction candidates as [|c rest IH]; cbn; [discriminate |].
  destruct (movie_exists fs c) eqn:He; [destruct (movie_valid fs c) eqn:Hv |].
  - intros [= <-]. split; [left | split; assumption].
  - intros Hm. destruct (IH Hm) as (Hin & Hrest). split; [right; exact Hin | exact Hrest].
  - intros Hm. destruct (IH Hm) as (Hin & Hrest). split; [right; exact Hin | exact Hrest].
Qed.

Lemma first_movie_none (fs : AssetFiles) (candidates : list string) :
  first_movie fs candidates = None ->
  forall c, c ∈ candidates -> movie_exists fs c && movie_valid fs c = false.
Proof.
  induction candidates as [|c rest IH]; cbn; intros Hn c' Hc'.
  - apply elem_of_nil in Hc'. done.
  - destruct (movie_exists fs c) eqn:He; [destruct (movie_valid fs c) eqn:Hv |];
      try discriminate;
      apply elem_of_cons in Hc' as [-> | Hc']; try (apply IH; assumption);
      rewrite He, ?Hv; reflexivity.
Qed.

(** X4. The fallback chain of [load_animation_assets]: a movie is
    returned only when no frame was loaded; a returned movie is a file
    that exists and is valid, a candidate of the asset directory or,
    only when no candidate there is usable, the bundled bottle; and
    nothing is returned only when nothing usable exists. *)
Theorem load_animation_assets_fallback_chain (fs : AssetFiles) :
  let frames := fst (load_animation_assets fs) in
  let movie := snd (load_animation_assets fs) in
  (frames <> [] -> movie = None)
  /\ (forall m, movie = Some m ->
        (asset_dir_exists fs = true /\ m ∈ movie_candidates
         /\ movie_exists fs m = true /\ movie_valid fs m = true)
        \/ (m = "bottle.gif" /\ bottle_exists fs = true /\ bottle_valid fs = true
            /\ (asset_dir_exists fs = true ->
                forall c, c ∈ movie_candidates ->
                          movie_exists fs c && movie_valid fs c = false)))
  /\ (frames = [] -> movie = None ->
      bottle_exists fs && bottle_valid fs = false
      /\ (asset_dir_exists fs = true ->
          forall c, c ∈ movie_candidates -> movie_exists fs c && movie_valid fs c = false))
  /\ (asset_dir_exists fs = false -> frames = []).
Proof.
  intros frames movie. unfold frames, movie, load_animation_assets. cbv zeta.
  destruct (asset_dir_exists fs) eqn:Hdir.
  - destruct (load_frames fs (seq 1 24) []) as [|p ps] eqn:Hframes; cbn [fst snd].
    + destruct (first_movie fs movie_candidates) as [m|] eqn:Hm; cbn [fst snd].
      * split; [done |]. split; [| split; [discriminate | discriminate]].
        intros m' [= <-]. left. split; [reflexivity |]. apply first_movie_found, Hm.
      * pose proof (first_movie_none fs _ Hm) as Hnone.
        destruct (bottle_exists fs) eqn:Hbe; [destruct (bottle_valid fs) eqn:Hbv |];
          cbn [fst snd]; (split; [done |]); (split; [| split; [| discriminate]]);
          try (intros m' Hm'; discriminate Hm');
          try (intros _ Hb; discriminate Hb);
          try (intros _ _; split; [reflexivity | intros _; exact Hnone]).
        intros m' [= <-]. right. repeat split. intros _. exact Hnone.
    + split; [reflexivity |]. split; [discriminate |]. split; discriminate.
  - cbn [fst snd].
    destruct (bottle_exists fs) eqn:Hbe; [destruct (bottle_valid fs) eqn:Hbv |];
      cbn [fst snd]; (split; [done |]); (split; [| split; [| reflexivity]]);
      try (intros m' Hm'; discriminate Hm');
      try (intros _ Hb; discriminate Hb);
      try (intros _ _; split; [reflexivity | discriminate]).
    intros m' [= <-]. right. repeat split. discriminate.
Qed.

Lemma sublist_seq_bounds (found : list nat) (a n : nat) :
  found `sublist_of` seq a n -> Forall (fun i => (a <= i < a + n)%nat) found.
Proof.
  intros Hsub. apply Forall_forall. intros i Hi.
  apply elem_of_seq. exact (elem_of_sublist _ _ _ Hi Hsub).
Qed.

(** X5. The frames [load_animation_assets] returns are frames
    [frame<i>.png] that exist and load, in increasing order of [i]
    without repetition, with [1 <= i <= 24]; there are at most 24; and a
    missing frame from the second on ends the sequence: no frame beyond
    it is returned. *)
Theorem load_animation_assets_frames (fs : AssetFiles) :
  exists found,
    fst (load_animation_assets fs) = frame_png <$> found
    /\ found `sublist_of` seq 1 24
    /\ Forall (fun i => (1 <= i <= 24)%nat
                        /\ frame_exists fs i = true /\ frame_loads fs i = true) found
    /\ (length (fst (load_animation_assets fs)) <= 24)%nat
    /\ (forall k, (2 <= k <= 24)%nat -> frame_exists fs k = false ->
                  Forall (fun i => (i < k)%nat) found).
Proof.
  assert (Hfst : fst (load_animation_assets fs)
                 = if asset_dir_exists fs then load_frames fs (seq 1 24) [] else []).
  { unfold load_animation_assets. cbv zeta.
    destruct (asset_dir_exists fs); [destruct (load_frames fs (seq 1 24) []) |];
      reflexivity. }
  rewrite Hfst. destruct (asset_dir_exists fs).
  - destruct (load_frames_sublist fs (seq 1 24) []) as (found & Hfound & Hsub & Hall).
    rewrite app_nil_l in Hfound.
    exists found. split; [exact Hfound |]. split; [exact Hsub |].
    pose proof (sublist_seq_bounds found 1 24 Hsub) as Hbounds.
    split; [| split].
    + rewrite Forall_forall in *. intros i Hi.
      specialize (Hbounds i Hi). specialize (Hall i Hi). split; [lia | exact Hall].
    + rewrite Hfound, length_fmap.
      apply sublist_length in Hsub. rewrite length_seq in Hsub. exact Hsub.
    + intros k Hk Hmissing.
      assert (Hsplit : seq 1 24 = seq 1 (k - 1) ++ k :: seq (S k) (24 - k)).
      { replace 24%nat with ((k - 1) + S (24 - k))%nat at 1 by lia.
        rewrite seq_app. cbn [seq]. f_equal. f_equal; [lia | f_equal; lia]. }
      destruct (load_frames_break fs (seq 1 (k - 1)) (seq (S k) (24 - k)) k []
                  Hmissing ltac:(lia)) as (found' & Hfound' & Hsub').
      rewrite <- Hsplit, Hfound in Hfound'. rewrite app_nil_l in Hfound'.
      apply frame_png_inj_list in Hfound'. subst found'.
      pose proof (sublist_seq_bounds found 1 (k - 1) Hsub') as Hb.
      rewrite Forall_forall in *. intros i Hi. specialize (Hb i Hi). lia.
  - exists []. split; [reflexivity |]. split; [apply sublist_nil_l |].
    split; [constructor |]. split; [cbn; lia |]. intros; constructor.
Qed.

(** X6. A run of frames is loaded whole: when the asset directory
    exists and the frames [first .. last] all exist and load, where
    [first] is 1, or 2 with frame 1 missing, and the run ends at 24 or
    at a missing frame, the frames returned are exactly those, in
    order, and no movie is returned. *)
Theorem load_animation_assets_run (fs : AssetFiles) (first last : nat) :
  asset_dir_exists fs = true ->
  (first = 1%nat \/ (first = 2%nat /\ frame_exists fs 1 = false)) ->
  (first <= last <= 24)%nat ->
  (forall i, (first <= i <= last)%nat ->
             frame_exists fs i = true /\ frame_loads fs i = true) ->
  (last = 24%nat \/ frame_exists fs (S last) = false) ->
  load_animation_assets fs = (frame_png <$> seq first (S last - first), None).
Proof.
  intros Hdir Hfirst Hrange Hall Hend.
  assert (Hframes : load_frames fs (seq 1 24) [] = frame_png <$> seq first (S last - first)).
  { assert (Hfrom : load_frames fs (seq 1 24) []
                    = load_frames fs (seq first (25 - first)) []).
    { destruct Hfirst as [-> | (-> & Hone)].
      - change (25 - 1)%nat with 24%nat. reflexivity.
      - change (seq 1 24) with (1%nat :: seq 2 23).
        change (25 - 2)%nat with 23%nat.
        rewrite load_frames_cons, Hone. reflexivity. }
    rewrite Hfrom.
    replace (25 - first)%nat with ((S last - first) + (24 - last))%nat by lia.
    rewrite seq_app, load_frames_run by (intros i Hi; apply Hall; lia).
    rewrite app_nil_l.
    replace (first + (S last - first))%nat with (S last) by lia.
    destruct Hend as [-> | Hmissing]; [reflexivity |].
    destruct (24 - last)%nat as [|n]; [reflexivity |].
    cbn [seq]. rewrite load_frames_cons, Hmissing. cbn [negb].
    destruct last; [lia | reflexivity]. }
  unfold load_animation_assets. cbv zeta. rewrite Hdir, Hframes.
  destruct (S last - first)%nat as [|n] eqn:Hn; [lia |]. reflexivity.
Qed.

Lemma load_animation_assets_run_witness :
  load_animation_assets sample_files = ([frame_png 2; frame_png 3; frame_png 4], None).
Proof.
  apply (load_animation_assets_run sample_files 2 4).
  - reflexivity.
  - right. split; reflexivity.
  - lia.
  - intros i Hi.
    assert (Hi' : i = 2%nat \/ i = 3%nat \/ i = 4%nat) by lia.
    destruct Hi' as [-> | [-> | ->]]; split; reflexivity.
  - right. reflexivity.
Defined.

(** ** Placement: the screen and the repeated call *)

Lemma _target_screen_moved (w : World) (self : ReminderOverlay) (f : Window -> Window) :
  _target_screen w (with_window f self) = _target_screen w self.
Proof. reflexivity. Qed.

(** X7. Where [position_overlay] puts the overlay does not depend on
    where the overlay is: a second call changes nothing (as in
    [show_overlay], which places the overlay twice). *)
Theorem position_overlay_idempotent (w : World) (self : ReminderOverlay) :
  position_overlay w (position_overlay w self) = position_overlay w self.
Proof.
  unfold position_overlay.
  destruct (preview self) eqn:Hp; [rewrite Hp; reflexivity |].
  destruct (overlay_position (config self) (availableGeometry (_target_screen w self))
              (QRect.width (geometry (window self)))
              (QRect.height (geometry (window self)))) as [x y] eqn:Hpos.
  cbn [preview with_window]. rewrite Hp.
  rewrite _target_screen_moved.
  cbn [config window with_window move setGeometry geometry QRect.width QRect.height].
  rewrite Hpos. reflexivity.
Qed.

(** X8. The screen the overlay is placed on, outside preview mode: a
    screen named by [monitor_id] when there is one (the first of that
    name); otherwise, and for "auto", the screen under the pointer, and
    the primary screen when the pointer is on none. *)
Theorem target_screen_selection (w : World) (self : ReminderOverlay) :
  preview self = false ->
  let id := monitor_id (config self) in
  let chosen := _target_screen w self in
  let named := List.find (fun screen => String.eqb (name screen) id) (screens w) in
  (id <> "auto" -> forall screen, named = Some screen ->
     chosen = screen /\ name chosen = id /\ In chosen (screens w))
  /\ (id = "auto" \/ (forall screen, In screen (screens w) -> name screen <> id) ->
      chosen = match screenAt_cursor w with
               | Some screen => screen
               | None => primaryScreen w
               end).
Proof.
  intros Hp id chosen named. unfold chosen, _target_screen. rewrite Hp. fold id. split.
  - intros Hid screen Hnamed.
    rewrite (proj2 (String.eqb_neq id "auto") Hid). cbn [negb].
    fold named. rewrite Hnamed.
    apply find_some in Hnamed as (Hin & Hname).
    apply String.eqb_eq in Hname. repeat split; assumption.
  - intros [Hauto | Hnone].
    + rewrite Hauto. reflexivity.
    + destruct (negb (String.eqb id "auto")); [| reflexivity].
      destruct (List.find _ (screens w)) as [screen|] eqn:Hfind; [| reflexivity].
      apply find_some in Hfind as (Hin & Hname).
      apply String.eqb_eq in Hname. exfalso. exact (Hnone screen Hin Hname).
Qed.

Lemma target_screen_selection_witness :
  name (_target_screen two_screens
          (ReminderApplication_init two_screens (on_monitor "DISPLAY2" default_config)))
  = "DISPLAY2".
Proof.
  pose proof (target_screen_selection two_screens
                (ReminderApplication_init two_screens (on_monitor "DISPLAY2" default_config))
                eq_refl) as H.
  cbv zeta in H. destruct H as (Hnamed & _).
  refine (proj1 (proj2 (Hnamed _ _ _))).
  - vm_compute. discriminate.
  - vm_compute. reflexivity.
Defined.

(** ** Applying a configuration *)

Lemma load_assets_frame w s :
  preview (load_assets w s) = preview s
  /\ config (load_assets w s) = config s
  /\ window (load_assets w s) = window s
  /\ timers (load_assets w s) = timers s
  /\ next_reminder (load_assets w s) = next_reminder s.
Proof. unfold load_assets, set_movie, set_static_pixmap. case_conditions; repeat split. Qed.

Lemma position_overlay_frame w s :
  preview (position_overlay w s) = preview s
  /\ config (position_overlay w s) = config s
  /\ content (position_overlay w s) = content s
  /\ assets (position_overlay w s) = assets s
  /\ timers (position_overlay w s) = timers s
  /\ next_reminder (position_overlay w s) = next_reminder s.
Proof.
  unfold position_overlay. destruct (preview s) eqn:Hp; [repeat split; exact Hp |].
  destruct (overlay_position _ _ _ _); repeat split; exact Hp.
Qed.

Lemma position_overlay_window w s :
  isVisible (window (position_overlay w s)) = isVisible (window s)
  /\ windowOpacity (window (position_overlay w s)) = windowOpacity (window s)
  /\ QRect.width (geometry (window (position_overlay w s))) = QRect.width (geometry (window s))
  /\ QRect.height (geometry (window (position_overlay w s))) = QRect.height (geometry (window s)).
Proof.
  unfold position_overlay. destruct (preview s); [repeat split |].
  destruct (overlay_position _ _ _ _); repeat split.
Qed.

Lemma load_assets_cong w s s' :
  config s = config s' -> assets s = assets s' ->
  assets (load_assets w s) = assets (load_assets w s')
  /\ animation_label (content (load_assets w s)) = animation_label (content (load_assets w s'))
  /\ current_movie (content (load_assets w s)) = current_movie (content (load_assets w s')).
Proof.
  intros Hc Ha. unfold load_assets.
  destruct (animation_assets w) as [frames movie].
  cbn [config assets with_assets]. rewrite Hc, Ha.
  destruct frames, movie; cbn; repeat split; unfold frame_at; cbn; rewrite ?Ha; reflexivity.
Qed.

Lemma _target_screen_cong w s s' :
  preview s = preview s' -> config s = config s' -> _target_screen w s = _target_screen w s'.
Proof. intros Hp Hc. unfold _target_screen. rewrite Hp, Hc. reflexivity. Qed.

(** The overlay [apply_config] hands to its last step, the sprite timer. *)
Lemma apply_config_timer w c s :
  exists s1,
    apply_config w c s
    = (if animation_enabled c && has_sprites s1
       then if negb (isActive (animation_timer (timers s1)))
            then with_timers (on_animation_timer QTimer_.start) s1 else s1
       else with_timers (on_animation_timer QTimer_.stop) s1)
    /\ preview s1 = preview s
    /\ config s1 = c
    /\ timers s1
       = on_animation_timer (QTimer_.setInterval (Z.max 10 (animation_interval_ms c))) (timers s)
    /\ assets s1
       = (if bool_decide (loaded_asset_dir (assets s) = Some (asset_directory c))
          then assets s else assets (load_assets w (with_config c s)))
    /\ animation_label (content s1)
       = (if bool_decide (loaded_asset_dir (assets s) = Some (asset_directory c))
          then animation_label (content s)
          else animation_label (content (load_assets w (with_config c s))))
    /\ current_movie (content s1)
       = (if bool_decide (loaded_asset_dir (assets s) = Some (asset_directory c))
          then current_movie (content s)
          else current_movie (content (load_assets w (with_config c s))))
    /\ isVisible (window s1) = isVisible (window s)
    /\ windowOpacity (window s1) = overlay_opacity c
    /\ (QRect.width (geometry (window s1)), QRect.height (geometry (window s1)))
       = content_size (content_apply_config w c (content s))
    /\ next_reminder s1 = next_reminder s
    /\ animator s1 = animator s
    /\ (preview s = false -> geometry (window s1) = shown_geometry w (with_config c s)).
Proof.
  unfold apply_config. cbv zeta.
  match goal with
  | |- context [with_timers (on_animation_timer QTimer_.stop) ?s1] => exists s1
  end.
  split; [reflexivity |].
  cbn [preview config timers assets content window with_timers with_content with_window with_config
       update_countdown next_reminder animator].
  set (s0 := with_window (resize _) _).
  destruct (load_assets_frame w s0) as (L1 & L2 & L3 & L4 & L5).
  destruct (load_assets_cong w s0 (with_config c s) eq_refl eq_refl) as (L6 & L7 & L8).
  pose proof (animator_load_assets w s0) as L9.
  set (s2 := if negb (bool_decide _) then load_assets w s0 else s0).
  assert (H2 : preview s2 = preview s /\ config s2 = c /\ window s2 = window s0
               /\ timers s2 = timers s /\ next_reminder s2 = next_reminder s
               /\ animator s2 = animator s
               /\ assets s2
                  = (if bool_decide (loaded_asset_dir (assets s) = Some (asset_directory c))
                     then assets s else assets (load_assets w (with_config c s)))
               /\ animation_label (content s2)
                  = (if bool_decide (loaded_asset_dir (assets s) = Some (asset_directory c))
                     then animation_label (content s)
                     else animation_label (content (load_assets w (with_config c s))))
               /\ current_movie (content s2)
                  = (if bool_decide (loaded_asset_dir (assets s) = Some (asset_directory c))
                     then current_movie (content s)
                     else current_movie (content (load_assets w (with_config c s))))).
  { unfold s2. cbn [assets config s0 with_window with_content with_config].
    destruct (bool_decide _); cbn [negb].
    - repeat split.
    - rewrite L1, L2, L3, L4, L5, L6, L7, L8, L9. repeat split. }
  clearbody s2. destruct H2 as (P1 & P2 & P3 & P4 & P5 & P6 & P7 & P8 & P9).
  destruct (position_overlay_frame w s2) as (Q1 & Q2 & Q3 & Q4 & Q5 & Q6).
  destruct (position_overlay_window w s2) as (W1 & W2 & W3 & W4).
  pose proof (animator_position_overlay w s2) as Q7.
  destruct (negb (preview s2)) eqn:Hp2.
  2: { apply negb_false_iff in Hp2.
       unfold set_countdown_text; cbn [animation_label current_movie].
       rewrite ?P1, ?P2, ?P3, ?P4, ?P5, ?P6, ?P7, ?P8, ?P9. repeat split.
       intros Hp. congruence. }
  apply negb_true_iff in Hp2.
  - unfold set_countdown_text; cbn [animation_label current_movie].
    rewrite ?Q1, ?Q2, ?Q3, ?Q4, ?Q5, ?Q6, ?Q7, ?W1, ?W2, ?W3, ?W4.
    rewrite ?P1, ?P2, ?P3, ?P4, ?P5, ?P6, ?P7, ?P8, ?P9.
    repeat split.
    intros _. rewrite (position_overlay_geometry w s2 Hp2). cbv zeta.
    unfold shown_geometry, target_geometry.
    rewrite (_target_screen_cong w s2 (with_config c s)) by (cbn; congruence).
    rewrite P2, P3. reflexivity.
Qed.

Lemma apply_config_parts w c s :
  let s' := apply_config w c s in
  (preview s' = preview s /\ config s' = c /\ next_reminder s' = next_reminder s
   /\ animator s' = animator s)
  /\ (assets s'
      = (if bool_decide (loaded_asset_dir (assets s) = Some (asset_directory c))
         then assets s else assets (load_assets w (with_config c s)))
      /\ animation_label (content s')
         = (if bool_decide (loaded_asset_dir (assets s) = Some (asset_directory c))
            then animation_label (content s)
            else animation_label (content (load_assets w (with_config c s))))
      /\ current_movie (content s')
         = (if bool_decide (loaded_asset_dir (assets s) = Some (asset_directory c))
            then current_movie (content s)
            else current_movie (content (load_assets w (with_config c s)))))
  /\ (auto_hide_timer (timers s') = auto_hide_timer (timers s)
      /\ reminder_timer (timers s') = reminder_timer (timers s)
      /\ countdown_timer (timers s') = countdown_timer (timers s))
  /\ (interval (animation_timer (timers s')) = Z.max 10 (animation_interval_ms c)
      /\ isActive (animation_timer (timers s')) = animation_enabled c && has_sprites s'
      /\ isSingleShot (animation_timer (timers s')) = isSingleShot (animation_timer (timers s)))
  /\ (isVisible (window s') = isVisible (window s)
      /\ windowOpacity (window s') = overlay_opacity c
      /\ (QRect.width (geometry (window s')), QRect.height (geometry (window s')))
         = content_size (content_apply_config w c (content s))).
Proof.
  destruct (apply_config_timer w c s)
    as (s1 & -> & P1 & P2 & P3 & P4 & P5 & P6 & P7 & P8 & P9 & P10 & P11 & _).
  cbv zeta.
  assert (Hs : forall f, has_sprites (with_timers f s1) = has_sprites s1) by reflexivity.
  destruct (animation_enabled c); cbn [andb].
  - destruct (has_sprites s1) eqn:Hsp.
    + destruct (isActive (animation_timer (timers s1))) eqn:Hact; cbn [negb].
      * rewrite Hsp, Hact, P1, P2, P3, P4, P5, P6, P7, P8, P9, P10, P11. repeat split.
      * rewrite Hs. cbn. rewrite P1, P2, P3, P4, P5, P6, P7, P8, P9, P10, P11.
        repeat split.
    + rewrite Hs. cbn. rewrite P1, P2, P3, P4, P5, P6, P7, P8, P9, P10, P11.
      repeat split.
  - cbn. rewrite P1, P2, P3, P4, P5, P6, P7, P8, P9, P10, P11. repeat split.
Qed.


Lemma apply_config_geometry w c s :
  preview s = false ->
  geometry (window (apply_config w c s)) = shown_geometry w (with_config c s).
Proof.
  intros Hp.
  destruct (apply_config_timer w c s) as (s1 & -> & P).
  do 11 destruct P as (_ & P). specialize (P Hp).
  case_conditions; exact P.
Qed.

Lemma content_apply_config_size w c cont :
  let size := content_size (content_apply_config w c cont) in
  let text := Z.max (title_advance w) (message_advance w) in
  snd size = overlay_height c
  /\ overlay_width c <= fst size
  /\ 308 <= fst size
  /\ text + 148 <= fst size
  /\ (text + 288 <= overlay_width c -> 448 <= overlay_width c -> fst size = overlay_width c).
Proof. unfold content_apply_config. cbn. repeat split; lia. Qed.



Lemma load_assets_result w s :
  let loaded := load_assets w s in
  let frames := fst (animation_assets w) in
  let movie := snd (animation_assets w) in
  frame_pixmaps (assets loaded) = frames
  /\ fallback_movie (assets loaded)
     = (if movie then Some {| running := bool_decide (frames = []) |} else None)
  /\ loaded_asset_dir (assets loaded) = Some (asset_directory (config s))
  /\ animation_index (assets loaded)
     = (if bool_decide (frames = []) then animation_index (assets s) else 0%nat)
  /\ animation_label (content loaded)
     = match frames with
       | first :: _ => label_pixmap first
       | [] => if movie then label_movie else label_pixmap fallback_pixmap
       end.
Proof.
  unfold load_assets. destruct (animation_assets w) as [frames movie].
  destruct frames, movie; cbn; repeat split.
Qed.


(** ** Showing the overlay *)

Lemma preview_with_window f s : preview (with_window f s) = preview s.
Proof. reflexivity. Qed.
Lemma preview_with_timers f s : preview (with_timers f s) = preview s.
Proof. reflexivity. Qed.
Lemma preview_with_content f s : preview (with_content f s) = preview s.
Proof. reflexivity. Qed.
Lemma preview_with_assets f s : preview (with_assets f s) = preview s.
Proof. reflexivity. Qed.
Lemma preview_with_animator f s : preview (with_animator f s) = preview s.
Proof. reflexivity. Qed.
Lemma preview_show s : preview (show s) = preview s.
Proof. reflexivity. Qed.
Lemma preview_hide s : preview (hide s) = preview s.
Proof. reflexivity. Qed.
Lemma preview_update_countdown w s : preview (update_countdown w s) = preview s.
Proof. reflexivity. Qed.

Create Rewrite HintDb mode.
#[local] Hint Rewrite preview_with_window preview_with_timers preview_with_content
  preview_with_assets preview_with_animator preview_show preview_hide
  preview_update_countdown : mode.

Lemma on_auto_hide_timer_id t : on_auto_hide_timer id t = t.
Proof. destruct t as [? [?|] ? ?]; reflexivity. Qed.

(** What [show_overlay] displays, by the sprites at hand. *)
Lemma show_overlay_shown w s :
  let applied := apply_config w (config s) s in
  exists s4,
    show_overlay w s = (if negb (preview s) then run_entry_animation s4 else s4)
    /\ (preview s4 = preview s /\ config s4 = config s
        /\ next_reminder s4 = next_reminder s /\ animator s4 = animator s)
    /\ (animation_timer (timers s4) = animation_timer (timers applied)
        /\ auto_hide_timer (timers s4)
           = (if preview s then auto_hide_timer (timers s)
              else QTimer_.start_msec (auto_hide_ms (config s)) <$> auto_hide_timer (timers s))
        /\ reminder_timer (timers s4) = reminder_timer (timers s)
        /\ countdown_timer (timers s4) = countdown_timer (timers s))
    /\ (isVisible (window s4) = true
        /\ windowOpacity (window s4) = overlay_opacity (config s)
        /\ (preview s = false -> geometry (window s4) = shown_geometry w s)
        /\ (preview s = true ->
            QRect.width (geometry (window s4)) = overlay_width (config s)
            /\ QRect.height (geometry (window s4)) = overlay_height (config s)))
    /\ (frame_pixmaps (assets s4) = frame_pixmaps (assets applied)
        /\ loaded_asset_dir (assets s4) = loaded_asset_dir (assets applied)
        /\ has_sprites s4 = has_sprites applied)
    /\ animation_label (content s4)
       = (if animation_enabled (config s)
          then match frame_pixmaps (assets applied), fallback_movie (assets applied) with
               | first :: _, _ => label_pixmap first
               | [], Some _ => label_movie
               | [], None => label_pixmap fallback_pixmap
               end
          else label_pixmap fallback_pixmap)
    /\ (animation_enabled (config s) = true -> frame_pixmaps (assets applied) <> [] ->
        animation_index (assets s4) = 0%nat).
Proof.
  intros applied. unfold show_overlay. cbv zeta. fold applied.
  destruct (apply_config_parts w (config s) s)
    as ((A1 & A2 & A3 & A4) & _ & (A5 & A6 & A7) & (A8 & A9 & A10) & (A11 & A12 & A13)).
  fold applied in A1, A2, A3, A4, A5, A6, A7, A8, A9, A10, A11, A12, A13.
  pose proof (apply_config_geometry w (config s) s) as A14. fold applied in A14.
  set (s2 := if negb (preview applied) then position_overlay w applied else applied).
  assert (H2 : (preview s2 = preview s /\ config s2 = config s
                /\ next_reminder s2 = next_reminder s /\ animator s2 = animator s)
               /\ timers s2 = timers applied
               /\ assets s2 = assets applied
               /\ (isVisible (window s2) = isVisible (window s)
                   /\ windowOpacity (window s2) = overlay_opacity (config s)
                   /\ (preview s = false -> geometry (window s2) = shown_geometry w s))).
  { unfold s2. rewrite A1.
    destruct (position_overlay_frame w applied) as (Q1 & Q2 & Q3 & Q4 & Q5 & Q6).
    destruct (position_overlay_window w applied) as (W1 & W2 & W3 & W4).
    pose proof (animator_position_overlay w applied) as Q7.
    destruct (preview s) eqn:Hp; cbn [negb].
    - repeat split; try assumption; try (intros Hf; discriminate Hf).
    - rewrite Q1, Q2, Q4, Q5, Q6, Q7, W1, W2. repeat split; try assumption.
      intros _. rewrite (position_overlay_geometry w applied) by congruence. cbv zeta.
      rewrite (A14 eq_refl), A2. unfold shown_geometry, target_geometry.
      rewrite (_target_screen_cong w applied s) by congruence.
      reflexivity. }
  clearbody s2.
  destruct H2 as ((B1 & B2 & B3 & B4) & B5 & B6 & (B7 & B8 & B9)).
  match goal with |- context [update_countdown w ?x] => set (s3 := x) end.
  assert (H3 : (preview s3 = preview s /\ config s3 = config s
                /\ next_reminder s3 = next_reminder s /\ animator s3 = animator s)
               /\ timers s3 = timers applied
               /\ window s3 = window s2
               /\ (frame_pixmaps (assets s3) = frame_pixmaps (assets applied)
                   /\ loaded_asset_dir (assets s3) = loaded_asset_dir (assets applied)
                   /\ has_sprites s3 = has_sprites applied)
               /\ animation_label (content s3)
                  = (if animation_enabled (config s)
                     then match frame_pixmaps (assets applied), fallback_movie (assets applied) with
                          | first :: _, _ => label_pixmap first
                          | [], Some _ => label_movie
                          | [], None => label_pixmap fallback_pixmap
                          end
                     else label_pixmap fallback_pixmap)
               /\ (animation_enabled (config s) = true -> frame_pixmaps (assets applied) <> [] ->
                   animation_index (assets s3) = 0%nat)).
  { unfold s3. cbn [timers set_static_pixmap with_content with_assets config].
    rewrite B2, B5, B6, A9. unfold has_sprites.
    destruct (animation_enabled (config s)) eqn:He; cbn [andb].
    - destruct (frame_pixmaps (assets applied)) as [|first rest] eqn:Hf.
      + rewrite (bool_decide_eq_true_2 ([] = [])) by reflexivity. cbn [negb orb].
        unfold set_movie. rewrite B6.
        destruct (fallback_movie (assets applied)) as [m|] eqn:Hm.
        * rewrite bool_decide_eq_true_2 by eauto.
          cbn. rewrite B1, B2, B3, B4, B5, B6, Hf. repeat split; try congruence.
        * rewrite bool_decide_eq_false_2 by (intros [? ?]; discriminate).
          cbn. rewrite B1, B2, B3, B4, B5, B6, Hf, Hm. repeat split; try congruence.
      + rewrite (bool_decide_eq_false_2 (first :: rest = [])) by discriminate.
        cbn [negb orb].
        cbn. unfold frame_at. cbn. rewrite B1, B2, B3, B4, B5, B6, Hf.
        cbn. repeat split; try congruence.
    - rewrite andb_false_r. cbn. rewrite B1, B2, B3, B4, B5, B6.
      repeat split; try congruence. }
  clearbody s3.
  destruct H3 as ((C1 & C2 & C3 & C4) & C5 & C6 & (C7 & C8 & C9) & C10 & C11).
  unfold has_sprites in C9. unfold has_sprites.
  change (preview (update_countdown w s3)) with (preview s3).
  change (config (update_countdown w s3)) with (config s3).
  change (timers (update_countdown w s3)) with (timers s3).
  rewrite C1, C2, C5, A5.
  destruct (preview s) eqn:Hp; cbn [negb andb].
  - repeat (progress cbn [negb andb preview show with_window with_timers with_content
                          update_countdown]
            || rewrite C1).
    eexists. split; [reflexivity |].
    cbn. rewrite ?C9. rewrite ?C1, ?C2, ?C3, ?C4, ?C5, ?C6, ?C7, ?C8, ?C10, ?A5, ?A6, ?A7, ?B8.
    repeat split; try assumption; try (intros Hf; discriminate Hf).
  - destruct (auto_hide_timer (timers s)) as [t|] eqn:Hah.
    + rewrite bool_decide_eq_true_2 by eauto.
      repeat (progress cbn [negb andb preview show with_window with_timers with_content
                            update_countdown]
              || rewrite C1).
      eexists. split; [reflexivity |].
      cbn. rewrite ?C9. rewrite ?C1, ?C2, ?C3, ?C4, ?C5, ?C6, ?C7, ?C8, ?C10, ?A5, ?A6, ?A7, ?B8.
      rewrite ?Hah.
      repeat split; try assumption; try (intros Hf; discriminate Hf);
        try (intros _; apply B9; reflexivity); try congruence.
    + rewrite bool_decide_eq_false_2 by (intros [? ?]; discriminate).
      repeat (progress cbn [negb andb preview show with_window with_timers with_content
                            update_countdown]
              || rewrite C1).
      eexists. split; [reflexivity |].
      cbn. rewrite ?C9. rewrite ?C1, ?C2, ?C3, ?C4, ?C5, ?C6, ?C7, ?C8, ?C10, ?A5, ?A6, ?A7, ?B8.
      rewrite ?Hah.
      repeat split; try assumption; try (intros Hf; discriminate Hf);
        try (intros _; apply B9; reflexivity); try congruence.
Qed.

(** ** A transition animation from start to end *)

Lemma animator_start_active animation finalize m :
  active_animation (animator_start animation finalize m) = Some (next_animation m)
  /\ animations (animator_start animation finalize m) !! next_animation m
     = Some (QAnimation.setState Running (QAnimation.connect_finished finalize animation))
  /\ next_animation (animator_start animation finalize m) = S (next_animation m)
  /\ finalize_calls (animator_start animation finalize m) = finalize_calls m.
Proof.
  unfold animator_start. cbv zeta.
  destruct (active_animation m) as [old|]; cbn;
    rewrite lookup_alter_eq, lookup_alter_eq, lookup_insert_eq; repeat split.
Qed.

Lemma run_finalize_frame f s :
  preview (run_finalize f s) = preview s
  /\ config (run_finalize f s) = config s
  /\ content (run_finalize f s) = content s
  /\ assets (run_finalize f s) = assets s
  /\ timers (run_finalize f s) = timers s
  /\ next_reminder (run_finalize f s) = next_reminder s.
Proof. destruct f as [? ?|[]|? []]; repeat split. Qed.

Lemma run_finalize_window f s :
  window (run_finalize f s)
  = match f with
    | entry_finalize target_opacity end_rect =>
        setGeometry end_rect (setWindowOpacity target_opacity (window s))
    | exit_fade_finalize _ =>
        set_visible false (setWindowOpacity (overlay_opacity (config s)) (window s))
    | exit_geometry_finalize start_rect _ =>
        set_visible false (setGeometry start_rect (window s))
    end.
Proof. destruct f as [? ?|[]|? []]; reflexivity. Qed.

(** The animation [_start_animation] starts is the active one, and
    running; when it reaches its end its [finalize] has run on the
    window that holds the end value, and no animation is active. *)
Lemma finish_started animation f s0 :
  let a := next_animation (animator s0) in
  let s1 := _start_animation animation (Some f) s0 in
  let s2 := finish_animation a s1 in
  (active_animation (animator s1) = Some a
   /\ animations (animator s1) !! a
      = Some (QAnimation.setState Running (QAnimation.connect_finished (Some f) animation)))
  /\ (active_animation (animator s2) = None
      /\ window s2
         = window (run_finalize f
                     (with_window (set_property (propertyName animation) (endValue animation)) s1)))
  /\ (preview s2 = preview s0 /\ config s2 = config s0 /\ content s2 = content s0
      /\ assets s2 = assets s0 /\ timers s2 = timers s0 /\ next_reminder s2 = next_reminder s0).
Proof.
  intros a s1 s2.
  destruct (animator_start_active animation (Some f) (animator s0)) as (H1 & H2 & H3 & H4).
  rewrite <- animator__start_animation in H1, H2, H3, H4. fold s1 a in H1, H2, H3, H4.
  destruct (_start_animation_frame animation (Some f) s0) as (F1 & F2 & F3 & F4 & F5).
  fold s1 in F1, F2, F3, F4, F5.
  pose proof (schedule__start_animation animation (Some f) s0) as F6. fold s1 in F6.
  split; [split; assumption |].
  unfold s2, finish_animation. rewrite H2. cbn [state QAnimation.setState
    QAnimation.connect_finished finished_cleanup propertyName endValue].
  cbv zeta. unfold cleanup. cbv zeta.
  match goal with
  | |- context [run_finalize f ?x] => set (s3 := run_finalize f x);
      destruct (run_finalize_frame f x) as (R1 & R2 & R3 & R4 & R5 & R6);
      pose proof (animator_run_finalize f x) as R7;
      pose proof (run_finalize_window f x) as R8;
      fold s3 in R1, R2, R3, R4, R5, R6, R7, R8
  end.
  cbn [animator with_animator active_animation on_animation log_finalize] in R7 |- *.
  rewrite R7.
  match goal with
  | |- context [bool_decide (?x = Some a)] => change x with (active_animation (animator s1))
  end.
  rewrite H1.
  rewrite bool_decide_eq_true_2 by reflexivity.
  cbn. rewrite R1, R2, R3, R4, R5, R6, R8.
  cbn. rewrite F1, F2, F3, F4, F5.
  repeat split.
  - rewrite run_finalize_window. destruct f; cbn; rewrite ?F4; reflexivity.
  - change (next_reminder s1) with (schedule s1).1. rewrite F6. reflexivity.
Qed.

Lemma run_entry_animation_cases s :
  preview s = false ->
  (has_exit_effect (entry_animation (config s)) = false
   /\ run_entry_animation s = with_window (setWindowOpacity (overlay_opacity (config s))) s)
  \/ (has_exit_effect (entry_animation (config s)) = true
      /\ exists animation pre,
           run_entry_animation s
           = _start_animation animation
               (Some (entry_finalize (overlay_opacity (config s)) (geometry (window s))))
               (with_window pre s)
           /\ (forall win, isVisible (pre win) = isVisible win)).
Proof.
  intros Hp. unfold run_entry_animation, has_exit_effect. rewrite Hp. cbv zeta.
  destruct (String.eqb _ "fade"); [right; split; [reflexivity |] |].
  { eexists _, _. split; [reflexivity |]. reflexivity. }
  destruct (String.eqb _ "slide"); [right; split; [reflexivity |] |].
  { eexists _, _. split; [reflexivity |]. reflexivity. }
  destruct (String.eqb _ "pop"); [right; split; [reflexivity |] |].
  { eexists _, _. split; [reflexivity |]. reflexivity. }
  left. split; reflexivity.
Qed.

Lemma lifecycle_running s a obj :
  isVisible (window s) = true ->
  active_animation (animator s) = Some a ->
  animations (animator s) !! a = Some obj ->
  state obj = Running ->
  lifecycle s
  = match finished_cleanup obj with
    | Some (Some (entry_finalize _ _)) => Entering
    | Some (Some _) => Hiding
    | _ => Visible
    end.
Proof.
  intros Hv Ha Hobj Hst. unfold lifecycle. rewrite Hv, Ha. cbn. rewrite Hobj, Hst.
  destruct (finished_cleanup obj) as [[[]|]|]; reflexivity.
Qed.

Lemma visible_set_property p v win : isVisible (set_property p v win) = isVisible win.
Proof. destruct p, v; reflexivity. Qed.

Lemma lifecycle_at_rest s :
  isVisible (window s) = true -> active_animation (animator s) = None -> lifecycle s = Visible.
Proof. intros Hv Ha. unfold lifecycle. rewrite Hv, Ha. reflexivity. Qed.

Lemma lifecycle_hidden s : isVisible (window s) = false -> lifecycle s = Idle.
Proof. intros Hv. unfold lifecycle. rewrite Hv. reflexivity. Qed.

Lemma shown_geometry_cong w s s' :
  preview s = preview s' -> config s = config s' -> content s = content s' ->
  shown_geometry w s = shown_geometry w s'.
Proof.
  intros Hp Hc Hcont. unfold shown_geometry, target_geometry.
  rewrite (_target_screen_cong w s s' Hp Hc), Hc, Hcont. reflexivity.
Qed.





(** ** Hiding the overlay *)

Lemma run_exit_animation_started cb s :
  preview s = false ->
  has_exit_effect (entry_animation (config s)) = true ->
  exists animation f,
    run_exit_animation cb s = (true, _start_animation animation (Some f) s)
    /\ set_property (propertyName animation) (startValue animation) (window s) = window s
    /\ ((String.eqb (entry_animation (config s)) "fade" = true
         /\ f = exit_fade_finalize cb
         /\ propertyName animation = windowOpacity_property)
        \/ (String.eqb (entry_animation (config s)) "fade" = false
            /\ f = exit_geometry_finalize (geometry (window s)) cb
            /\ propertyName animation = geometry_property)).
Proof.
  intros Hp. unfold run_exit_animation, has_exit_effect. rewrite Hp. cbv zeta.
  destruct (window_eta (window s)) as (Ho & Hg).
  destruct (String.eqb _ "fade").
  { intros _. eexists _, _. split; [reflexivity |]. split; [exact Ho |].
    left. repeat split. }
  destruct (String.eqb _ "slide").
  { intros _. eexists _, _. split; [reflexivity |]. split; [exact Hg |].
    right. repeat split. }
  destruct (String.eqb _ "pop").
  { intros _. eexists _, _. split; [reflexivity |]. split; [exact Hg |].
    right. repeat split. }
  intros Hf; discriminate Hf.
Qed.

Lemma animator_cancel_fields m :
  active_animation (animator_cancel m) = None
  /\ next_animation (animator_cancel m) = next_animation m.
Proof. unfold animator_cancel. destruct (active_animation m) eqn:Ha; repeat split; exact Ha. Qed.



(** ** Invariants of the event loop *)

Lemma drop_not_running m a :
  one_running m -> state_of (animator_drop m) a <> Some Running.
Proof.
  intros Hone. rewrite state_of_drop.
  destruct (decide (active_animation m = Some a)) as [Ha|Ha].
  - destruct (state_of m a) as [[]|]; discriminate.
  - intros Hrun. apply Ha, Hone, Hrun.
Qed.

Lemma finish_active a m b :
  active_animation m = Some b -> b <> a ->
  active_animation (animator_finish a m) = Some b.
Proof.
  intros Hb Hne. unfold animator_finish.
  destruct (animations m !! a) as [obj|]; [| exact Hb].
  destruct (state obj); try exact Hb.
  destruct (finished_cleanup obj) as [[f|]|]; cbv zeta; cbn [active_animation on_animation
    log_finalize]; rewrite ?Hb; try exact Hb; try reflexivity.
  - rewrite bool_decide_eq_false_2 by congruence. exact Hb.
  - rewrite bool_decide_eq_false_2 by congruence. exact Hb.
Qed.

Lemma step_one_running m m' : one_running m -> animator_step m m' -> one_running m'.
Proof.
  intros Hone Hstep. destruct Hstep as [animation finalize| |a]; intros b Hb.
  - destruct (start_fields animation finalize m) as (_ & _ & Hactive).
    rewrite state_of_start in Hb. rewrite Hactive.
    destruct (decide (next_animation m = b)) as [->|]; [reflexivity |].
    exfalso. exact (drop_not_running m b Hone Hb).
  - rewrite state_of_cancel in Hb. exfalso. exact (drop_not_running m b Hone Hb).
  - destruct (finish_cases a m) as [(_ & Heq)|(_ & Hst & _)].
    + rewrite Heq in Hb |- *. apply Hone, Hb.
    + rewrite Hst in Hb. destruct (decide (a = b)) as [|Hne]; [discriminate Hb |].
      apply finish_active; [apply Hone, Hb | congruence].
Qed.

Lemma steps_one_running m m' : one_running m -> animator_steps m m' -> one_running m'.
Proof. intros Hone Hsteps. induction Hsteps; eauto using step_one_running. Qed.

Lemma init_animator w c p :
  animator (ReminderOverlay_init w c p)
  = {| active_animation := None; animations := ∅;
       next_animation := 0%nat; finalize_calls := [] |}.
Proof.
  unfold ReminderOverlay_init. cbv zeta.
  destruct p; cbn; rewrite animator_apply_config, animator_load_assets; reflexivity.
Qed.

(** X15. In every run of the application at most one transition
    animation is running, and it is the one held in
    [active_animation]: starting an animation or hiding the overlay
    stops the one before. *)
Theorem one_animation_at_a_time (w : World) (c : AppConfig) (events : list (World * Event)) :
  let m := animator (run events (ReminderApplication_init w c)) in
  (forall a, state_of m a = Some Running -> active_animation m = Some a)
  /\ (forall a b, state_of m a = Some Running -> state_of m b = Some Running -> a = b).
Proof.
  intros m.
  assert (Hone : one_running m).
  { apply (steps_one_running (animator (ReminderApplication_init w c)));
      [| apply animator_run].
    unfold ReminderApplication_init.
    rewrite animator_schedule_next_reminder, init_animator.
    intros a Ha. unfold state_of in Ha. cbn in Ha. rewrite lookup_empty in Ha. discriminate. }
  split; [exact Hone |].
  intros a b Ha Hb. apply Hone in Ha, Hb. congruence.
Qed.

(** What the slots leave alone. *)
Lemma finish_animation_frame a s :
  preview (finish_animation a s) = preview s
  /\ config (finish_animation a s) = config s
  /\ content (finish_animation a s) = content s
  /\ assets (finish_animation a s) = assets s
  /\ timers (finish_animation a s) = timers s
  /\ next_reminder (finish_animation a s) = next_reminder s.
Proof.
  unfold finish_animation.
  destruct (animations (animator s) !! a) as [obj|]; [| repeat split].
  destruct (state obj); try (repeat split; fail).
  cbv zeta. destruct (finished_cleanup obj) as [[f|]|]; [| | repeat split].
  - unfold cleanup. cbv zeta.
    match goal with
    | |- context [run_finalize f ?x] =>
        destruct (run_finalize_frame f x) as (R1 & R2 & R3 & R4 & R5 & R6)
    end.
    destruct (bool_decide _); cbn [preview config content assets timers next_reminder with_animator];
      rewrite R1, R2, R3, R4, R5, R6; repeat split.
  - unfold cleanup. cbv zeta. destruct (bool_decide _); repeat split.
Qed.

Lemma advance_animation_frame s :
  preview (advance_animation s) = preview s
  /\ config (advance_animation s) = config s
  /\ window (advance_animation s) = window s
  /\ timers (advance_animation s) = timers s
  /\ next_reminder (advance_animation s) = next_reminder s
  /\ frame_pixmaps (assets (advance_animation s)) = frame_pixmaps (assets s)
  /\ loaded_asset_dir (assets (advance_animation s)) = loaded_asset_dir (assets s)
  /\ has_sprites (advance_animation s) = has_sprites s.
Proof.
  unfold advance_animation, has_sprites.
  destruct (negb (animation_enabled (config s))); [repeat split |].
  destruct (frame_pixmaps (assets s)) as [|first rest] eqn:Hf.
  - destruct (fallback_movie (assets s)) as [m|] eqn:Hm.
    + destruct (negb (current_movie (content s))).
      * unfold set_movie. rewrite Hm. cbn. rewrite Hf. repeat split.
      * rewrite Hf, Hm. repeat split.
    + cbn. rewrite Hf, Hm. repeat split.
  - cbn. rewrite Hf. repeat split.
Qed.

Lemma schedule_next_reminder_frame w s :
  preview (schedule_next_reminder w s) = preview s
  /\ config (schedule_next_reminder w s) = config s
  /\ window (schedule_next_reminder w s) = window s
  /\ assets (schedule_next_reminder w s) = assets s
  /\ animation_timer (timers (schedule_next_reminder w s)) = animation_timer (timers s)
  /\ auto_hide_timer (timers (schedule_next_reminder w s)) = auto_hide_timer (timers s)
  /\ countdown_timer (timers (schedule_next_reminder w s)) = countdown_timer (timers s).
Proof.
  unfold schedule_next_reminder. destruct (_ || _); [repeat split |].
  cbv zeta. destruct (0 <? _); repeat split.
Qed.

Lemma reset_reminder_timer_frame w s :
  preview (reset_reminder_timer w s) = preview s
  /\ config (reset_reminder_timer w s) = config s
  /\ window (reset_reminder_timer w s) = window s
  /\ assets (reset_reminder_timer w s) = assets s
  /\ animation_timer (timers (reset_reminder_timer w s)) = animation_timer (timers s)
  /\ auto_hide_timer (timers (reset_reminder_timer w s)) = auto_hide_timer (timers s)
  /\ countdown_timer (timers (reset_reminder_timer w s)) = countdown_timer (timers s).
Proof.
  unfold reset_reminder_timer. destruct (_ || _); [repeat split |].
  cbv zeta.
  destruct (schedule_next_reminder_frame w (with_timers (on_reminder_timer QTimer_.stop) s))
    as (H1 & H2 & H3 & H4 & H5 & H6 & H7).
  rewrite H1, H2, H3, H4, H5, H6, H7. repeat split.
Qed.

(** [show_overlay], whatever the mode. *)
Lemma show_overlay_parts w s :
  let shown := show_overlay w s in
  let applied := apply_config w (config s) s in
  preview shown = preview s
  /\ config shown = config s
  /\ animation_timer (timers shown) = animation_timer (timers applied)
  /\ auto_hide_timer (timers shown)
     = (if preview s then auto_hide_timer (timers s)
        else QTimer_.start_msec (auto_hide_ms (config s)) <$> auto_hide_timer (timers s))
  /\ countdown_timer (timers shown) = countdown_timer (timers s)
  /\ frame_pixmaps (assets shown) = frame_pixmaps (assets applied)
  /\ loaded_asset_dir (assets shown) = loaded_asset_dir (assets applied)
  /\ has_sprites shown = has_sprites applied.
Proof.
  intros shown applied.
  destruct (show_overlay_shown w s)
    as (s4 & Hshown & (P1 & P2 & _) & (T1 & T2 & _ & T4) & _ & (F1 & F2 & F3) & _).
  fold applied in T1, F1, F2, F3. fold shown in Hshown.
  assert (Hframe : preview shown = preview s4 /\ config shown = config s4
                   /\ timers shown = timers s4 /\ assets shown = assets s4).
  { rewrite Hshown. destruct (preview s) eqn:Hp; cbn [negb]; [repeat split |].
    destruct (run_entry_animation_cases s4 P1)
      as [(_ & ->)|(_ & animation & pre & -> & _)]; [repeat split |].
    destruct (_start_animation_frame animation
                (Some (entry_finalize (overlay_opacity (config s4)) (geometry (window s4))))
                (with_window pre s4)) as (_ & H2 & H3 & H4 & H5).
    rewrite H2, H3, H4, H5. repeat split. }
  destruct Hframe as (H1 & H2 & H3 & H4).
  unfold has_sprites in F3 |- *.
  rewrite H1, H2, H3, H4. repeat split; assumption.
Qed.

Lemma hide_overlay_parts s :
  preview (hide_overlay s) = preview s
  /\ config (hide_overlay s) = config s
  /\ interval (animation_timer (timers (hide_overlay s))) = interval (animation_timer (timers s))
  /\ (preview s = false -> isActive (animation_timer (timers (hide_overlay s))) = false)
  /\ (preview s = true -> timers (hide_overlay s) = timers s /\ assets (hide_overlay s) = assets s)
  /\ frame_pixmaps (assets (hide_overlay s)) = frame_pixmaps (assets s)
  /\ loaded_asset_dir (assets (hide_overlay s)) = loaded_asset_dir (assets s)
  /\ has_sprites (hide_overlay s) = has_sprites s.
Proof.
  destruct (preview s) eqn:Hp.
  - unfold hide_overlay. rewrite Hp. repeat split; try exact Hp. intros Hf; discriminate Hf.
  - destruct (hide_overlay_frame s Hp) as (H1 & H2 & _ & H4 & H5).
    unfold has_sprites. rewrite H1, H2, H4, H5.
    unfold settled. cbv zeta.
    destruct (fallback_movie (assets s)) as [m|] eqn:Hm; cbn; rewrite ?Hm;
      repeat split; try congruence.
    all: cbn [assets with_timers with_assets with_animator frame_pixmaps fallback_movie
              set_fallback_movie]; rewrite ?Hm;
      destruct (bool_decide (frame_pixmaps (assets s) = [])); cbn;
      rewrite ?bool_decide_eq_true_2 by eauto; reflexivity.
Qed.

(** The mode never changes, and the configuration only when the
    settings window applies one. *)
Lemma handle_frame w e s :
  preview (handle w e s) = preview s
  /\ config (handle w e s) = match e with settings_apply c => c | _ => config s end.
Proof.
  destruct e; cbn [handle].
  - destruct (timer_due _); [| split; reflexivity].
    unfold trigger_reminder. cbn [preview with_timers].
    destruct (preview s) eqn:Hp; [split; [exact Hp | reflexivity] |].
    destruct (show_overlay_parts w
                (schedule_next_reminder w (with_timers (on_reminder_timer QTimer_.fired) s)))
      as (H1 & H2 & _).
    destruct (schedule_next_reminder_frame w (with_timers (on_reminder_timer QTimer_.fired) s))
      as (H3 & H4 & _).
    rewrite H1, H2, H3, H4. split; [exact Hp | reflexivity].
  - destruct (timer_due _); [| split; reflexivity].
    destruct (hide_overlay_parts (with_timers (on_auto_hide_timer QTimer_.fired) s))
      as (H1 & H2 & _).
    rewrite H1, H2. split; reflexivity.
  - destruct (isActive _); [| split; reflexivity].
    destruct (advance_animation_frame (with_timers (on_animation_timer QTimer_.fired) s))
      as (H1 & H2 & _).
    rewrite H1, H2. split; reflexivity.
  - destruct (timer_due _); split; reflexivity.
  - destruct (finish_animation_frame a s) as (H1 & H2 & _). split; assumption.
  - destruct (isVisible _); [| split; reflexivity].
    unfold mousePressEvent. destruct (preview s) eqn:Hp; [split; [exact Hp | reflexivity] |].
    destruct (reset_reminder_timer_frame w (hide_overlay s)) as (H1 & H2 & _).
    destruct (hide_overlay_parts s) as (H3 & H4 & _).
    rewrite H1, H2, H3, H4. split; [exact Hp | reflexivity].
  - destruct (show_overlay_parts w s) as (H1 & H2 & _). split; assumption.
  - destruct (reset_reminder_timer_frame w (show_overlay w s)) as (H1 & H2 & _).
    destruct (show_overlay_parts w s) as (H3 & H4 & _).
    rewrite H1, H2, H3, H4. split; reflexivity.
  - destruct (reset_reminder_timer_frame w (apply_config w c s)) as (H1 & H2 & _).
    destruct (apply_config_parts w c s) as ((H3 & H4 & _) & _).
    rewrite H1, H2, H3, H4. split; reflexivity.
Qed.

Lemma pending_of_schedule s s' :
  schedule s' = schedule s -> reminder_pending s -> reminder_pending s'.
Proof.
  intros Hs (t & Ht & Hactive & Hint). exists t.
  rewrite (schedule_timer s'), Hs. repeat split; assumption.
Qed.

Lemma reminder_delay_floor w c : 1000 <= reminder_delay w c.
Proof. unfold reminder_delay. lia. Qed.

Lemma schedule_next_reminder_pending w s :
  preview s = false -> is_Some (reminder_timer (timers s)) ->
  reminder_pending (schedule_next_reminder w s).
Proof.
  intros Hp [t Ht].
  destruct (schedule_next_reminder_armed w s t Hp Ht) as (_ & Harmed & _).
  eexists. split; [exact Harmed |]. split; [reflexivity |]. apply reminder_delay_floor.
Qed.

Lemma reset_reminder_timer_pending w s :
  preview s = false -> is_Some (reminder_timer (timers s)) ->
  reminder_pending (reset_reminder_timer w s).
Proof.
  intros Hp [t Ht]. unfold reset_reminder_timer.
  rewrite Hp, Ht. cbn [orb negb]. rewrite bool_decide_eq_true_2 by eauto. cbn [negb].
  cbv zeta. apply schedule_next_reminder_pending; [exact Hp |].
  cbn. rewrite Ht. eauto.
Qed.

Lemma pending_is_Some s : reminder_pending s -> is_Some (reminder_timer (timers s)).
Proof. intros (t & Ht & _). eauto. Qed.

Lemma schedule_advance_animation s : schedule (advance_animation s) = schedule s.
Proof.
  destruct (advance_animation_frame s) as (_ & _ & _ & Ht & Hn & _).
  unfold schedule. rewrite Ht, Hn. reflexivity.
Qed.

Lemma handle_pending w e s :
  preview s = false -> reminder_pending s -> reminder_pending (handle w e s).
Proof.
  intros Hp Hpend. pose proof (pending_is_Some s Hpend) as Hsome.
  destruct e; cbn [handle].
  - destruct (timer_due _); [| exact Hpend].
    unfold trigger_reminder. cbn [preview with_timers]. rewrite Hp.
    apply (pending_of_schedule _ _ (schedule_show_overlay w _)).
    apply schedule_next_reminder_pending; [exact Hp |].
    destruct Hsome as [t Ht]. cbn. rewrite Ht. eauto.
  - destruct (timer_due _); [| exact Hpend].
    apply (pending_of_schedule _ _ (schedule_hide_overlay _)). exact Hpend.
  - destruct (isActive _); [| exact Hpend].
    apply (pending_of_schedule _ _ (schedule_advance_animation _)). exact Hpend.
  - destruct (timer_due _); exact Hpend.
  - apply (pending_of_schedule _ _ (schedule_finish_animation a s)). exact Hpend.
  - destruct (isVisible _); [| exact Hpend].
    unfold mousePressEvent. rewrite Hp.
    destruct (hide_overlay_parts s) as (Hp' & _).
    apply reset_reminder_timer_pending; [congruence |].
    rewrite (schedule_timer (hide_overlay s)), schedule_hide_overlay. exact Hsome.
  - apply (pending_of_schedule _ _ (schedule_show_overlay w s)). exact Hpend.
  - destruct (show_overlay_parts w s) as (Hp' & _).
    apply reset_reminder_timer_pending; [congruence |].
    rewrite (schedule_timer (show_overlay w s)), schedule_show_overlay. exact Hsome.
  - destruct (apply_config_parts w c s) as ((Hp' & _) & _).
    apply reset_reminder_timer_pending; [congruence |].
    rewrite (schedule_timer (apply_config w c s)), schedule_apply_config. exact Hsome.
Qed.

Lemma run_pending events s :
  preview s = false -> reminder_pending s ->
  preview (run events s) = false /\ reminder_pending (run events s).
Proof.
  revert s. induction events as [|[w e] rest IH]; intros s Hp Hpend; [split; assumption |].
  cbn [run]. apply IH.
  - destruct (handle_frame w e s) as (H & _). congruence.
  - apply handle_pending; assumption.
Qed.

(** The overlay of the application, as constructed. *)
Lemma init_parts w c :
  let s := ReminderOverlay_init w c false in
  preview s = false
  /\ config s = c
  /\ isVisible (window s) = false
  /\ auto_hide_timer (timers s) = Some (QTimer_.setSingleShot true QTimer_.new)
  /\ reminder_timer (timers s) = Some (QTimer_.setSingleShot true QTimer_.new)
  /\ countdown_timer (timers s) = Some (QTimer_.start (QTimer_.setInterval 1000 QTimer_.new))
  /\ next_reminder s = now w + reminder_interval_ms c.
Proof.
  unfold ReminderOverlay_init. cbv zeta. cbn [negb].
  match goal with
  | |- context [apply_config w c (load_assets w ?y)] =>
      destruct (apply_config_parts w c (load_assets w y))
        as ((A1 & A2 & A3 & _) & _ & (A4 & A5 & A6) & (_ & _ & _) & (A7 & _));
      destruct (load_assets_frame w y) as (M1 & M2 & M3 & M4 & M5)
  end.
  cbn [hide preview config window with_window isVisible set_visible timers next_reminder].
  rewrite A1, A2, A3, A4, A5, A6, M1, M4, M5. repeat split.
Qed.


Lemma sprite_timer_ok_frame s s' :
  config s' = config s ->
  interval (animation_timer (timers s')) = interval (animation_timer (timers s)) ->
  (isActive (animation_timer (timers s')) = true -> isActive (animation_timer (timers s)) = true) ->
  has_sprites s' = has_sprites s ->
  sprite_timer_ok s -> sprite_timer_ok s'.
Proof.
  intros Hc Hi Ha Hs (Hint & Hact). unfold sprite_timer_ok.
  rewrite Hc, Hi, Hs. split; [exact Hint |]. intros H. apply Hact, Ha, H.
Qed.

Lemma apply_config_sprite_timer_ok w c s : sprite_timer_ok (apply_config w c s).
Proof.
  destruct (apply_config_parts w c s) as ((_ & Hc & _) & _ & _ & (Hi & Ha & _) & _).
  unfold sprite_timer_ok. rewrite Hc, Hi, Ha. split; [reflexivity |].
  intros H. apply andb_prop in H. exact H.
Qed.

Lemma show_overlay_sprite_timer_ok w s : sprite_timer_ok (show_overlay w s).
Proof.
  destruct (show_overlay_parts w s) as (_ & Hc & Ht & _ & _ & _ & _ & Hs).
  destruct (apply_config_parts w (config s) s) as ((_ & Hc' & _) & _).
  apply (sprite_timer_ok_frame (apply_config w (config s) s)); try congruence.
  apply apply_config_sprite_timer_ok.
Qed.

Lemma reset_reminder_timer_sprite_timer_ok w s :
  sprite_timer_ok s -> sprite_timer_ok (reset_reminder_timer w s).
Proof.
  destruct (reset_reminder_timer_frame w s) as (_ & Hc & _ & Ha & Ht & _).
  apply sprite_timer_ok_frame; try congruence.
  unfold has_sprites. rewrite Ha. reflexivity.
Qed.

Lemma schedule_next_reminder_sprite_timer_ok w s :
  sprite_timer_ok s -> sprite_timer_ok (schedule_next_reminder w s).
Proof.
  destruct (schedule_next_reminder_frame w s) as (_ & Hc & _ & Ha & Ht & _).
  apply sprite_timer_ok_frame; try congruence.
  unfold has_sprites. rewrite Ha. reflexivity.
Qed.

Lemma hide_overlay_sprite_timer_ok s : sprite_timer_ok s -> sprite_timer_ok (hide_overlay s).
Proof.
  destruct (hide_overlay_parts s) as (_ & Hc & Hi & Hoff & Hsame & _ & _ & Hs).
  apply sprite_timer_ok_frame; try assumption.
  destruct (preview s).
  - destruct (Hsame eq_refl) as (-> & _). auto.
  - rewrite (Hoff eq_refl). intros Hf; discriminate Hf.
Qed.

Lemma handle_sprite_timer_ok w e s : sprite_timer_ok s -> sprite_timer_ok (handle w e s).
Proof.
  intros Hok. destruct e; cbn [handle].
  - destruct (timer_due _); [| exact Hok].
    unfold trigger_reminder. cbn [preview with_timers].
    destruct (preview s); [exact Hok |]. apply show_overlay_sprite_timer_ok.
  - destruct (timer_due _); [| exact Hok].
    apply hide_overlay_sprite_timer_ok. exact Hok.
  - destruct (isActive (animation_timer (timers s))) eqn:Hactive; [| exact Hok].
    destruct (advance_animation_frame (with_timers (on_animation_timer QTimer_.fired) s))
      as (_ & Hc & _ & Ht & _ & _ & _ & Hs).
    apply (sprite_timer_ok_frame s); try assumption.
    + rewrite Ht. cbn. unfold QTimer_.fired. destruct (isSingleShot _); reflexivity.
    + intros _. exact Hactive.
  - destruct (timer_due _); exact Hok.
  - destruct (finish_animation_frame a s) as (_ & Hc & _ & Ha & Ht & _).
    apply (sprite_timer_ok_frame s); try congruence.
    unfold has_sprites. rewrite Ha. reflexivity.
  - destruct (isVisible _); [| exact Hok].
    unfold mousePressEvent. destruct (preview s); [exact Hok |].
    apply reset_reminder_timer_sprite_timer_ok, hide_overlay_sprite_timer_ok, Hok.
  - apply show_overlay_sprite_timer_ok.
  - apply reset_reminder_timer_sprite_timer_ok, show_overlay_sprite_timer_ok.
  - apply reset_reminder_timer_sprite_timer_ok, apply_config_sprite_timer_ok.
Qed.

Lemma run_sprite_timer_ok events s : sprite_timer_ok s -> sprite_timer_ok (run events s).
Proof.
  revert s. induction events as [|[w e] rest IH]; intros s Hok; [exact Hok |].
  cbn [run]. apply IH, handle_sprite_timer_ok, Hok.
Qed.

Lemma init_sprite_timer_ok w c : sprite_timer_ok (ReminderApplication_init w c).
Proof.
  unfold ReminderApplication_init. apply schedule_next_reminder_sprite_timer_ok.
  unfold ReminderOverlay_init. cbv zeta. cbn [negb].
  match goal with
  | |- sprite_timer_ok (hide ?x) =>
      apply (sprite_timer_ok_frame x); try reflexivity; [auto |];
      apply apply_config_sprite_timer_ok
  end.
Qed.


Lemma inert_frame s s' :
  preview s' = preview s ->
  auto_hide_timer (timers s') = auto_hide_timer (timers s) ->
  schedule s' = schedule s ->
  countdown_timer (timers s') = countdown_timer (timers s) ->
  animator s' = animator s ->
  inert s -> inert s' /\ next_reminder s' = next_reminder s.
Proof.
  intros Hp Ha Hs Hc Hm (I1 & I2 & I3 & I4 & I5 & I6).
  unfold inert. rewrite Hp, Ha, Hc, Hm, (schedule_timer s'), (schedule_fields s'), Hs.
  repeat split; assumption.
Qed.

Lemma show_overlay_inert w s :
  inert s -> inert (show_overlay w s) /\ next_reminder (show_overlay w s) = next_reminder s.
Proof.
  intros Hin. pose proof Hin as (Hp & _).
  destruct (show_overlay_shown w s)
    as (s4 & Hshown & (P1 & _ & _ & P4) & (_ & T2 & _ & T4) & _).
  rewrite Hp in Hshown, T2. cbn [negb] in Hshown.
  apply inert_frame; try assumption; rewrite ?Hshown; try assumption.
  rewrite <- Hshown. apply schedule_show_overlay.
Qed.

Lemma reset_reminder_timer_preview w s : preview s = true -> reset_reminder_timer w s = s.
Proof. intros Hp. unfold reset_reminder_timer. rewrite Hp. reflexivity. Qed.

Lemma handle_inert w e s :
  inert s -> inert (handle w e s) /\ next_reminder (handle w e s) = next_reminder s.
Proof.
  intros Hin. pose proof Hin as (Hp & Hauto & Hrem & Hcount & Hactive & Hnone).
  destruct e; cbn [handle]; rewrite ?Hauto, ?Hrem, ?Hcount; cbn [timer_due];
    try (split; [exact Hin | reflexivity]).
  - destruct (isActive _); [| split; [exact Hin | reflexivity]].
    destruct (advance_animation_frame (with_timers (on_animation_timer QTimer_.fired) s))
      as (H1 & _ & _ & H4 & _).
    apply inert_frame; try assumption;
      first [ rewrite H4; reflexivity
            | exact H1
            | apply (schedule_advance_animation
                       (with_timers (on_animation_timer QTimer_.fired) s))
            | apply (animator_advance_animation
                       (with_timers (on_animation_timer QTimer_.fired) s)) ].
  - unfold finish_animation. rewrite Hnone, lookup_empty. split; [exact Hin | reflexivity].
  - unfold mousePressEvent. rewrite Hp. destruct (isVisible _); split; try exact Hin; reflexivity.
  - apply show_overlay_inert, Hin.
  - destruct (show_overlay_inert w s Hin) as (Hin' & Hn).
    rewrite reset_reminder_timer_preview by apply Hin'. split; assumption.
  - destruct (apply_config_parts w c s) as ((A1 & _ & A3 & A4) & _ & (A5 & A6 & A7) & _).
    rewrite reset_reminder_timer_preview by congruence.
    apply inert_frame; try assumption. apply schedule_apply_config.
Qed.

Lemma run_inert events s :
  inert s -> inert (run events s) /\ next_reminder (run events s) = next_reminder s.
Proof.
  revert s. induction events as [|[w e] rest IH]; intros s Hin; [split; [exact Hin | reflexivity] |].
  cbn [run]. destruct (handle_inert w e s Hin) as (Hin' & Hn).
  destruct (IH _ Hin') as (Hin'' & Hn'). split; [exact Hin'' | congruence].
Qed.

Lemma init_preview_inert w c :
  inert (ReminderOverlay_init w c true)
  /\ next_reminder (ReminderOverlay_init w c true) = now w + reminder_interval_ms c
  /\ isVisible (window (ReminderOverlay_init w c true)) = true.
Proof.
  pose proof (init_animator w c true) as Hm.
  unfold ReminderOverlay_init in Hm |- *. cbv zeta in Hm |- *. cbn [negb] in Hm |- *.
  match goal with
  | |- context [apply_config w c (load_assets w ?y)] =>
      destruct (apply_config_parts w c (load_assets w y))
        as ((A1 & A2 & A3 & _) & _ & (A4 & A5 & A6) & _);
      destruct (load_assets_frame w y) as (M1 & M2 & M3 & M4 & M5)
  end.
  unfold inert. rewrite Hm.
  cbn [show preview config window with_window with_content with_timers isVisible set_visible
       timers next_reminder auto_hide_timer reminder_timer countdown_timer on_animation_timer
       active_animation animations].
  rewrite A1, A3, A4, A5, A6, M1, M4, M5. repeat split.
Qed.

(** X18. A preview overlay stays a preview: whatever events reach it,
    it has no auto-hide, reminder or countdown timer, the time of its
    next reminder stays as set at construction, no transition
    animation is ever created, and it is never Entering or Hiding. *)
Theorem preview_overlay_inert (w : World) (c : AppConfig) (events : list (World * Event)) :
  let s := run events (ReminderOverlay_init w c true) in
  preview s = true
  /\ (auto_hide_timer (timers s) = None /\ reminder_timer (timers s) = None
      /\ countdown_timer (timers s) = None)
  /\ next_reminder s = now w + reminder_interval_ms c
  /\ (animations (animator s) = ∅ /\ active_animation (animator s) = None)
  /\ (lifecycle s = Idle \/ lifecycle s = Visible).
Proof.
  intros s. destruct (init_preview_inert w c) as (Hin & Hn & _).
  destruct (run_inert events _ Hin) as ((I1 & I2 & I3 & I4 & I5 & I6) & Hn').
  fold s in I1, I2, I3, I4, I5, I6, Hn'.
  repeat split; try assumption; [congruence |].
  unfold lifecycle. rewrite I5. destruct (isVisible (window s)); [right | left]; reflexivity.
Qed.

(** ** The sprite animation *)

Lemma advance_animation_step s :
  animation_enabled (config s) = true ->
  frame_pixmaps (assets s) <> [] ->
  let n := length (frame_pixmaps (assets s)) in
  let i := ((animation_index (assets s) + 1) mod n)%nat in
  animation_index (assets (advance_animation s)) = i
  /\ animation_label (content (advance_animation s)) = label_pixmap (frame_at i s)
  /\ config (advance_animation s) = config s
  /\ frame_pixmaps (assets (advance_animation s)) = frame_pixmaps (assets s).
Proof.
  intros He Hf n i. unfold advance_animation. rewrite He. cbn [negb].
  unfold n, i. destruct (frame_pixmaps (assets s)) as [|first rest] eqn:Hfr; [done |].
  cbn. unfold frame_at. cbn. rewrite Hfr. repeat split.
Qed.

(** X19. With animation enabled and frames at hand, the ticks of the
    sprite timer show the frames in order and start over after the
    last: after [k] ticks ([k] at least 1) the frame index is the old
    one plus [k], modulo the number of frames, it is the index of a
    frame, and the label shows that frame; the frames themselves stay. *)
Theorem advance_animation_cycles (self : ReminderOverlay) (k : nat) :
  animation_enabled (config self) = true ->
  frame_pixmaps (assets self) <> [] ->
  let n := length (frame_pixmaps (assets self)) in
  let ticked := Nat.iter (S k) advance_animation self in
  let i := ((animation_index (assets self) + S k) mod n)%nat in
  animation_index (assets ticked) = i
  /\ (i < n)%nat
  /\ (exists pixmap, frame_pixmaps (assets self) !! i = Some pixmap
                     /\ animation_label (content ticked) = label_pixmap pixmap)
  /\ frame_pixmaps (assets ticked) = frame_pixmaps (assets self).
Proof.
  intros He Hf n ticked i.
  assert (Hn : n <> 0%nat).
  { unfold n. destruct (frame_pixmaps (assets self)); [done | discriminate]. }
  assert (Hi : (i < n)%nat) by (apply Nat.mod_upper_bound; exact Hn).
  assert (Hk : animation_index (assets ticked) = i
               /\ animation_label (content ticked) = label_pixmap (frame_at i self)
               /\ config ticked = config self
               /\ frame_pixmaps (assets ticked) = frame_pixmaps (assets self)).
  { unfold ticked, i. clear Hi. induction k as [|k IH].
    - cbn [Nat.iter nat_rect]. apply advance_animation_step; assumption.
    - destruct IH as (I1 & I2 & I3 & I4).
      change (Nat.iter (S (S k)) advance_animation self)
        with (advance_animation (Nat.iter (S k) advance_animation self)).
      set (prev := Nat.iter (S k) advance_animation self) in *.
      destruct (advance_animation_step prev) as (S1 & S2 & S3 & S4);
        [congruence | congruence |].
      rewrite S1, S2, S3, S4, I1, I3, I4. fold n.
      assert (Hidx : (((animation_index (assets self) + S k) mod n + 1) mod n
                      = (animation_index (assets self) + S (S k)) mod n)%nat).
      { rewrite Nat.Div0.add_mod_idemp_l. f_equal. lia. }
      rewrite Hidx. unfold frame_at. rewrite I4. repeat split. }
  destruct Hk as (K1 & K2 & _ & K4).
  split; [exact K1 |]. split; [exact Hi |]. split; [| exact K4].
  destruct (lookup_lt_is_Some_2 (frame_pixmaps (assets self)) i Hi) as [pixmap Hpix].
  exists pixmap. split; [exact Hpix |]. rewrite K2. unfold frame_at. rewrite Hpix. reflexivity.
Qed.

Lemma advance_animation_cycles_witness :
  animation_index (assets (Nat.iter 3 advance_animation (started full_hd default_config)))
  = 1%nat.
Proof.
  pose proof (advance_animation_cycles (started full_hd default_config) 2 eq_refl) as H.
  cbv zeta in H. destruct H as (H & _); [vm_compute; discriminate |].
  rewrite H. vm_compute. reflexivity.
Defined.

(** ** The settings window and the start of the application *)

Lemma schedule_next_reminder_countdown w s :
  preview s = false -> is_Some (reminder_timer (timers s)) ->
  countdown_remaining (content (schedule_next_reminder w s))
  = (if countdown_enabled (config s)
     then format_short_duration (reminder_delay w (config s)) else "").
Proof.
  intros Hp [t Ht]. unfold schedule_next_reminder, reminder_delay.
  rewrite Hp, Ht. cbn [orb negb]. rewrite bool_decide_eq_true_2 by eauto.
  cbn [negb]. cbv zeta. unfold update_countdown.
  cbn [preview config next_reminder with_timers with_next_reminder with_content content
       set_countdown_text countdown_remaining].
  rewrite Hp. destruct (countdown_enabled (config s)); [| reflexivity].
  f_equal. destruct (0 <? random_offset_ms (config s)); lia.
Qed.

Lemma reset_reminder_timer_rearmed w s :
  preview s = false -> is_Some (reminder_timer (timers s)) ->
  next_reminder (reset_reminder_timer w s) = now w + reminder_delay w (config s)
  /\ countdown_remaining (content (reset_reminder_timer w s))
     = (if countdown_enabled (config s)
        then format_short_duration (reminder_delay w (config s)) else "")
  /\ animator (reset_reminder_timer w s) = animator s.
Proof.
  intros Hp Hsome. split; [apply reset_reminder_timer_armed; assumption |].
  split; [| apply animator_reset_reminder_timer].
  destruct Hsome as [t Ht]. unfold reset_reminder_timer.
  rewrite Hp, Ht. cbn [orb negb]. rewrite bool_decide_eq_true_2 by eauto. cbn [negb].
  cbv zeta.
  apply (schedule_next_reminder_countdown w (with_timers (on_reminder_timer QTimer_.stop) s));
    [exact Hp | cbn; rewrite Ht; eauto].
Qed.



Lemma shown_geometry_config w s s' :
  preview s = preview s' -> config s = config s' -> shown_geometry w s = shown_geometry w s'.
Proof.
  intros Hp Hc. unfold shown_geometry, target_geometry, content_apply_config.
  cbn [content_size set_content_size].
  rewrite (_target_screen_cong w s s' Hp Hc), Hc. reflexivity.
Qed.


(** ** The settings file *)

Lemma from_dict_to_dict_stored `{PyRuntime} (c : AppConfig) :
  Forall color_valid (config_colors c) ->
  from_dict (PDict (to_dict c)) = Ok (set_asset_directory STORAGE_ASSETS_DIR c).
Proof.
  intros Hcolors.
  unfold config_colors in Hcolors.
  repeat match type of Hcolors with
         | Forall _ (_ :: _) => apply Forall_cons in Hcolors; destruct Hcolors as [? Hcolors]
         end.
  clear Hcolors.
  pose proof (to_dict_fields c) as Hf. unfold config_fields in Hf.
  repeat match type of Hf with
         | Forall _ (_ :: _) => apply Forall_cons in Hf; destruct Hf as [? Hf]
         end.
  clear Hf. cbn [field_key field_view] in *.
  unfold from_dict. cbv zeta.
  repeat (first
    [ erewrite get_int_lookup by eassumption
    | erewrite get_float_lookup by eassumption
    | erewrite color_lookup by eassumption ];
    cbn [mbind result_bind]).
  repeat (erewrite bool_lookup by eassumption).
  repeat (erewrite str_lookup by eassumption).
  destruct c. reflexivity.
Qed.

(** X22. What [save_config] writes, [load_config_from_disk] reads
    back: for a configuration whose colours are valid the loaded
    configuration is the saved one, except that the asset directory is
    the storage directory and the autostart flag is what the registry
    says, whatever was saved for the two. *)
Theorem load_config_from_disk_saved `{PyRuntime} (c : AppConfig) (autostart : bool) :
  Forall color_valid (config_colors c) ->
  load_config_from_disk (saved_settings c) autostart
  = Ok (set_autostart_enabled autostart (set_asset_directory STORAGE_ASSETS_DIR c)).
Proof.
  intros Hcolors. unfold load_config_from_disk, saved_settings.
  cbn [mbind result_bind]. rewrite (from_dict_to_dict_stored c Hcolors).
  cbn [mbind result_bind]. destruct c. reflexivity.
Qed.

Lemma load_config_from_disk_saved_witness :
  @load_config_from_disk sample_runtime (saved_settings (with_margins 40 8 default_config)) true
  = Ok (set_autostart_enabled true (with_margins 40 8 default_config)).
Proof.
  rewrite (@load_config_from_disk_saved sample_runtime).
  - reflexivity.
  - unfold config_colors, color_valid. repeat constructor; cbn; lia.
Defined.


(** ** Command line overrides *)

Lemma when_keeps {A B} (p : AppConfig -> B) (value : option A) assign config :
  (forall v c, p (assign v c) = p c) -> p (when value assign config) = p config.
Proof. intros H. destruct value; [apply H | reflexivity]. Qed.

Lemma float_of_int_60000 :
  Py.float_of_int 60000 = Ok (binary_normalize Py.prec Py.emax 60000 0 false).
Proof. vm_compute. reflexivity. Qed.

Lemma float_of_int_1000 :
  Py.float_of_int 1000 = Ok (binary_normalize Py.prec Py.emax 1000 0 false).
Proof. vm_compute. reflexivity. Qed.

(** A call that returns: the three conversions went through. *)
Ltac cli_numbers H :=
  unfold apply_cli_overrides in H;
  rewrite ?float_of_int_60000, ?float_of_int_1000 in H; cbn [mbind result_bind] in H;
  repeat match type of H with
    | context [match given_float ?o with _ => _ end] =>
        let x := fresh "x" in
        let Hx := fresh "Hx" in
        destruct (given_float o) as [x|] eqn:Hx; cbn [mbind result_bind] in H
    | context [Py.int_of_float ?f] =>
        let ms := fresh "ms" in
        let Hms := fresh "Hms" in
        destruct (Py.int_of_float f) as [ms|] eqn:Hms; cbn [mbind result_bind] in H;
        [| discriminate H]
    end;
  cbv zeta in H; injection H as H; subst.

Ltac cli_keep :=
  repeat (rewrite when_keeps by (intros; reflexivity));
  try match goal with
    | |- context [if ?b then _ else _] => destruct b
    end;
  try reflexivity.

(** X24. The options [apply_cli_overrides] does not have leave their
    fields alone: the preview delay, the asset directory, the colours,
    texts and font sizes, the text opacity, the countdown switch, the
    animation switch and the autostart flag of the result are those of
    the configuration passed in; and with no option at all the
    configuration is returned as it is. *)
Theorem apply_cli_overrides_untouched (c : AppConfig) (args : Args.t) (done : AppConfig) :
  apply_cli_overrides c args = Ok done ->
  (preview_delay_ms done = preview_delay_ms c
   /\ asset_directory done = asset_directory c
   /\ background_radius done = background_radius c
   /\ autostart_enabled done = autostart_enabled c
   /\ animation_enabled done = animation_enabled c)
  /\ (gradient_top done = gradient_top c
      /\ gradient_bottom done = gradient_bottom c
      /\ border_color done = border_color c
      /\ shadow_color done = shadow_color c
      /\ title_color done = title_color c
      /\ text_color done = text_color c
      /\ countdown_color done = countdown_color c)
  /\ (title_text done = title_text c
      /\ title_font_size done = title_font_size c
      /\ message_template done = message_template c
      /\ message_font_size done = message_font_size c
      /\ text_opacity done = text_opacity c
      /\ countdown_enabled done = countdown_enabled c
      /\ countdown_template done = countdown_template c
      /\ countdown_font_size done = countdown_font_size c)
  /\ (args = Args.none -> done = c).
Proof.
  intros H.
  split; [| split; [| split]]; [| | | intros ->; cbn in H; injection H as <-; destruct c; reflexivity].
  all: cli_numbers H; repeat split; cli_keep.
Qed.

Lemma apply_cli_overrides_untouched_witness :
  match apply_cli_overrides default_config sample_args with
  | Ok done => title_text done = "Hydration break" /\ preview_delay_ms done = 2000
  | Raise _ => False
  end.
Proof.
  destruct (apply_cli_overrides default_config sample_args) as [done|e] eqn:H;
    [| vm_compute in H; discriminate H].
  destruct (apply_cli_overrides_untouched default_config sample_args done H)
    as ((H1 & _) & _ & (H2 & _) & _).
  rewrite H1, H2. split; reflexivity.
Defined.

Lemma when_given {A B} (p : AppConfig -> B) (value : option A) assign config :
  p (when value assign config)
  = match value with
    | Some v => p (assign v config)
    | None => p config
    end.
Proof. destruct value; reflexivity. Qed.

Lemma float_range (x : spec_float) :
  let clamped := float_min (Py.float_lit 1 1) (float_max (Py.float_lit 1 10) x) in
  SFleb (Py.float_lit 1 10) clamped = true /\ SFleb clamped (Py.float_lit 1 1) = true.
Proof.
  cbv zeta. unfold float_min, float_max.
  destruct (SFltb (Py.float_lit 1 10) x) eqn:Hlow.
  - destruct (SFltb x (Py.float_lit 1 1)) eqn:Hhigh.
    + unfold SFltb, SFleb in *.
      destruct (SFcompare (Py.float_lit 1 10) x) as [[]|]; try discriminate Hlow.
      destruct (SFcompare x (Py.float_lit 1 1)) as [[]|]; try discriminate Hhigh.
      split; reflexivity.
    + split; vm_compute; reflexivity.
  - replace (SFltb (Py.float_lit 1 10) (Py.float_lit 1 1)) with true by (vm_compute; reflexivity).
    split; vm_compute; reflexivity.
Qed.

(** X25. The bounds [apply_cli_overrides] puts on what it takes from
    the command line: a margin that is given is at least 0, a random
    delay at least 0 and a multiple of 1000 ms, a width at least 180,
    a height at least 120, an opacity between 0.1 and 1.0; but a width,
    height or opacity given as 0 counts as not given, and leaves the
    configured value, whatever it is. *)
Theorem apply_cli_overrides_bounds (c : AppConfig) (args : Args.t) (done : AppConfig) :
  apply_cli_overrides c args = Ok done ->
  (is_Some (Args.margin_x args) -> 0 <= margin_x done)
  /\ (is_Some (Args.margin_y args) -> 0 <= margin_y done)
  /\ (is_Some (Args.random args) ->
      0 <= random_offset_ms done /\ random_offset_ms done mod 1000 = 0)
  /\ (forall width, Args.width args = Some width ->
      if width =? 0 then overlay_width done = overlay_width c
      else 180 <= overlay_width done /\ width <= overlay_width done)
  /\ (forall height, Args.height args = Some height ->
      if height =? 0 then overlay_height done = overlay_height c
      else 120 <= overlay_height done /\ height <= overlay_height done)
  /\ (forall opacity, Args.opacity args = Some opacity ->
      if Py.bool (PFloat opacity)
      then SFleb (Py.float_lit 1 10) (overlay_opacity done) = true
           /\ SFleb (overlay_opacity done) (Py.float_lit 1 1) = true
      else overlay_opacity done = overlay_opacity c).
Proof.
  intros H. cli_numbers H.
  all: split; [intros [v Hv] | split; [intros [v Hv] | split; [intros [v Hv] |
         split; [intros v Hv | split; [intros v Hv | intros v Hv]]]]].
  all: repeat (rewrite when_keeps by (intros; reflexivity)).
  all: rewrite when_given, ?Hv; unfold given_int, given_float; cbn [Py.bool].
  all: try (cbn; lia).
  all: try (cbn; split; [lia | apply Z.mod_mul; lia]).
  all: try (destruct (v =? 0); cbn [negb]; [cli_keep | cbn; lia]).
  all: destruct v; cbn [overlay_opacity set_overlay_opacity];
         first [ exact (float_range _) | cli_keep ].
Qed.

Lemma apply_cli_overrides_bounds_witness :
  match apply_cli_overrides default_config sample_args with
  | Ok done => 0 <= margin_x done /\ 180 <= overlay_width done /\ overlay_height done = 180
  | Raise _ => False
  end.
Proof.
  destruct (apply_cli_overrides default_config sample_args) as [done|e] eqn:H;
    [| vm_compute in H; discriminate H].
  destruct (apply_cli_overrides_bounds default_config sample_args done H)
    as (H1 & _ & _ & H2 & H3 & _).
  split; [apply H1; cbn; eauto |].
  split; [apply (H2 100 eq_refl) | apply (H3 0 eq_refl)].
Defined.

Lemma given_float_Some (v : option spec_float) (x : spec_float) :
  v = Some x -> given_float v = if Py.bool (PFloat x) then Some x else None.
Proof. intros ->. reflexivity. Qed.

(** X26. The durations [apply_cli_overrides] takes from the command
    line have a floor: an interval that is not greater than 1 (minute),
    be it negative or not a number, gives exactly 60000 ms, an
    auto-hide delay not greater than 1 (second) gives 1000 ms, and an
    animation interval not greater than 0.05 (seconds) gives 50 ms;
    but a duration given as 0 counts as not given and leaves the
    configured value. An interval of plus infinity makes the call
    raise OverflowError. *)
Theorem apply_cli_overrides_durations (c : AppConfig) (args : Args.t) :
  (forall done, apply_cli_overrides c args = Ok done ->
     (forall x, Args.interval args = Some x ->
        if Py.bool (PFloat x)
        then SFltb (Py.float_lit 1 1) x = false -> reminder_interval_ms done = 60000
        else reminder_interval_ms done = reminder_interval_ms c)
     /\ (forall x, Args.autohide args = Some x ->
           if Py.bool (PFloat x)
           then SFltb (Py.float_lit 1 1) x = false -> auto_hide_ms done = 1000
           else auto_hide_ms done = auto_hide_ms c)
     /\ (forall x, Args.animation_speed args = Some x ->
           if Py.bool (PFloat x)
           then SFltb (Py.float_lit 5 100) x = false -> animation_interval_ms done = 50
           else animation_interval_ms done = animation_interval_ms c))
  /\ (Args.interval args = Some (S754_infinity false) ->
      apply_cli_overrides c args = Raise OverflowError).
Proof.
  split.
  - intros done H.
    split; [| split]; intros x Hx; apply given_float_Some in Hx;
      destruct (Py.bool (PFloat x)); try intros Hlow; cli_numbers H;
      try congruence; cli_keep.
    all: match goal with
         | Heq : Some _ = Some _ |- _ => injection Heq as ->
         end.
    all: cbn.
    all: match goal with
         | Hlow : SFltb ?lo ?y = false,
           Hms : Py.int_of_float (float_mul (float_max ?lo ?y) _) = Ok ?ms |- ?ms = _ =>
             unfold float_max in Hms; rewrite Hlow in Hms;
             vm_compute in Hms; injection Hms as <-; reflexivity
         end.
  - intros Hx. unfold apply_cli_overrides. rewrite Hx.
    match goal with
    | |- ?m ≫= _ = _ =>
        assert (Hm : m = Raise OverflowError) by (vm_compute; reflexivity); rewrite Hm
    end.
    reflexivity.
Qed.
